(** * The Remix Vite plugin: asset graph, manifest fingerprint, route export
      policy and dev watcher

    A shallow embedding of [packages/remix-dev/vite/plugin.ts].  Pure helpers
    are Rocq functions; code that can throw returns a [completion]; the one
    recursive walk of the import graph takes fuel, so that a run that never
    returns is visible as a run that exhausts every amount of fuel.  Calls
    into Vite, node:path, es-module-lexer and the sibling modules of the
    plugin are the fields of the class [Host]; the child compiler is a record
    of its methods. *)

From Stdlib Require Import List String Ascii Bool Arith NArith Lia.
Import ListNotations.
Set Warnings "-register-all".
Open Scope list_scope.
Open Scope string_scope.

(** ** JavaScript values the plugin manipulates *)

Module Js.

(** What a thrown value is: a [TypeError] of the runtime (property access on
    [undefined]) or an [Error] constructed by the plugin with a message. *)
Inductive JsError : Type :=
| TypeError
| Error (message : string).

(** The completion of a call: a returned value or a thrown error. *)
Inductive completion (A : Type) : Type :=
| Normal (a : A)
| Throw (e : JsError).
Arguments Normal {A} a.
Arguments Throw {A} e.

Definition bind {A B} (c : completion A) (k : A -> completion B) : completion B :=
  match c with
  | Normal a => k a
  | Throw e => Throw e
  end.

(** [s.startsWith(p)] *)
Definition startsWith (s p : string) : bool := String.prefix p s.

(** [s.endsWith(suffix)]: some tail of [s] is [suffix]. *)
Fixpoint endsWith (s suffix : string) : bool :=
  String.eqb s suffix
  || match s with
     | EmptyString => false
     | String _ s' => endsWith s' suffix
     end.

(** [s.includes(needle)]: [needle] starts at some position of [s]. *)
Fixpoint includes (s needle : string) : bool :=
  String.prefix needle s
  || match s with
     | EmptyString => false
     | String _ s' => includes s' needle
     end.

(** [s.replace(pat, by)] for a string pattern: the first occurrence only. *)
Fixpoint replace (s pat by_ : string) : string :=
  if String.prefix pat s
  then by_ ++ String.substring (String.length pat) (String.length s) s
  else match s with
       | EmptyString => EmptyString
       | String c s' => String c (replace s' pat by_)
       end.

(** [xs.join(sep)] *)
Definition join (sep : string) (xs : list string) : string := String.concat sep xs.

(** [xs.includes(x)] on an array of strings. *)
Definition arr_includes (xs : list string) (x : string) : bool :=
  existsb (String.eqb x) xs.

(** Decimal rendering of a non-negative integer, as template literals and
    [JSON.stringify] do. *)
Definition digit (n : N) : ascii := ascii_of_N (48 + n mod 10)%N.

Fixpoint decimal_aux (fuel : nat) (n : N) (acc : string) : string :=
  match fuel with
  | O => acc
  | S fuel' =>
      let acc' := String (digit n) acc in
      if N.eqb (n / 10) 0 then acc' else decimal_aux fuel' (n / 10)%N acc'
  end.

Definition decimal (n : N) : string := decimal_aux (S (N.to_nat (N.log2 n))) n EmptyString.

(** The double quote character, as a one-character string. *)
Definition dq : string := String (ascii_of_nat 34) EmptyString.

(** The backtick, which the plugin's messages put around names. *)
Definition bt : string := "`".

(** The message of a thrown value names [t] when [t] occurs in it. *)
Definition Mentions (s t : string) : Prop := exists a b, s = a ++ t ++ b.

End Js.
Import Js.

Declare Scope js_scope.
Notation "x <- c ;; k" := (bind c (fun x => k))
  (at level 61, c at next level, right associativity) : js_scope.
Open Scope js_scope.

(** ** SHA-256, as [createHash("sha256")] computes it (FIPS 180-4) *)

Module Sha256.

Local Open Scope N_scope.

Definition mask32 : N := 4294967295.

Definition add32 (a b : N) : N := N.land (a + b) mask32.

Definition rotr (n x : N) : N :=
  N.lor (N.shiftr x n) (N.land (N.shiftl x (32 - n)) mask32).

Definition not32 (x : N) : N := N.lxor x mask32.

Definition Ch (x y z : N) : N := N.lxor (N.land x y) (N.land (not32 x) z).
Definition Maj (x y z : N) : N :=
  N.lxor (N.lxor (N.land x y) (N.land x z)) (N.land y z).
Definition Sigma0 (x : N) : N := N.lxor (N.lxor (rotr 2 x) (rotr 13 x)) (rotr 22 x).
Definition Sigma1 (x : N) : N := N.lxor (N.lxor (rotr 6 x) (rotr 11 x)) (rotr 25 x).
Definition sigma0 (x : N) : N := N.lxor (N.lxor (rotr 7 x) (rotr 18 x)) (N.shiftr x 3).
Definition sigma1 (x : N) : N := N.lxor (N.lxor (rotr 17 x) (rotr 19 x)) (N.shiftr x 10).

(** The constants are not tabulated but computed as FIPS 180-4 defines
    them: the first 32 bits of the fractional parts of the cube roots (for
    the round constants) and of the square roots (for the initial hash
    value) of the first primes. *)
Definition is_prime (n : nat) : bool :=
  Nat.ltb 1 n && forallb (fun d => negb (Nat.eqb (n mod d) 0)) (seq 2 (n - 2)).

Definition primes (count : nat) : list N :=
  map N.of_nat (firstn count (filter is_prime (seq 2 400))).

(** The cube root of [n] rounded down, one bit at a time from bit [bits - 1]. *)
Fixpoint cube_root (bits : nat) (n r : N) : N :=
  match bits with
  | O => r
  | S bits' =>
      let r' := r + N.shiftl 1 (N.of_nat bits') in
      cube_root bits' n (if r' * r' * r' <=? n then r' else r)
  end.

Definition frac_cube_root (p : N) : N := N.land (cube_root 40 (N.shiftl p 96) 0) mask32.
Definition frac_square_root (p : N) : N := N.land (N.sqrt (N.shiftl p 64)) mask32.

Definition K : list N := Eval vm_compute in map frac_cube_root (primes 64).

(** The state of the hash: the eight working words. *)
Record state : Type := mkState { ha : N; hb : N; hc : N; hd : N; he : N; hf : N; hg : N; hh : N }.

Definition H0 : state :=
  Eval vm_compute in
    match map frac_square_root (primes 8) with
    | [a; b; c; d; e; f; g; h] => mkState a b c d e f g h
    | _ => mkState 0 0 0 0 0 0 0 0
    end.

(** The message: the bytes, [0x80], zeros up to 56 modulo 64, and the bit
    length as 8 big-endian bytes. *)
Definition bytes_of (s : string) : list N := map N_of_ascii (list_ascii_of_string s).

Definition be_bytes (count : nat) (x : N) : list N :=
  map (fun i => N.land (N.shiftr x (8 * N.of_nat i)) 255) (rev (seq 0 count)).

Definition pad (msg : list N) : list N :=
  let len := List.length msg in
  let zeros := ((64 - (len + 9) mod 64) mod 64)%nat in
  (msg ++ [128] ++ repeat 0 zeros ++ be_bytes 8 (8 * N.of_nat len))%list.

Definition word_of (b3 b2 b1 b0 : N) : N :=
  N.lor (N.shiftl b3 24) (N.lor (N.shiftl b2 16) (N.lor (N.shiftl b1 8) b0)).

Fixpoint words (fuel : nat) (bs : list N) : list N :=
  match fuel, bs with
  | S fuel', b3 :: b2 :: b1 :: b0 :: bs' => word_of b3 b2 b1 b0 :: words fuel' bs'
  | _, _ => []
  end.

(** The message schedule, most recent word first: [w] holds W(t-1), W(t-2), ... *)
Fixpoint schedule (count : nat) (w : list N) : list N :=
  match count with
  | O => w
  | S count' =>
      let wt := add32 (add32 (sigma1 (nth 1 w 0)) (nth 6 w 0))
                      (add32 (sigma0 (nth 14 w 0)) (nth 15 w 0)) in
      schedule count' (wt :: w)
  end.

Definition round (st : state) (kw : N * N) : state :=
  let (k, w) := kw in
  let t1 := add32 (add32 (add32 (hh st) (Sigma1 (he st))) (Ch (he st) (hf st) (hg st)))
                  (add32 k w) in
  let t2 := add32 (Sigma0 (ha st)) (Maj (ha st) (hb st) (hc st)) in
  mkState (add32 t1 t2) (ha st) (hb st) (hc st) (add32 (hd st) t1) (he st) (hf st) (hg st).

Definition compress (h : state) (block : list N) : state :=
  let w := rev (schedule 48 (rev block)) in
  let st := fold_left round (combine K w) h in
  mkState (add32 (ha h) (ha st)) (add32 (hb h) (hb st)) (add32 (hc h) (hc st))
          (add32 (hd h) (hd st)) (add32 (he h) (he st)) (add32 (hf h) (hf st))
          (add32 (hg h) (hg st)) (add32 (hh h) (hh st)).

Fixpoint blocks (fuel : nat) (ws : list N) (h : state) : state :=
  match fuel, ws with
  | S fuel', _ :: _ => blocks fuel' (skipn 16 ws) (compress h (firstn 16 ws))
  | _, _ => h
  end.

Definition digest (s : string) : state :=
  let bs := pad (bytes_of s) in
  blocks (List.length bs) (words (List.length bs) bs) H0.

(** [.digest("hex")]: lower-case hexadecimal, eight digits a word. *)
Definition hex_digit (n : N) : ascii :=
  ascii_of_N (if n <? 10 then 48 + n else 87 + n).

Definition hex_word (x : N) : string :=
  string_of_list_ascii
    (map (fun i => hex_digit (N.land (N.shiftr x (4 * N.of_nat i)) 15)) (rev (seq 0 8))).

Definition hex (st : state) : string :=
  hex_word (ha st) ++ hex_word (hb st) ++ hex_word (hc st) ++ hex_word (hd st)
  ++ hex_word (he st) ++ hex_word (hf st) ++ hex_word (hg st) ++ hex_word (hh st).

Definition sha256_hex (s : string) : string := hex (digest s).

End Sha256.

(** ** [JSON.stringify] without indentation

    A JavaScript string is held as its UTF-8 bytes, which is also what
    [hash.update(string)] feeds to the digest.  A property whose value is
    [undefined] is left out when the object is built, as [JSON.stringify]
    leaves it out. *)

Module Json.

Inductive value : Type :=
| JNull
| JBool (b : bool)
| JNum (n : N)
| JString (s : string)
| JArray (items : list value)
| JObject (members : list (string * value)).

Definition hex_nibble (n : N) : ascii := Sha256.hex_digit n.

(** QuoteJSONString, one character at a time. *)
Definition escape_char (c : ascii) : string :=
  let n := N_of_ascii c in
  if N.eqb n 34 then "\" ++ dq
  else if N.eqb n 92 then "\\"
  else if N.eqb n 8 then "\b"
  else if N.eqb n 9 then "\t"
  else if N.eqb n 10 then "\n"
  else if N.eqb n 12 then "\f"
  else if N.eqb n 13 then "\r"
  else if N.ltb n 32
       then "\u00" ++ String (hex_nibble (n / 16)) (String (hex_nibble (n mod 16)) EmptyString)
       else String c EmptyString.

Fixpoint escape (s : string) : string :=
  match s with
  | EmptyString => EmptyString
  | String c s' => escape_char c ++ escape s'
  end.

Definition quote (s : string) : string := dq ++ escape s ++ dq.

Fixpoint stringify (v : value) : string :=
  match v with
  | JNull => "null"
  | JBool true => "true"
  | JBool false => "false"
  | JNum n => decimal n
  | JString s => quote s
  | JArray items => "[" ++ join "," (map stringify items) ++ "]"
  | JObject members =>
      "{" ++ join "," (map (fun kv => quote (fst kv) ++ ":" ++ stringify (snd kv)) members) ++ "}"
  end.

(** The text of one member of an object. *)
Definition memberText (kv : string * value) : string :=
  quote (fst kv) ++ ":" ++ stringify (snd kv).

(** The character that one escape sequence at the head of a text stands
    for, and the rest of the text; nothing at a closing quote. *)
Definition unhex (c : ascii) : N :=
  let n := N_of_ascii c in if N.ltb n 58 then n - 48 else n - 87.

Definition unescape_char (s : string) : option (ascii * string) :=
  match s with
  | EmptyString => None
  | String c rest =>
      let n := N_of_ascii c in
      if N.eqb n 34 then None
      else if N.eqb n 92 then
        match rest with
        | EmptyString => None
        | String x rest' =>
            let m := N_of_ascii x in
            if N.eqb m 34 || N.eqb m 92 then Some (x, rest')
            else if N.eqb m 98 then Some (ascii_of_N 8, rest')
            else if N.eqb m 116 then Some (ascii_of_N 9, rest')
            else if N.eqb m 110 then Some (ascii_of_N 10, rest')
            else if N.eqb m 102 then Some (ascii_of_N 12, rest')
            else if N.eqb m 114 then Some (ascii_of_N 13, rest')
            else
              match rest' with
              | String _ (String _ (String h1 (String h2 rest''))) =>
                  Some (ascii_of_N (16 * unhex h1 + unhex h2), rest'')
              | _ => None
              end
        end
      else Some (c, rest)
  end.

(** A value in which no number occurs. *)
Fixpoint numberFree (v : value) : bool :=
  match v with
  | JNum _ => false
  | JArray items => forallb numberFree items
  | JObject members => forallb (fun kv => numberFree (snd kv)) members
  | _ => true
  end.

(** A property that is present only when its value is defined. *)
Definition optional {A : Type} (key : string) (inj : A -> value) (o : option A)
  : list (string * value) :=
  match o with
  | Some a => [(key, inj a)]
  | None => []
  end.

Definition strings (xs : list string) : value := JArray (map JString xs).

End Json.

(** ** Data model *)

(** A chunk of Vite's manifest.  [chunk_ref] is the identity of the object:
    [JSON.parse] allocates one object per manifest key, and [Set] compares
    objects by identity, not by content. *)
Record ManifestChunk : Type := mkChunk {
  chunk_ref : nat;
  file : string;
  imports : option (list string);
  css : option (list string);
  assets : option (list string);
}.

(** [Vite.Manifest]: an object from keys to chunks, as [JSON.parse] builds
    it from .vite/manifest.json.  The association list keeps the insertion
    order that [Object.keys] enumerates for keys that are file paths (a key
    is not a canonical array index, nor the name of a property inherited
    from [Object.prototype]). *)
Definition Manifest : Type := list (string * ManifestChunk).

(** [viteManifest[key]], [undefined] as [None]. *)
Fixpoint lookup {A : Type} (m : list (string * A)) (key : string) : option A :=
  match m with
  | [] => None
  | (k, c) :: m' => if String.eqb k key then Some c else lookup m' key
  end.

(** [Object.keys(viteManifest)] *)
Definition keys {A : Type} (m : list (string * A)) : list string := map fst m.

Definition SERVER_ONLY_ROUTE_EXPORTS : list string := ["loader"; "action"; "headers"].

Definition CLIENT_ROUTE_EXPORTS : list string :=
  ["clientAction"; "clientLoader"; "default"; "ErrorBoundary"; "handle";
   "HydrateFallback"; "links"; "meta"; "shouldRevalidate"].

Definition CLIENT_ROUTE_QUERY_STRING : string := "?client-route".

(** [ConfigRoute] of the route manifest; optional fields are [undefined]
    when absent. *)
Record ConfigRoute : Type := mkRoute {
  route_id : string;
  route_parentId : option string;
  route_path : option string;
  route_index : option bool;
  route_caseSensitive : option bool;
  route_file : string;
}.

Definition RouteManifest : Type := list (string * ConfigRoute).

(** [ResolvedVitePluginConfig].  [adapter] and [future] are kept as the JSON
    values [JSON.stringify] sees: of the adapter this is what is left of it
    without its functions ([buildEnd], and those inside [viteConfig]), so
    that two adapters which differ in a function only are the same value
    here.
    [serverBundles] is a function, of which only its presence is kept, since
    [JSON.stringify] leaves functions out. *)
Record ResolvedVitePluginConfig : Type := mkConfig {
  adapter : option Json.value;
  appDirectory : string;
  buildDirectory : string;
  future : Json.value;
  manifest : bool;
  publicPath : string;
  routes : RouteManifest;
  serverBuildFile : string;
  serverBundles : bool;
  serverModuleFormat : string;
  unstable_ssr : bool;
}.

Record RemixPluginContext : Type := mkCtx {
  rootDirectory : string;
  entryClientFilePath : string;
  entryServerFilePath : string;
  remixConfig : ResolvedVitePluginConfig;
}.

(** [BrowserManifest["entry"] & { css }], the result of
    [resolveBuildAssetPaths]. *)
Record AssetPaths : Type := mkAssets {
  asset_module : string;
  asset_imports : list string;
  asset_css : list string;
}.

(** An entry of [BrowserManifest["routes"]] as the production build fills it. *)
Record ManifestRoute : Type := mkManifestRoute {
  id : string;
  parentId : option string;
  path : option string;
  index : option bool;
  caseSensitive : option bool;
  hasAction : bool;
  hasLoader : bool;
  hasClientAction : bool;
  hasClientLoader : bool;
  hasErrorBoundary : bool;
  assetPaths : AssetPaths;
}.

(** [fingerprintedValues] and [nonFingerprintedValues] of the build manifest. *)
Record BrowserManifest : Type := mkBrowserManifest {
  entry : AssetPaths;
  manifest_routes : list (string * ManifestRoute);
  url : string;
  version : string;
}.

(** ** The host: Vite, node:path, es-module-lexer and the sibling modules
       of the plugin that the modelled code calls *)

Class Host : Type := {
  (** [vite.normalizePath] *)
  normalizePath : string -> string;
  (** [path.relative(from, to)], [path.join(a, b)], [path.resolve(a, b)],
      [path.basename(p)] *)
  path_relative : string -> string -> string;
  path_join : string -> string -> string;
  path_resolve : string -> string -> string;
  path_basename : string -> string;
  (** [resolveFileUrl] of ./resolve-file-url *)
  resolveFileUrl : RemixPluginContext -> string -> string;
  (** the export names [parse(code)[1].map(e => e.n)] of es-module-lexer,
      which throws on code it cannot scan *)
  esModuleLexer : string -> completion (list string);
  (** [removeExports] of ./remove-exports *)
  removeExports : string -> list string -> string;
  (** [fse.readFile(file, "utf-8")] *)
  fse_readFile : string -> completion string;
  (** [VirtualModule.id] and [VirtualModule.resolve] of ./vmod *)
  VirtualModule_id : string -> string;
  VirtualModule_resolve : string -> string;
  (** [colors.red] of picocolors *)
  colors_red : string -> string;
  (** the message of a failed [invariant] of ../invariant *)
  invariant_message : string;
}.

(** The child compiler, a second Vite dev server used to transform route
    files. *)
Record ViteDevServer : Type := mkChild {
  (** [(await pluginContainer.resolveId(url, undefined, { ssr }))?.id] *)
  pluginContainer_resolveId : string -> completion (option string);
  moduleGraph_ensureEntryFromUrl : string -> completion unit;
  (** [(await pluginContainer.transform(code, id, { ssr })).code] *)
  pluginContainer_transform : string -> string -> completion string;
}.

(** ** Asset graph resolver *)

Module AssetGraph.

Section WithHost.

Context `{Host}.

Definition quoteKey (key : string) : string := dq ++ key ++ dq.

Definition knownManifestKeys (m : Manifest) : string :=
  join ", " (map quoteKey (keys m)).

Definition rootRelativeFilePath (ctx : RemixPluginContext) (absoluteFilePath : string) : string :=
  normalizePath (path_relative (rootDirectory ctx) absoluteFilePath).

Definition notFoundMessage (rel : string) (m : Manifest) : string :=
  "No manifest entry found for " ++ dq ++ rel ++ dq ++ ". Known manifest keys: "
  ++ knownManifestKeys m.

(** [resolveChunk]: [a ?? b] takes [b] when [a] is [undefined]; a chunk
    is an object, so [!entryChunk] holds for [undefined] only. *)
Definition resolveChunk (ctx : RemixPluginContext) (viteManifest : Manifest)
           (absoluteFilePath : string) : completion ManifestChunk :=
  let rel := rootRelativeFilePath ctx absoluteFilePath in
  let entryChunk :=
    match lookup viteManifest (rel ++ CLIENT_ROUTE_QUERY_STRING) with
    | Some c => Some c
    | None => lookup viteManifest rel
    end in
  match entryChunk with
  | None => Throw (Error (notFoundMessage rel viteManifest))
  | Some c => Normal c
  end.

End WithHost.

(** [Set<Vite.ManifestChunk>]: insertion ordered, membership by identity. *)
Definition ChunkSet : Type := list ManifestChunk.

Definition set_has (s : ChunkSet) (c : ManifestChunk) : bool :=
  existsb (fun d => Nat.eqb (chunk_ref d) (chunk_ref c)) s.

Definition set_add (s : ChunkSet) (c : ManifestChunk) : ChunkSet :=
  if set_has s c then s else (s ++ [c])%list.

(** A [for ... of] loop whose body may throw or fail to return ([None]). *)
Fixpoint for_of {A S : Type} (body : A -> S -> option (completion S))
         (xs : list A) (s : S) : option (completion S) :=
  match xs with
  | [] => Some (Normal s)
  | x :: xs' =>
      match body x s with
      | Some (Normal s') => for_of body xs' s'
      | other => other
      end
  end.

(** The inner [walk] of [resolveDependantChunks], threading the set
    [chunks] it closes over.  [None] is a call that has not returned within
    [fuel] nested calls.  The chunk is added after its imports are walked. *)
Fixpoint walk (fuel : nat) (viteManifest : Manifest)
         (chunk : option ManifestChunk) (chunks : ChunkSet)
  : option (completion ChunkSet) :=
  match fuel with
  | 0 => None
  | S fuel' =>
      match chunk with
      | None => Some (Throw TypeError)
      | Some c =>
          if set_has chunks c then Some (Normal chunks)
          else
            let walked :=
              match imports c with
              | Some importKeys =>
                  for_of (fun importKey s => walk fuel' viteManifest (lookup viteManifest importKey) s)
                         importKeys chunks
              | None => Some (Normal chunks)
              end in
            match walked with
            | Some (Normal chunks') => Some (Normal (set_add chunks' c))
            | other => other
            end
      end
  end.

Definition resolveDependantChunks (fuel : nat) (viteManifest : Manifest)
           (entryChunks : list ManifestChunk) : option (completion (list ManifestChunk)) :=
  for_of (fun entryChunk s => walk fuel viteManifest (Some entryChunk) s) entryChunks [].

(** Nested calls enough for [walk] on a manifest whose import chains
    [depth] bounds. *)
Definition enoughFuel (viteManifest : Manifest) (depth : ManifestChunk -> nat) : nat :=
  S (S (list_max (map depth (map snd viteManifest)))).

(** The visited set holds chunks of the manifest, each once. *)
Definition FromManifest (viteManifest : Manifest) (s : ChunkSet) : Prop :=
  NoDup (map chunk_ref s) /\ incl s (map snd viteManifest).

(** [dedupe]: [[...new Set(array)]].  The [Set] constructor adds the
    elements in order; adding a present element changes nothing. *)
Definition str_set_add (s : list string) (x : string) : list string :=
  if arr_includes s x then s else (s ++ [x])%list.

Definition dedupe (array : list string) : list string :=
  fold_left str_set_add array [].

(** The distinct elements of a list in the order of their first
    occurrences, written from the words of the claim: the head comes first
    and its later copies are dropped. *)
Fixpoint firstOccurrences (xs : list string) : list string :=
  match xs with
  | [] => []
  | x :: xs' => x :: filter (fun y => negb (String.eqb y x)) (firstOccurrences xs')
  end.

(** [xs.map(f)] for an [f] that may throw: the first throw ends the map. *)
Fixpoint mapM {A B : Type} (f : A -> completion B) (xs : list A) : completion (list B) :=
  match xs with
  | [] => Normal []
  | x :: xs' => bind (f x) (fun y => bind (mapM f xs') (fun ys => Normal (y :: ys)))
  end.

(** [e.imports ?? []] *)
Definition orEmpty (o : option (list string)) : list string :=
  match o with Some l => l | None => [] end.

Section WithHostAssets.

Context `{Host}.

(** The URL of an imported chunk: [viteManifest[imported].file] behind the
    public path; a key missing from the manifest is a property access on
    [undefined]. *)
Definition importUrl (ctx : RemixPluginContext) (viteManifest : Manifest)
           (imported : string) : completion string :=
  match lookup viteManifest imported with
  | Some c => Normal (publicPath (remixConfig ctx) ++ file c)
  | None => Throw TypeError
  end.

Definition resolveBuildAssetPaths (fuel : nat) (ctx : RemixPluginContext)
           (viteManifest : Manifest) (entryFilePath : string)
           (prependedAssetFilePaths : list string) : option (completion AssetPaths) :=
  match resolveChunk ctx viteManifest entryFilePath with
  | Throw e => Some (Throw e)
  | Normal entryChunk =>
      match mapM (resolveChunk ctx viteManifest) prependedAssetFilePaths with
      | Throw e => Some (Throw e)
      | Normal prependedAssetChunks =>
          match resolveDependantChunks fuel viteManifest
                  (prependedAssetChunks ++ [entryChunk])%list with
          | None => None
          | Some (Throw e) => Some (Throw e)
          | Some (Normal chunks) =>
              Some (bind (mapM (importUrl ctx viteManifest)
                               (dedupe (flat_map (fun e => orEmpty (imports e)) chunks)))
                      (fun importUrls =>
                         Normal {|
                           asset_module := publicPath (remixConfig ctx) ++ file entryChunk
                                           ++ CLIENT_ROUTE_QUERY_STRING;
                           asset_imports := importUrls;
                           asset_css := map (fun href => publicPath (remixConfig ctx) ++ href)
                                            (dedupe (flat_map (fun e => orEmpty (css e)) chunks))
                         |}))
          end
      end
  end.

End WithHostAssets.

End AssetGraph.

Import AssetGraph.

(** ** Property access on the parsed manifest

    [viteManifest[key]] reads a property of the object that [JSON.parse]
    returned, and such an object inherits from [Object.prototype].  For a key
    the manifest does not have, the value is [undefined] unless the key is the
    name of an inherited property; then it is that property, a function or an
    object, which is truthy and is no chunk.  [lookup] above is the access to
    an own property; it is the whole access for every key that is not one of
    [objectPrototypeKeys]. *)

Module Prototype.

(** The properties of [Object.prototype]. *)
Definition objectPrototypeKeys : list string :=
  ["constructor"; "__defineGetter__"; "__defineSetter__"; "hasOwnProperty";
   "__lookupGetter__"; "__lookupSetter__"; "isPrototypeOf"; "propertyIsEnumerable";
   "toString"; "valueOf"; "__proto__"; "toLocaleString"].

(** The value of [viteManifest[key]]. *)
Inductive PropertyValue : Type :=
| OwnChunk (chunk : ManifestChunk)
| Inherited (name : string)
| Undefined.

Definition getProperty (viteManifest : Manifest) (key : string) : PropertyValue :=
  match lookup viteManifest key with
  | Some chunk => OwnChunk chunk
  | None => if arr_includes objectPrototypeKeys key then Inherited key else Undefined
  end.

Section WithHost.

Context `{Host}.

(** [resolveChunk] for any path: [a ?? b] takes [b] when [a] is
    [undefined], and [!entryChunk] holds for [undefined] only, an inherited
    property being a function or an object. *)
Definition resolveChunk (ctx : RemixPluginContext) (viteManifest : Manifest)
           (absoluteFilePath : string) : completion PropertyValue :=
  let rel := rootRelativeFilePath ctx absoluteFilePath in
  let entryChunk :=
    match getProperty viteManifest (rel ++ CLIENT_ROUTE_QUERY_STRING) with
    | Undefined => getProperty viteManifest rel
    | found => found
    end in
  match entryChunk with
  | Undefined => Throw (Error (notFoundMessage rel viteManifest))
  | found => Normal found
  end.

End WithHost.

End Prototype.

(** ** Build manifest synthesizer *)

Module BuildManifest.

(** [getHash]: the hex digest, cut to [maxLength] characters when given. *)
Definition getHash (source : string) (maxLength : option nat) : string :=
  let hash := Sha256.sha256_hex source in
  match maxLength with
  | Some n => String.substring 0 n hash
  | None => hash
  end.

(** How [JSON.stringify] sees the manifest: properties in creation order. *)
Definition assetPaths_json (a : AssetPaths) : Json.value :=
  Json.JObject [("module", Json.JString (asset_module a));
                ("imports", Json.strings (asset_imports a));
                ("css", Json.strings (asset_css a))].

Definition manifestRoute_members (r : ManifestRoute) : list (string * Json.value) :=
  ([("id", Json.JString (id r))]
   ++ Json.optional "parentId" Json.JString (parentId r)
   ++ Json.optional "path" Json.JString (path r)
   ++ Json.optional "index" Json.JBool (index r)
   ++ Json.optional "caseSensitive" Json.JBool (caseSensitive r)
   ++ [("hasAction", Json.JBool (hasAction r));
       ("hasLoader", Json.JBool (hasLoader r));
       ("hasClientAction", Json.JBool (hasClientAction r));
       ("hasClientLoader", Json.JBool (hasClientLoader r));
       ("hasErrorBoundary", Json.JBool (hasErrorBoundary r));
       ("module", Json.JString (asset_module (assetPaths r)));
       ("imports", Json.strings (asset_imports (assetPaths r)));
       ("css", Json.strings (asset_css (assetPaths r)))])%list.

Definition manifestRoute_json (r : ManifestRoute) : Json.value :=
  Json.JObject (manifestRoute_members r).

Definition routes_json (rs : list (string * ManifestRoute)) : Json.value :=
  Json.JObject (map (fun kv => (fst kv, manifestRoute_json (snd kv))) rs).

(** [fingerprintedValues = { entry, routes }] *)
Definition fingerprintedValues (e : AssetPaths) (rs : list (string * ManifestRoute))
  : Json.value :=
  Json.JObject [("entry", assetPaths_json e); ("routes", routes_json rs)].

Definition manifest_json (m : BrowserManifest) : Json.value :=
  Json.JObject [("entry", assetPaths_json (entry m));
                ("routes", routes_json (manifest_routes m));
                ("url", Json.JString (url m));
                ("version", Json.JString (version m))].

(** [getHash(JSON.stringify(fingerprintedValues), 8)] *)
Definition versionOf (e : AssetPaths) (rs : list (string * ManifestRoute)) : string :=
  getHash (Json.stringify (fingerprintedValues e rs)) (Some 8).

(** A file written by [writeFileSafe]. *)
Record WrittenFile : Type := mkWritten { written_path : string; written_contents : string }.

Section WithHost.

Context `{Host}.

(** [getRouteModuleExports].  The source starts the resolution of the id,
    the read of the file and [ensureEntryFromUrl] together and waits for the
    three; when more than one of them fails, the error is that of the one
    that fails first, taken here to be the first in this order. *)
Definition getRouteModuleExports (viteChildCompiler : option ViteDevServer)
           (ctx : RemixPluginContext) (routeFile : string)
           (readRouteFile : option (completion string)) : completion (list string) :=
  match viteChildCompiler with
  | None => Throw (Error "Vite child compiler not found")
  | Some child =>
      let routePath := path_resolve (appDirectory (remixConfig ctx)) routeFile in
      let url := resolveFileUrl ctx routePath in
      id <- (result <- pluginContainer_resolveId child url ;;
             match result with
             | None => Throw (Error ("Could not resolve module ID for " ++ url))
             | Some id => Normal id
             end) ;;
      code <- match readRouteFile with
              | Some contents => contents
              | None => fse_readFile routePath
              end ;;
      _ <- moduleGraph_ensureEntryFromUrl child url ;;
      transformed <- pluginContainer_transform child code id ;;
      esModuleLexer transformed
  end.

Definition getRouteManifestModuleExports (viteChildCompiler : option ViteDevServer)
           (ctx : RemixPluginContext) : completion (list (string * list string)) :=
  mapM (fun kv : string * ConfigRoute =>
          sourceExports <- getRouteModuleExports viteChildCompiler ctx (route_file (snd kv)) None ;;
          Normal (fst kv, sourceExports))
       (routes (remixConfig ctx)).

(** The body of the loop over [Object.entries(ctx.remixConfig.routes)]. *)
Definition buildRoute (fuel : nat) (ctx : RemixPluginContext) (viteManifest : Manifest)
           (routeManifestExports : list (string * list string))
           (key : string) (route : ConfigRoute) : option (completion ManifestRoute) :=
  let routeFilePath := path_join (appDirectory (remixConfig ctx)) (route_file route) in
  match lookup routeManifestExports key with
  | None => Some (Throw TypeError)
  | Some sourceExports =>
      let isRootRoute := match route_parentId route with None => true | Some _ => false end in
      match resolveBuildAssetPaths fuel ctx viteManifest routeFilePath
              (if isRootRoute then [entryClientFilePath ctx] else []) with
      | None => None
      | Some (Throw e) => Some (Throw e)
      | Some (Normal paths) =>
          Some (Normal {|
            id := route_id route;
            parentId := route_parentId route;
            path := route_path route;
            index := route_index route;
            caseSensitive := route_caseSensitive route;
            hasAction := arr_includes sourceExports "action";
            hasLoader := arr_includes sourceExports "loader";
            hasClientAction := arr_includes sourceExports "clientAction";
            hasClientLoader := arr_includes sourceExports "clientLoader";
            hasErrorBoundary := arr_includes sourceExports "ErrorBoundary";
            assetPaths := paths
          |})
      end
  end.

Definition buildRoutes (fuel : nat) (ctx : RemixPluginContext) (viteManifest : Manifest)
           (routeManifestExports : list (string * list string))
  : option (completion (list (string * ManifestRoute))) :=
  for_of (fun (kv : string * ConfigRoute) (built : list (string * ManifestRoute)) =>
            match buildRoute fuel ctx viteManifest routeManifestExports (fst kv) (snd kv) with
            | None => None
            | Some (Throw e) => Some (Throw e)
            | Some (Normal r) => Some (Normal (built ++ [(fst kv, r)])%list)
            end)
         (routes (remixConfig ctx)) [].

Definition getClientBuildDirectory (remixConfig : ResolvedVitePluginConfig) : string :=
  path_join (buildDirectory remixConfig) "client".

(** [createBrowserManifestForBuild].  [loaded] is what [loadViteManifest]
    read from the client build directory.  The result is the manifest and
    the file written for it. *)
Definition createBrowserManifestForBuild (fuel : nat) (loaded : completion Manifest)
           (viteChildCompiler : option ViteDevServer) (ctx : RemixPluginContext)
  : option (completion (BrowserManifest * WrittenFile)) :=
  match loaded with
  | Throw e => Some (Throw e)
  | Normal viteManifest =>
      match resolveBuildAssetPaths fuel ctx viteManifest (entryClientFilePath ctx) [] with
      | None => None
      | Some (Throw e) => Some (Throw e)
      | Some (Normal entry) =>
          match getRouteManifestModuleExports viteChildCompiler ctx with
          | Throw e => Some (Throw e)
          | Normal routeManifestExports =>
              match buildRoutes fuel ctx viteManifest routeManifestExports with
              | None => None
              | Some (Throw e) => Some (Throw e)
              | Some (Normal routes) =>
                  let version := versionOf entry routes in
                  let manifestPath := "assets/manifest-" ++ version ++ ".js" in
                  let url := publicPath (remixConfig ctx) ++ manifestPath in
                  let manifest := mkBrowserManifest entry routes url version in
                  Some (Normal
                          (manifest,
                           mkWritten
                             (path_join (getClientBuildDirectory (remixConfig ctx)) manifestPath)
                             ("window.__remixManifest=" ++ Json.stringify (manifest_json manifest)
                              ++ ";")))
              end
          end
      end
  end.

End WithHost.

End BuildManifest.

Import BuildManifest.

(** ** Route export policy: the transforms and the resolver of the plugin *)

Module RouteExports.

Section WithHost.

Context `{Host}.

(** [getRoute]: the route whose file is [file], looked up by the path of
    [file] relative to the app directory. *)
Definition getRoute (pluginConfig : ResolvedVitePluginConfig) (file : string)
  : option ConfigRoute :=
  if negb (startsWith file (normalizePath (appDirectory pluginConfig))) then None
  else
    let routePath := normalizePath (path_relative (appDirectory pluginConfig) file) in
    find (fun r => String.eqb (route_file r) routePath) (map snd (routes pluginConfig)).

Definition backticked (name : string) : string := bt ++ name ++ bt.

Definition spaInvalidExportsMessage (serverOnlyExports : list string) (route : ConfigRoute)
  : string :=
  "SPA Mode: " ++ decimal (N.of_nat (List.length serverOnlyExports))
  ++ " invalid route export(s) in " ++ bt ++ route_file route ++ bt ++ ": "
  ++ join ", " (map backticked serverOnlyExports)
  ++ ". See https://remix.run/future/spa-mode " ++ "for more information.".

Definition spaHydrateFallbackMessage (route : ConfigRoute) : string :=
  "SPA Mode: Invalid `HydrateFallback` export found in "
  ++ bt ++ route_file route ++ bt ++ ". `HydrateFallback` is only permitted on "
  ++ "the root route in SPA Mode. See https://remix.run/future/spa-mode "
  ++ "for more information.".

(** The checks made when [unstable_ssr] is off. *)
Definition spaModeChecks (code : string) (route : ConfigRoute) : completion unit :=
  exports <- esModuleLexer code ;;
  let serverOnlyExports :=
    filter (fun exp => arr_includes SERVER_ONLY_ROUTE_EXPORTS exp) exports in
  if Nat.ltb 0 (List.length serverOnlyExports)
  then Throw (Error (spaInvalidExportsMessage serverOnlyExports route))
  else
    if negb (String.eqb (route_id route) "root")
    then
      exports' <- esModuleLexer code ;;
      if existsb (fun exp => String.eqb exp "HydrateFallback") exports'
      then Throw (Error (spaHydrateFallbackMessage route))
      else Normal tt
    else Normal tt.

(** [transform] of the plugin "remix-route-exports".  [ssr] is
    [options?.ssr]; [None] is a hook that returns nothing. *)
Definition routeExportsTransform (ctx : RemixPluginContext) (code id : string) (ssr : bool)
  : completion (option string) :=
  if ssr then Normal None
  else
    match getRoute (remixConfig ctx) id with
    | None => Normal None
    | Some route =>
        _ <- (if negb (unstable_ssr (remixConfig ctx))
              then spaModeChecks code route
              else Normal tt) ;;
        Normal (Some (removeExports code SERVER_ONLY_ROUTE_EXPORTS))
    end.

(** The names re-exported by the client-route variant of a route module. *)
Definition clientExports (sourceExports : list string) : list string :=
  filter (fun exportName => arr_includes CLIENT_ROUTE_EXPORTS exportName) sourceExports.

(** [transform] of the plugin "remix" on an id that ends with the
    client-route query string; [None] on any other id.  The copy of a CSS
    modules file that the hook first stores in [cssModulesManifest] does not
    reach this result. *)
Definition clientRouteTransform (viteChildCompiler : option ViteDevServer)
           (ctx : RemixPluginContext) (id : string) : completion (option string) :=
  if endsWith id CLIENT_ROUTE_QUERY_STRING
  then
    let routeModuleId := replace id CLIENT_ROUTE_QUERY_STRING EmptyString in
    sourceExports <- getRouteModuleExports viteChildCompiler ctx routeModuleId None ;;
    let routeFileName := path_basename routeModuleId in
    Normal (Some ("export { " ++ join ", " (clientExports sourceExports)
                  ++ " } from " ++ dq ++ "./" ++ routeFileName ++ dq ++ ";"))
  else Normal None.

(** [/\.server(\.[cm]?[jt]sx?)?$/]: the extensions the optional group admits. *)
Definition serverFileExtensions : list string :=
  EmptyString ::
  flat_map (fun cm => flat_map (fun jt => map (fun x => "." ++ cm ++ jt ++ "s" ++ x)
                                              [EmptyString; "x"])
                               ["j"; "t"])
           [EmptyString; "c"; "m"].

Definition serverFileRE (s : string) : bool :=
  existsb (fun ext => endsWith s (".server" ++ ext)) serverFileExtensions.

(** [/\/\.server\//] *)
Definition serverDirRE (s : string) : bool := includes s "/.server/".

Definition docsLink : string :=
  "  See https://remix.run/docs/en/main/future/vite#splitting-up-client-and-server-code".

Definition nl : string := String (ascii_of_nat 10) EmptyString.

Definition dotServerRouteMessage (id importerShort : string) : string :=
  join nl
    [colors_red "Server-only module referenced by client";
     EmptyString;
     "    '" ++ id ++ "' imported by route '" ++ importerShort ++ "'";
     EmptyString;
     "  Remix automatically removes server-code from these exports:";
     "    " ++ join ", " (map backticked SERVER_ONLY_ROUTE_EXPORTS);
     EmptyString;
     "  But other route exports in '" ++ importerShort ++ "' depend on '" ++ id ++ "'.";
     EmptyString;
     docsLink;
     EmptyString].

Definition dotServerMessage (id importerShort : string) : string :=
  join nl
    [colors_red "Server-only module referenced by client";
     EmptyString;
     "    '" ++ id ++ "' imported by '" ++ importerShort ++ "'";
     EmptyString;
     docsLink;
     EmptyString].

(** [resolveId] of the plugin "remix-dot-server", called by Vite with its
    [options].  [ssr] is [options?.ssr], [isResolving] the flag this plugin
    sets in [options.custom] before it asks the other plugins, and
    [this_resolve] the id they resolve to ([null] as [None]).  An importer
    that is [undefined] or empty is falsy. *)
Definition dotServerResolveId (viteCommand : string) (ctx : RemixPluginContext)
           (this_resolve : string -> option string -> completion (option string))
           (id : string) (importer : option string) (ssr isResolving : bool)
  : completion (option string) :=
  if ssr then Normal None
  else if isResolving then Normal None
  else
    resolved <- this_resolve id importer ;;
    match resolved with
    | None => Normal None
    | Some resolvedId =>
        let isDotServer := serverFileRE resolvedId || serverDirRE resolvedId in
        if negb isDotServer then Normal None
        else
          match importer with
          | None => Normal None
          | Some importer =>
              if String.eqb importer EmptyString then Normal None
              else if negb (String.eqb viteCommand "build") && endsWith importer ".html"
              then Normal None
              else
                let importerShort :=
                  normalizePath (path_relative (rootDirectory ctx) importer) in
                match getRoute (remixConfig ctx) importer with
                | Some _ => Throw (Error (dotServerRouteMessage id importerShort))
                | None => Throw (Error (dotServerMessage id importerShort))
                end
          end
    end.

End WithHost.

End RouteExports.

Import RouteExports.

(** ** Dev consistency controller: the watcher and the hot-update hook *)

Module Dev.

(** What [getRouteMetadata] returns, the [route] of the hot-update event. *)
Record RouteMetadata : Type := mkInfo {
  info_id : string;
  info_parentId : option string;
  info_path : option string;
  info_index : option bool;
  info_caseSensitive : option bool;
  info_url : string;
  info_module : string;
  info_hasAction : bool;
  info_hasClientAction : bool;
  info_hasLoader : bool;
  info_hasClientLoader : bool;
  info_hasErrorBoundary : bool;
  info_imports : list string;
}.

(** A payload given to [server.ws.send]. *)
Record HmrPayload : Type := mkPayload {
  payload_type : string;
  payload_event : string;
  payload_route : option RouteMetadata;
}.

(** The dev server as the plugin acts on it: the ids that have a module in
    the module graph, the calls of [moduleGraph.invalidateModule] and of
    [ws.send] made so far, oldest first. *)
Record DevServer : Type := mkServer {
  moduleGraph : list string;
  invalidated : list string;
  ws_sent : list HmrPayload;
}.

(** The variables the plugin closes over. *)
Record PluginState : Type := mkPlugin {
  ctx : RemixPluginContext;
  viteConfig_configFile : option string;
  viteChildCompiler : option ViteDevServer;
}.

(** A path is under a directory when it is the directory or continues it
    after a slash; written from the words of the claim, for paths that are
    absolute and normal. *)
Definition isUnder (directory file : string) : bool :=
  String.eqb file directory || startsWith file (directory ++ "/").

Definition isEqualJson (v1 v2 : Json.value) : bool :=
  String.eqb (Json.stringify v1) (Json.stringify v2).

(** A route as [JSON.stringify] sees it.  The order of the properties is
    that in which ../config built the object, which differs between its
    builders; it is taken here as path, index, caseSensitive, id, parentId,
    file.  The results below are about two texts being different, which
    holds for routes that differ in a field in whatever order the properties
    come. *)
Definition route_json (r : ConfigRoute) : Json.value :=
  Json.JObject
    (Json.optional "path" Json.JString (route_path r)
     ++ Json.optional "index" Json.JBool (route_index r)
     ++ Json.optional "caseSensitive" Json.JBool (route_caseSensitive r)
     ++ [("id", Json.JString (route_id r))]
     ++ Json.optional "parentId" Json.JString (route_parentId r)
     ++ [("file", Json.JString (route_file r))])%list.

(** [remixConfig] as [JSON.stringify] sees it: the properties in the order
    of the object literal, [undefined] ones and the [serverBundles] function
    left out. *)
Definition remixConfig_json (c : ResolvedVitePluginConfig) : Json.value :=
  Json.JObject
    (Json.optional "adapter" (fun v => v) (adapter c)
     ++ [("appDirectory", Json.JString (appDirectory c));
         ("buildDirectory", Json.JString (buildDirectory c));
         ("future", future c);
         ("manifest", Json.JBool (manifest c));
         ("publicPath", Json.JString (publicPath c));
         ("routes", Json.JObject (map (fun kv => (fst kv, route_json (snd kv))) (routes c)));
         ("serverBuildFile", Json.JString (serverBuildFile c));
         ("serverModuleFormat", Json.JString (serverModuleFormat c));
         ("unstable_ssr", Json.JBool (unstable_ssr c))])%list.

Section WithHost.

Context `{Host}.

Definition serverBuildId : string := VirtualModule_id "server-build".
Definition serverManifestId : string := VirtualModule_id "server-manifest".
Definition browserManifestId : string := VirtualModule_id "browser-manifest".

Definition vmods : list string := [serverBuildId; serverManifestId; browserManifestId].

(** [invalidateVirtualModules]: each declared virtual module that has a
    module in the graph is invalidated. *)
Definition invalidateVirtualModules (viteDevServer : DevServer) : DevServer :=
  fold_left
    (fun server vmod =>
       let resolved := VirtualModule_resolve vmod in
       if arr_includes (moduleGraph server) resolved
       then mkServer (moduleGraph server) (invalidated server ++ [resolved])%list
                     (ws_sent server)
       else server)
    vmods viteDevServer.

(** [updateRemixPluginContext] replaces [ctx].  What it resolves from the
    user's config, the adapter and the route files on disk is its input
    [resolved]. *)
Definition updateRemixPluginContext (resolved : completion RemixPluginContext)
           (st : PluginState) : completion PluginState :=
  ctx' <- resolved ;;
  Normal (mkPlugin ctx' (viteConfig_configFile st) (viteChildCompiler st)).

Definition appFileAddedOrRemoved (st : PluginState) (eventName filepath : string) : bool :=
  (String.eqb eventName "add" || String.eqb eventName "unlink")
  && startsWith (normalizePath filepath)
                (normalizePath (appDirectory (remixConfig (ctx st)))).

Definition viteConfigChanged (configFile eventName filepath : string) : bool :=
  String.eqb eventName "change"
  && String.eqb (normalizePath filepath) (normalizePath configFile).

(** The handler of [viteDevServer.watcher.on("all", ...)]. *)
Definition onWatcherEvent (resolved : completion RemixPluginContext)
           (eventName filepath : string) (st : PluginState) (viteDevServer : DevServer)
  : completion (PluginState * DevServer) :=
  let added := appFileAddedOrRemoved st eventName filepath in
  match viteConfig_configFile st with
  | None => Throw (Error invariant_message)
  | Some configFile =>
      if String.eqb configFile EmptyString then Throw (Error invariant_message)
      else
        if added || viteConfigChanged configFile eventName filepath
        then
          let lastRemixConfig := remixConfig (ctx st) in
          st' <- updateRemixPluginContext resolved st ;;
          if negb (isEqualJson (remixConfig_json lastRemixConfig)
                               (remixConfig_json (remixConfig (ctx st'))))
          then Normal (st', invalidateVirtualModules viteDevServer)
          else Normal (st', viteDevServer)
        else Normal (st, viteDevServer)
  end.

Definition resolveRelativeRouteFilePath (route : ConfigRoute)
           (remixConfig : ResolvedVitePluginConfig) : string :=
  normalizePath (path_resolve (appDirectory remixConfig) (route_file route)).

Definition getRouteMetadata (ctx : RemixPluginContext)
           (viteChildCompiler : option ViteDevServer) (route : ConfigRoute)
           (readRouteFile : option (completion string)) : completion RouteMetadata :=
  sourceExports <- getRouteModuleExports viteChildCompiler ctx (route_file route) readRouteFile ;;
  Normal {|
    info_id := route_id route;
    info_parentId := route_parentId route;
    info_path := route_path route;
    info_index := route_index route;
    info_caseSensitive := route_caseSensitive route;
    info_url := "/" ++ path_relative (rootDirectory ctx)
                                     (resolveRelativeRouteFilePath route (remixConfig ctx));
    info_module := resolveFileUrl ctx (resolveRelativeRouteFilePath route (remixConfig ctx))
                   ++ "?import";
    info_hasAction := arr_includes sourceExports "action";
    info_hasClientAction := arr_includes sourceExports "clientAction";
    info_hasLoader := arr_includes sourceExports "loader";
    info_hasClientLoader := arr_includes sourceExports "clientLoader";
    info_hasErrorBoundary := arr_includes sourceExports "ErrorBoundary";
    info_imports := []
  |}.

(** Whether one of the five capability flags of the loaded manifest's route
    differs from the fresh metadata. *)
Definition flagsDiffer (oldRouteMetadata : ManifestRoute) (newRouteMetadata : RouteMetadata)
  : bool :=
  existsb (fun differs : bool => differs)
    [negb (Bool.eqb (hasLoader oldRouteMetadata) (info_hasLoader newRouteMetadata));
     negb (Bool.eqb (hasClientLoader oldRouteMetadata) (info_hasClientLoader newRouteMetadata));
     negb (Bool.eqb (hasAction oldRouteMetadata) (info_hasAction newRouteMetadata));
     negb (Bool.eqb (hasClientAction oldRouteMetadata) (info_hasClientAction newRouteMetadata));
     negb (Bool.eqb (hasErrorBoundary oldRouteMetadata) (info_hasErrorBoundary newRouteMetadata))].

Definition hmrPayload (route : option RouteMetadata) : HmrPayload :=
  mkPayload "custom" "remix:hmr" route.

Definition ws_send (server : DevServer) (payload : HmrPayload) : DevServer :=
  mkServer (moduleGraph server) (invalidated server) (ws_sent server ++ [payload])%list.

(** [handleHotUpdate] of the plugin "remix-hmr-updates".  [loadedRoutes] is
    the [routes] of the manifest that [server.ssrLoadModule(serverManifestId)]
    gives, [read] the reader of the changed file.  The result is the dev
    server after the hook and how the hook ended: with [modules] as it got
    them, or with the error of the [await] that failed, before which the hook
    has called nothing on the server.  For a route id that the loaded routes
    do not have, [oldRouteMetadata] is [undefined], or a property that the
    object inherits, whose five flags are [undefined]: the hook invalidates
    in both cases. *)
Definition handleHotUpdate (st : PluginState)
           (loadedRoutes : completion (list (string * ManifestRoute)))
           (server : DevServer) (file : string) (modules : list string)
           (read : completion string) : DevServer * completion (list string) :=
  match getRoute (remixConfig (ctx st)) file with
  | None => (ws_send server (hmrPayload None), Normal modules)
  | Some route =>
      match loadedRoutes with
      | Throw e => (server, Throw e)
      | Normal serverManifestRoutes =>
          let oldRouteMetadata := lookup serverManifestRoutes (route_id route) in
          match getRouteMetadata (ctx st) (viteChildCompiler st) route (Some read) with
          | Throw e => (server, Throw e)
          | Normal newRouteMetadata =>
              let server' :=
                match oldRouteMetadata with
                | None => invalidateVirtualModules server
                | Some old =>
                    if flagsDiffer old newRouteMetadata then invalidateVirtualModules server
                    else server
                end in
              (ws_send server' (hmrPayload (Some newRouteMetadata)), Normal modules)
          end
      end
  end.

End WithHost.

End Dev.

Import Dev.

(** ** A host and a project for the concrete runs below *)

Module Examples.

(** [path.relative(from, to)] for a [to] inside the directory [from], both
    absolute and normal: the rest of [to] after [from] and a slash. *)
Definition relativeInside (from to : string) : string :=
  let base := from ++ "/" in
  if String.prefix base to
  then String.substring (String.length base) (String.length to - String.length base) to
  else to.

(** [path.basename(p)]: what follows the last slash. *)
Fixpoint lastSegment (p : string) : string :=
  match p with
  | EmptyString => EmptyString
  | String _ p' => if includes p "/" then lastSegment p' else p
  end.

(** The route modules of the examples and the export names
    es-module-lexer finds in them. *)
Definition indexModule : string :=
  "export function HydrateFallback() { return null; } export default function Index() { return null; }".
Definition aboutModule : string :=
  "export function loader() { return null; } export default function About() { return null; }".
Definition rootModule : string :=
  "export function HydrateFallback() { return null; } export default function Root() { return null; }".

Definition lexer (code : string) : completion (list string) :=
  if String.eqb code indexModule then Normal ["HydrateFallback"; "default"]
  else if String.eqb code aboutModule then Normal ["loader"; "default"]
  else if String.eqb code rootModule then Normal ["HydrateFallback"; "default"]
  else Normal [].

(** The files of the example project. *)
Definition readExampleFile (file : string) : completion string :=
  if String.eqb file "/proj/app/routes/about.tsx" then Normal aboutModule
  else if String.eqb file "/proj/app/routes/_index.tsx" then Normal indexModule
  else if String.eqb file "/proj/app/root.tsx" then Normal rootModule
  else Throw (Error "ENOENT").

(** A child compiler that resolves a URL to the file below the project root
    and has nothing to transform in a module that is JavaScript already. *)
Definition exampleChild : ViteDevServer := {|
  pluginContainer_resolveId := fun url => Normal (Some ("/proj" ++ url));
  moduleGraph_ensureEntryFromUrl := fun _ => Normal tt;
  pluginContainer_transform := fun code _ => Normal code;
|}.

(** A POSIX host on the absolute, normal paths of the examples: paths are
    joined with a slash, [normalizePath] has nothing to change, colours are
    off, and [removeExports] is only applied to modules that have none of the
    exports to remove. *)
Definition posix : Host := {|
  normalizePath := fun p => p;
  path_relative := relativeInside;
  path_join := fun a b => a ++ "/" ++ b;
  path_resolve := fun a b => if String.prefix "/" b then b else a ++ "/" ++ b;
  path_basename := lastSegment;
  resolveFileUrl := fun ctx filePath => "/" ++ relativeInside (rootDirectory ctx) filePath;
  esModuleLexer := lexer;
  removeExports := fun code _ => code;
  fse_readFile := readExampleFile;
  VirtualModule_id := fun name => "virtual:remix/" ++ name;
  VirtualModule_resolve := fun id => String (ascii_of_nat 0) id;
  colors_red := fun text => text;
  invariant_message := "Invariant failed";
|}.

Definition rootRoute : ConfigRoute :=
  mkRoute "root" None (Some EmptyString) None None "root.tsx".
Definition indexRoute : ConfigRoute :=
  mkRoute "routes/_index" (Some "root") None (Some true) None "routes/_index.tsx".
Definition aboutRoute : ConfigRoute :=
  mkRoute "routes/about" (Some "root") (Some "about") None None "routes/about.tsx".

Definition exampleRoutes : RouteManifest :=
  [("root", rootRoute); ("routes/_index", indexRoute); ("routes/about", aboutRoute)].

Definition exampleConfig (ssr : bool) : ResolvedVitePluginConfig := {|
  adapter := None;
  appDirectory := "/proj/app";
  buildDirectory := "/proj/build";
  future := Json.JObject [];
  manifest := false;
  publicPath := "/";
  routes := exampleRoutes;
  serverBuildFile := "index.js";
  serverBundles := false;
  serverModuleFormat := "esm";
  unstable_ssr := ssr;
|}.

Definition exampleCtx (ssr : bool) : RemixPluginContext :=
  mkCtx "/proj" "/proj/app/entry.client.tsx" "/proj/app/entry.server.tsx" (exampleConfig ssr).


(** A manifest in which every key has a file of its own. *)
Definition plainManifest : Manifest :=
  [("app/root.tsx?client-route",
    mkChunk 0 "assets/root-1a2b3c4d.js" (Some ["_left.js"; "_right.js"])
            (Some ["assets/root-5e6f7a8b.css"]) None);
   ("_left.js", mkChunk 1 "assets/left-9c0d1e2f.js" (Some ["_right.js"])
                        (Some ["assets/root-5e6f7a8b.css"]) None);
   ("_right.js", mkChunk 2 "assets/right-3a4b5c6d.js" None None None)].

(** The Vite manifest of the client build of the example project, with the
    output file of the index route left open. *)
Definition clientBuild (indexFile : string) : Manifest :=
  [("app/entry.client.tsx",
    mkChunk 0 "assets/entry.client-a1b2c3d4.js" (Some ["_components-e5f6a7b8.js"]) None None);
   ("_components-e5f6a7b8.js", mkChunk 1 "assets/components-e5f6a7b8.js" None None None);
   ("app/root.tsx?client-route",
    mkChunk 2 "assets/root-0f1e2d3c.js" (Some ["_components-e5f6a7b8.js"])
            (Some ["assets/root-4b5a6978.css"]) None);
   ("app/routes/_index.tsx?client-route",
    mkChunk 3 indexFile (Some ["_components-e5f6a7b8.js"]) None None);
   ("app/routes/about.tsx?client-route",
    mkChunk 4 "assets/about-9d8c7b6a.js" (Some ["_components-e5f6a7b8.js"]) None None)].

(** The production manifest of the example project for a given output file
    of the index route. *)
Definition exampleBuild (indexFile : string)
  : option (completion (BrowserManifest * WrittenFile)) :=
  @createBrowserManifestForBuild posix 5 (Normal (clientBuild indexFile))
                                 (Some exampleChild) (exampleCtx true).

(** The script URL of the route [key] in a manifest that was built. *)
Definition builtModule (built : option (completion (BrowserManifest * WrittenFile)))
           (key : string) : option string :=
  match built with
  | Some (Normal (m, _)) =>
      match lookup (manifest_routes m) key with
      | Some r => Some (asset_module (assetPaths r))
      | None => None
      end
  | _ => None
  end.

Definition builtVersion (built : option (completion (BrowserManifest * WrittenFile)))
  : option string :=
  match built with
  | Some (Normal (m, _)) => Some (version m)
  | _ => None
  end.

(** The manifest and the file of one such build. *)
Definition builtExample : BrowserManifest * WrittenFile :=
  Eval vm_compute in
    match exampleBuild "assets/_index-425bf6ae.js" with
    | Some (Normal built) => built
    | _ => (mkBrowserManifest (mkAssets EmptyString [] []) [] EmptyString EmptyString,
            mkWritten EmptyString EmptyString)
    end.

(** The dev session of the example project: the server manifest is the one
    virtual module loaded so far. *)
Definition devState : PluginState :=
  mkPlugin (exampleCtx true) (Some "/proj/vite.config.ts") (Some exampleChild).

Definition devServer : DevServer :=
  mkServer [String (ascii_of_nat 0) "virtual:remix/server-manifest"; "/proj/app/root.tsx"]
           [] [].

(** The context resolved once a route file [routes/new.tsx] exists. *)
Definition newRoute : ConfigRoute :=
  mkRoute "routes/new" (Some "root") (Some "new") None None "routes/new.tsx".

Definition freshCtx : RemixPluginContext :=
  mkCtx "/proj" "/proj/app/entry.client.tsx" "/proj/app/entry.server.tsx"
        {| adapter := None;
           appDirectory := "/proj/app";
           buildDirectory := "/proj/build";
           future := Json.JObject [];
           manifest := false;
           publicPath := "/";
           routes := (exampleRoutes ++ [("routes/new", newRoute)])%list;
           serverBuildFile := "index.js";
           serverBundles := false;
           serverModuleFormat := "esm";
           unstable_ssr := true |}.

(** Every import resolves to the server-only file [app/db.server.ts]. *)
Definition resolvesToDbServer (id : string) (importer : option string)
  : completion (option string) :=
  Normal (Some "/proj/app/db.server.ts").

(** The manifest of two chunks that import each other:
    [{ "a.ts": { file: "assets/a.js", imports: ["b.ts"] },
       "b.ts": { file: "assets/b.js", imports: ["a.ts"] } }]. *)
Definition chunkA : ManifestChunk := mkChunk 0 "assets/a.js" (Some ["b.ts"]) None None.
Definition chunkB : ManifestChunk := mkChunk 1 "assets/b.js" (Some ["a.ts"]) None None.
Definition cyclicManifest : Manifest := [("a.ts", chunkA); ("b.ts", chunkB)].

End Examples.

(** ** The import graph of a manifest *)

Module Graph.

(** The chunks that the walk from [entryChunks] is to collect: the entry
    chunks and, with a chunk, the chunks its import keys resolve to. *)
Inductive Reachable (viteManifest : Manifest) (entryChunks : list ManifestChunk)
  : ManifestChunk -> Prop :=
| reach_entry (c : ManifestChunk) :
    In c entryChunks -> Reachable viteManifest entryChunks c
| reach_import (c : ManifestChunk) (importKey : string) (c' : ManifestChunk) :
    Reachable viteManifest entryChunks c ->
    In importKey (orEmpty (imports c)) ->
    lookup viteManifest importKey = Some c' ->
    Reachable viteManifest entryChunks c'.

(** Every import key of a chunk of [s] resolves to a chunk that [s] has. *)
Definition ImportClosed (viteManifest : Manifest) (s : ChunkSet) : Prop :=
  forall c importKey,
    In c s -> In importKey (orEmpty (imports c)) ->
    exists c', lookup viteManifest importKey = Some c' /\ set_has s c' = true.

(** A manifest as [JSON.parse] builds it: one object per entry, import
    keys that are keys of the manifest. *)
Definition DistinctObjects (viteManifest : Manifest) : Prop :=
  NoDup (map chunk_ref (map snd viteManifest)).

Definition ImportsResolve (viteManifest : Manifest) : Prop :=
  forall c importKey,
    In c (map snd viteManifest) -> In importKey (orEmpty (imports c)) ->
    exists c', lookup viteManifest importKey = Some c'.

End Graph.

(** ** The manifest served in development *)

Module DevManifest.

(** What [getBrowserManifestForDev] returns.  The entry and the routes have
    no [css] property in development: [asset_css] is empty in them, and
    nothing reads it. *)
Record DevBrowserManifest : Type := mkDevManifest {
  dev_version : string;
  dev_url : string;
  dev_hmr_runtime : string;
  dev_entry : AssetPaths;
  dev_routes : list (string * ManifestRoute);
}.

Section WithHost.

Context `{Host}.

(** The body of the loop over [Object.entries(ctx.remixConfig.routes)]. *)
Definition devRoute (ctx : RemixPluginContext)
           (routeManifestExports : list (string * list string))
           (key : string) (route : ConfigRoute) : completion ManifestRoute :=
  match lookup routeManifestExports key with
  | None => Throw TypeError
  | Some sourceExports =>
      Normal {|
        id := route_id route;
        parentId := route_parentId route;
        path := route_path route;
        index := route_index route;
        caseSensitive := route_caseSensitive route;
        hasAction := arr_includes sourceExports "action";
        hasLoader := arr_includes sourceExports "loader";
        hasClientAction := arr_includes sourceExports "clientAction";
        hasClientLoader := arr_includes sourceExports "clientLoader";
        hasErrorBoundary := arr_includes sourceExports "ErrorBoundary";
        assetPaths := {|
          asset_module :=
            resolveFileUrl ctx (resolveRelativeRouteFilePath route (remixConfig ctx))
            ++ CLIENT_ROUTE_QUERY_STRING;
          asset_imports := [];
          asset_css := []
        |}
      |}
  end.

Definition injectHmrRuntimeId : string := VirtualModule_id "inject-hmr-runtime".

(** [getBrowserManifestForDev].  [random] is the text of [Math.random()]
    and [VirtualModule_url] is [VirtualModule.url]. *)
Definition getBrowserManifestForDev (VirtualModule_url : string -> string)
           (random : string)
           (viteChildCompiler : option ViteDevServer) (ctx : RemixPluginContext)
  : completion DevBrowserManifest :=
  routeManifestExports <- getRouteManifestModuleExports viteChildCompiler ctx ;;
  routes <- mapM (fun kv : string * ConfigRoute =>
                    r <- devRoute ctx routeManifestExports (fst kv) (snd kv) ;;
                    Normal (fst kv, r))
                 (routes (remixConfig ctx)) ;;
  Normal {|
    dev_version := random;
    dev_url := VirtualModule_url browserManifestId;
    dev_hmr_runtime := VirtualModule_url injectHmrRuntimeId;
    dev_entry := {| asset_module := resolveFileUrl ctx (entryClientFilePath ctx);
                    asset_imports := [];
                    asset_css := [] |};
    dev_routes := routes
  |}.

End WithHost.

End DevManifest.

Import DevManifest.

(** ** After the server build: relocation of assets and SPA mode *)

Module Effects.

(** What the hooks of the server build do to the file system and the
    logger, in the order of the calls. *)
Inductive Effect : Type :=
| Move (src dest : string)
| Remove (path : string)
| WriteFile (path contents : string)
| RemoveSync (path : string)
| LogInfo (message : string).

(** A computation that makes calls and then returns or throws: the calls
    made so far are threaded through. *)
Definition Build (A : Type) : Type := list Effect -> list Effect * completion A.

Definition ret {A : Type} (a : A) : Build A := fun calls => (calls, Normal a).

Definition lift {A : Type} (c : completion A) : Build A := fun calls => (calls, c).

Definition bindB {A B : Type} (m : Build A) (k : A -> Build B) : Build B :=
  fun calls =>
    match m calls with
    | (calls', Normal a) => k a calls'
    | (calls', Throw e) => (calls', Throw e)
    end.

(** A call of the host: it is recorded, and ends as the host says. *)
Definition call (made : Effect) (outcome : completion unit) : Build unit :=
  fun calls => ((calls ++ [made])%list, outcome).

End Effects.

Import Effects.

Declare Scope build_scope.
Notation "x <~ c ;; k" := (bindB c (fun x => k))
  (at level 61, c at next level, right associativity) : build_scope.

Module ServerBuild.

Local Open Scope build_scope.

(** The part of the context that [serverContext] spreads into it. *)
Record ServerContext : Type := mkServerContext {
  isSsrBuild : bool;
  serverBundleId : option string;
}.

(** The resolved Vite config, as far as these hooks read it. *)
Record ViteConfig : Type := mkViteConfig { vite_mode : string }.

(** What the hooks ask of fs-extra, picocolors, the process and the built
    server.  An outcome is that of the call with these arguments;
    [loadViteManifest directory] is the parsed [.vite/manifest.json] of the
    directory, and [render serverBuildPath mode] the status and the body of
    the response that the request handler of the imported build gives to a
    request of [http://localhost/]. *)
Class BuildHost : Type := {
  fse_move : string -> string -> completion unit;
  fse_remove : string -> completion unit;
  fse_writeFile : string -> string -> completion unit;
  fse_removeSync : string -> completion unit;
  loadViteManifest : string -> completion Manifest;
  render : string -> string -> completion (N * string);
  colors_green : string -> string;
  colors_dim : string -> string;
  colors_bold : string -> string;
  process_cwd : string;
}.

Section WithHost.

Context `{Host} `{BuildHost}.

(** [path.join(buildDirectory, "server", ...)], joined from the left. *)
Definition getServerBuildDirectory (ctx : RemixPluginContext) (serverContext : ServerContext)
  : string :=
  let server := path_join (buildDirectory (remixConfig ctx)) "server" in
  match serverBundleId serverContext with
  | Some bundleId => path_join server bundleId
  | None => server
  end.

Definition spaStatusMessage (status : N) (html : string) : string :=
  "SPA Mode: Received a " ++ decimal status ++ " status code from "
  ++ "`entry.server.tsx` while generating the `index.html` file."
  ++ String (ascii_of_nat 10) html.

Definition spaScriptsMessage : string :=
  "SPA Mode: Did you forget to include <Scripts/> in your `root.tsx` "
  ++ "`HydrateFallback` component?  Your `index.html` file cannot hydrate "
  ++ "into a SPA without `<Scripts />`.".

(** [handleSpaMode] *)
Definition handleSpaMode (serverBuildDirectoryPath serverBuildFile clientBuildDirectory : string)
           (viteConfig : ViteConfig) : Build unit :=
  let serverBuildPath := path_join serverBuildDirectoryPath serverBuildFile in
  response <~ lift (render serverBuildPath (vite_mode viteConfig)) ;;
  let status := fst response in
  let html := snd response in
  if negb (N.eqb status 200)
  then lift (Throw (Error (spaStatusMessage status html)))
  else
    if negb (includes html "window.__remixContext =")
       || negb (includes html "window.__remixRouteModules =")
    then lift (Throw (Error spaScriptsMessage))
    else
      let indexHtml := path_join clientBuildDirectory "index.html" in
      _ <~ call (WriteFile indexHtml html) (fse_writeFile indexHtml html) ;;
      _ <~ call (LogInfo ("SPA Mode: index.html has been written to your "
                          ++ colors_bold (path_relative process_cwd clientBuildDirectory)
                          ++ " directory"))
                (Normal tt) ;;
      call (RemoveSync serverBuildDirectoryPath) (fse_removeSync serverBuildDirectoryPath).

(** [new Set(Object.values(manifest).flatMap((chunk) => chunk.assets ?? []))]:
    the set keeps the first occurrence of each path, in order. *)
Definition assetPathsOf (viteManifest : Manifest) : list string :=
  dedupe (flat_map (fun chunk => orEmpty (assets chunk)) (map snd viteManifest)).

(** The loop over [ssrAssetPaths]; [movedAssetPaths] is the array it pushes to. *)
Fixpoint moveAssets (serverBuildDirectory clientBuildDirectory : string)
         (clientAssetPaths ssrAssetPaths movedAssetPaths : list string)
  : Build (list string) :=
  match ssrAssetPaths with
  | [] => ret movedAssetPaths
  | ssrAssetPath :: rest =>
      let src := path_join serverBuildDirectory ssrAssetPath in
      if negb (arr_includes clientAssetPaths ssrAssetPath)
      then
        let dest := path_join clientBuildDirectory ssrAssetPath in
        _ <~ call (Move src dest) (fse_move src dest) ;;
        moveAssets serverBuildDirectory clientBuildDirectory clientAssetPaths rest
                   (movedAssetPaths ++ [dest])%list
      else
        _ <~ call (Remove src) (fse_remove src) ;;
        moveAssets serverBuildDirectory clientBuildDirectory clientAssetPaths rest
                   movedAssetPaths
  end.

(** [await Promise.all(paths.map((p) => fse.remove(p)))]: every removal is
    started, in order; the promise rejects with the error of the first one
    in this order that fails. *)
Definition removeAll (paths : list string) : Build unit :=
  fun calls =>
    ((calls ++ map Remove paths)%list,
     bind (mapM fse_remove paths) (fun _ => Normal tt)).

Definition checkMark : string :=
  String (ascii_of_nat 226) (String (ascii_of_nat 156) (String (ascii_of_nat 147) EmptyString)).

Definition movedHeadline (movedAssetPaths : list string) : string :=
  colors_green checkMark ++ " " ++ decimal (N.of_nat (List.length movedAssetPaths))
  ++ " asset" ++ (if Nat.ltb 1 (List.length movedAssetPaths) then "s" else EmptyString)
  ++ " moved from Remix server build to client assets.".

Definition movedMessage (ctx : RemixPluginContext) (movedAssetPaths : list string) : string :=
  join (String (ascii_of_nat 10) EmptyString)
       ([EmptyString; movedHeadline movedAssetPaths]
        ++ map (fun movedAssetPath =>
                  colors_dim (path_relative (rootDirectory ctx) movedAssetPath))
               movedAssetPaths
        ++ [EmptyString])%list.

(** The handler of [writeBundle] of the plugin "remix". *)
Definition writeBundle (ctx : RemixPluginContext) (serverContext : ServerContext)
           (viteConfig : option ViteConfig) : Build unit :=
  if negb (isSsrBuild serverContext) then ret tt
  else
    match viteConfig with
    | None => lift (Throw (Error invariant_message))
    | Some config =>
        let clientBuildDirectory := getClientBuildDirectory (remixConfig ctx) in
        let serverBuildDirectory := getServerBuildDirectory ctx serverContext in
        ssrViteManifest <~ lift (loadViteManifest serverBuildDirectory) ;;
        clientViteManifest <~ lift (loadViteManifest clientBuildDirectory) ;;
        let clientAssetPaths := assetPathsOf clientViteManifest in
        let ssrAssetPaths := assetPathsOf ssrViteManifest in
        movedAssetPaths <~ moveAssets serverBuildDirectory clientBuildDirectory
                                      clientAssetPaths ssrAssetPaths [] ;;
        let ssrCssPaths :=
          flat_map (fun chunk => orEmpty (css chunk)) (map snd ssrViteManifest) in
        _ <~ removeAll (map (fun cssPath => path_join serverBuildDirectory cssPath)
                            ssrCssPaths) ;;
        _ <~ (if Nat.ltb 0 (List.length movedAssetPaths)
              then call (LogInfo (movedMessage ctx movedAssetPaths)) (Normal tt)
              else ret tt) ;;
        if negb (unstable_ssr (remixConfig ctx))
        then handleSpaMode serverBuildDirectory (serverBuildFile (remixConfig ctx))
                           clientBuildDirectory config
        else ret tt
    end.

End WithHost.

End ServerBuild.

Import ServerBuild.

(** ** A server build for the concrete runs below *)

Module BuildExamples.

Import Examples.

(** The manifest of the server build: a stylesheet and two assets, of which
    the client build has the first. *)
Definition serverManifest : Manifest :=
  [("virtual:remix/server-build",
    mkChunk 0 "index.js" None (Some ["assets/root-4b5a6978.css"])
            (Some ["assets/logo-11223344.svg"; "assets/font-55667788.woff2"]))].

Definition clientManifest : Manifest :=
  [("app/root.tsx?client-route",
    mkChunk 0 "assets/root-0f1e2d3c.js" None (Some ["assets/root-4b5a6978.css"])
            (Some ["assets/logo-11223344.svg"]))].

Definition hydratable : string :=
  "<html><script>window.__remixContext = {};window.__remixRouteModules = {};</script></html>".

Definition loadExampleManifest (directory : string) : completion Manifest :=
  if String.eqb directory "/proj/build/server" then Normal serverManifest
  else if String.eqb directory "/proj/build/client" then Normal clientManifest
  else Throw (Error "ENOENT").

(** A host on which every call returns, except the moves [moveFails] names. *)
Definition builder (moveFails : string -> bool) : BuildHost := {|
  fse_move := fun src _ => if moveFails src then Throw (Error "dest already exists.")
                           else Normal tt;
  fse_remove := fun _ => Normal tt;
  fse_writeFile := fun _ _ => Normal tt;
  fse_removeSync := fun _ => Normal tt;
  loadViteManifest := loadExampleManifest;
  render := fun _ _ => Normal (200%N, hydratable);
  colors_green := fun s => s;
  colors_dim := fun s => s;
  colors_bold := fun s => s;
  process_cwd := "/proj";
|}.

Definition serverBuild : ServerContext := mkServerContext true None.

Definition production : ViteConfig := mkViteConfig "production".


Definition relocatedInSpaMode : list Effect :=
  Eval vm_compute in
    fst (@writeBundle posix (builder (fun _ => false)) (exampleCtx false) serverBuild
                      (Some production) []).

End BuildExamples.

(** * Properties *)

(** ** Strings and messages *)

Module StringFacts.

Lemma append_assoc (a b c : string) : (a ++ b) ++ c = a ++ (b ++ c).
Proof.
  induction a as [|ch a IH]; simpl; [reflexivity | now rewrite IH].
Qed.

Lemma append_nil_r (a : string) : a ++ EmptyString = a.
Proof.
  induction a as [|ch a IH]; simpl; [reflexivity | now rewrite IH].
Qed.

Lemma length_append (a b : string) :
  String.length (a ++ b) = String.length a + String.length b.
Proof.
  induction a as [|ch a IH]; simpl; [reflexivity | now rewrite IH].
Qed.

Lemma Mentions_refl (s : string) : Mentions s s.
Proof.
  exists EmptyString, EmptyString. simpl. now rewrite append_nil_r.
Qed.

Lemma Mentions_app_l (a s t : string) : Mentions s t -> Mentions (a ++ s) t.
Proof.
  intros (x & y & ->). exists (a ++ x), y. now rewrite append_assoc.
Qed.

Lemma Mentions_app_r (s b t : string) : Mentions s t -> Mentions (s ++ b) t.
Proof.
  intros (x & y & ->). exists x, (y ++ b). now rewrite !append_assoc.
Qed.

Lemma Mentions_trans (s t u : string) : Mentions s t -> Mentions t u -> Mentions s u.
Proof.
  intros (x & y & ->) H. now apply Mentions_app_l, Mentions_app_r.
Qed.

(** Every element of a joined array occurs in the joined text. *)
Lemma join_Mentions (sep x : string) (xs : list string) :
  In x xs -> Mentions (join sep xs) x.
Proof.
  unfold join. induction xs as [|y ys IH]; [intros [] |].
  intros [-> | Hin]; simpl.
  - destruct ys; [apply Mentions_refl | apply Mentions_app_r, Mentions_refl].
  - destruct ys as [|z zs]; [destruct Hin |].
    now apply Mentions_app_l, Mentions_app_l, IH.
Qed.

(** [startsWith], [endsWith] and [includes] decide what their names say. *)
Lemma prefix_iff (p s : string) : String.prefix p s = true <-> exists r, s = p ++ r.
Proof.
  revert p. induction s as [|d s IH]; intros [|c p]; simpl.
  - split; [now exists EmptyString | trivial].
  - split; [discriminate | intros (r & [=])].
  - split; [now exists (String d s) | trivial].
  - destruct (Ascii.ascii_dec c d) as [-> | Hne].
    + rewrite IH. split; intros (r & Hr); exists r; [now rewrite Hr | now injection Hr].
    + split; [discriminate | intros (r & [= Hcd _]); congruence].
Qed.

Lemma startsWith_iff (s p : string) : startsWith s p = true <-> exists r, s = p ++ r.
Proof.
  apply prefix_iff.
Qed.

Lemma endsWith_iff (s suffix : string) :
  endsWith s suffix = true <-> exists p, s = p ++ suffix.
Proof.
  induction s as [|c s IH]; cbn [endsWith]; rewrite orb_true_iff, String.eqb_eq.
  - split.
    + intros [<- | [=]]. now exists EmptyString.
    + intros ([|d p] & Hp); [now left | discriminate].
  - rewrite IH. split.
    + intros [<- | (p & ->)]; [now exists EmptyString | now exists (String c p)].
    + intros ([|d p] & Hp); [now left |].
      right. injection Hp as _ ->. now exists p.
Qed.

Lemma includes_iff (s needle : string) : includes s needle = true <-> Mentions s needle.
Proof.
  unfold Mentions. induction s as [|c s IH].
  - cbn [includes]. rewrite orb_false_r, prefix_iff. split.
    + intros (r & Hr). now exists EmptyString, r.
    + intros ([|d a] & b & Hab); [now exists b | discriminate].
  - cbn [includes]. rewrite orb_true_iff, prefix_iff, IH. split.
    + intros [(r & ->) | (a & b & ->)]; [now exists EmptyString, r | now exists (String c a), b].
    + intros ([|d a] & b & Hab); [left; now exists b |].
      right. injection Hab as _ ->. now exists a, b.
Qed.

End StringFacts.
Import StringFacts.

(** A key that the manifest resolves is one of its entries. *)
Lemma lookup_In {A : Type} (m : list (string * A)) (key : string) (c : A) :
  lookup m key = Some c -> In (key, c) m.
Proof.
  induction m as [|[k c'] m IH]; simpl; [discriminate |].
  destruct (String.eqb_spec k key) as [-> | Hne].
  - intros [= ->]. now left.
  - intros Hl. right. now apply IH.
Qed.

Create HintDb mentions.
#[local] Hint Resolve Mentions_refl Mentions_app_l Mentions_app_r : mentions.

(** ** resolveChunk *)

Module ResolveChunkFacts.

Section WithHost.

Context `{Host}.

Lemma notFoundMessage_names_path (rel : string) (m : Manifest) :
  Mentions (notFoundMessage rel m) rel.
Proof.
  unfold notFoundMessage. auto 10 with mentions.
Qed.

Lemma notFoundMessage_names_keys (rel : string) (m : Manifest) :
  Forall (fun key => Mentions (notFoundMessage rel m) (quoteKey key)) (keys m).
Proof.
  apply Forall_forall. intros key Hin.
  unfold notFoundMessage, knownManifestKeys.
  do 5 apply Mentions_app_l.
  apply join_Mentions, in_map, Hin.
Qed.

(** The text of the error, in full. *)
Lemma notFoundMessage_text (rel : string) (m : Manifest) :
  notFoundMessage rel m
  = "No manifest entry found for " ++ dq ++ rel ++ dq ++ ". Known manifest keys: "
    ++ join ", " (map (fun kv => dq ++ fst kv ++ dq) m).
Proof.
  unfold notFoundMessage, knownManifestKeys, keys, quoteKey. now rewrite map_map.
Qed.

(** On a path that is not the name of an inherited property, [resolveChunk]
    reads own properties only: the key with the client-route query string
    when the manifest has it, else the bare key, and when the manifest has
    neither it throws an error whose message names the path and, in quotes,
    every key of the manifest. *)
Lemma resolveChunk_on_own_keys
      (ctx : RemixPluginContext) (viteManifest : Manifest) (absoluteFilePath : string) :
  let rel := normalizePath (path_relative (rootDirectory ctx) absoluteFilePath) in
  ~ In rel Prototype.objectPrototypeKeys ->
  ~ In (rel ++ CLIENT_ROUTE_QUERY_STRING) Prototype.objectPrototypeKeys ->
  Prototype.resolveChunk ctx viteManifest absoluteFilePath
  = match lookup viteManifest (rel ++ CLIENT_ROUTE_QUERY_STRING) with
    | Some chunk => Normal (Prototype.OwnChunk chunk)
    | None =>
        match lookup viteManifest rel with
        | Some chunk => Normal (Prototype.OwnChunk chunk)
        | None => Throw (Error (notFoundMessage rel viteManifest))
        end
    end
  /\ Prototype.resolveChunk ctx viteManifest absoluteFilePath
     = match resolveChunk ctx viteManifest absoluteFilePath with
       | Normal chunk => Normal (Prototype.OwnChunk chunk)
       | Throw e => Throw e
       end
  /\ Mentions (notFoundMessage rel viteManifest) rel
  /\ forall key chunk,
      In (key, chunk) viteManifest ->
      Mentions (notFoundMessage rel viteManifest) (dq ++ key ++ dq).
Proof.
  intros rel Hbare Hquery.
  assert (Hnot : forall key, ~ In key Prototype.objectPrototypeKeys ->
                             arr_includes Prototype.objectPrototypeKeys key = false).
  { intros key Hkey. destruct (arr_includes Prototype.objectPrototypeKeys key) eqn:Hin;
      [| reflexivity].
    apply existsb_exists in Hin as (name & Hname & Heq). apply String.eqb_eq in Heq.
    now subst name. }
  unfold Prototype.resolveChunk, resolveChunk, Prototype.getProperty, rootRelativeFilePath.
  fold rel. cbv zeta. rewrite (Hnot _ Hbare), (Hnot _ Hquery).
  split; [| split; [| split]].
  - destruct (lookup viteManifest (rel ++ CLIENT_ROUTE_QUERY_STRING)); [reflexivity |].
    now destruct (lookup viteManifest rel).
  - destruct (lookup viteManifest (rel ++ CLIENT_ROUTE_QUERY_STRING)); [reflexivity |].
    now destruct (lookup viteManifest rel).
  - apply notFoundMessage_names_path.
  - intros key chunk Hin.
    pose proof (notFoundMessage_names_keys rel viteManifest) as Hall.
    rewrite Forall_forall in Hall. apply (Hall key).
    unfold keys. apply in_map_iff. now exists (key, chunk).
Qed.

End WithHost.

Import Examples.

(** C8, at a file named like an inherited property.  The manifest has no
    entry for [/proj/constructor], under neither key, and [resolveChunk]
    returns for it: what it returns is the property [constructor] that the
    parsed manifest inherits, which is no chunk.  For a file that is not
    named so and has no entry it throws, with the message that names the
    path and every key of the manifest. *)
Theorem resolveChunk_returns_inherited_property_without_entry :
  lookup plainManifest "constructor?client-route" = None
  /\ lookup plainManifest "constructor" = None
  /\ @Prototype.resolveChunk posix (exampleCtx true) plainManifest "/proj/constructor"
     = Normal (Prototype.Inherited "constructor")
  /\ @Prototype.resolveChunk posix (exampleCtx true) plainManifest "/proj/app/missing.tsx"
     = Throw (Error ("No manifest entry found for " ++ dq ++ "app/missing.tsx" ++ dq
                     ++ ". Known manifest keys: "
                     ++ dq ++ "app/root.tsx?client-route" ++ dq ++ ", "
                     ++ dq ++ "_left.js" ++ dq ++ ", "
                     ++ dq ++ "_right.js" ++ dq)).
Proof.
  split; [reflexivity | split; [reflexivity | split]].
  - reflexivity.
  - vm_compute. reflexivity.
Qed.

End ResolveChunkFacts.

(** ** dedupe *)

Module DedupeFacts.

Lemma arr_includes_In (xs : list string) (x : string) :
  arr_includes xs x = true <-> In x xs.
Proof.
  unfold arr_includes. rewrite existsb_exists. split.
  - intros (y & Hin & Heq). apply String.eqb_eq in Heq. now subst.
  - intros Hin. exists x. split; [assumption | apply String.eqb_refl].
Qed.

Lemma arr_includes_app (xs ys : list string) (x : string) :
  arr_includes (xs ++ ys) x = arr_includes xs x || arr_includes ys x.
Proof.
  unfold arr_includes. apply existsb_app.
Qed.

Lemma filter_filter {A : Type} (f g : A -> bool) (l : list A) :
  filter f (filter g l) = filter (fun a => g a && f a) l.
Proof.
  induction l as [|a l IH]; simpl; [reflexivity |].
  destruct (g a); simpl; [destruct (f a) |]; now rewrite IH.
Qed.

(** The [Set] built from [xs] on top of the elements [acc] already added. *)
Lemma fold_str_set_add (xs acc : list string) :
  fold_left str_set_add xs acc
  = (acc ++ filter (fun y => negb (arr_includes acc y)) (firstOccurrences xs))%list.
Proof.
  revert acc. induction xs as [|x xs IH]; intros acc; simpl.
  - now rewrite app_nil_r.
  - rewrite IH. unfold str_set_add.
    destruct (arr_includes acc x) eqn:Hx; simpl.
    + f_equal. rewrite filter_filter. apply filter_ext. intros y.
      destruct (String.eqb_spec y x) as [-> | Hne]; simpl; [now rewrite Hx | reflexivity].
    + rewrite <- app_assoc. simpl. do 2 f_equal.
      rewrite filter_filter. apply filter_ext. intros y.
      rewrite arr_includes_app. unfold arr_includes at 2. simpl.
      destruct (arr_includes acc y), (String.eqb y x); reflexivity.
Qed.

Lemma dedupe_firstOccurrences (xs : list string) : dedupe xs = firstOccurrences xs.
Proof.
  unfold dedupe. rewrite fold_str_set_add. simpl.
  induction (firstOccurrences xs) as [|y l IH]; simpl; [reflexivity | now rewrite IH].
Qed.

Lemma firstOccurrences_In (xs : list string) (x : string) :
  In x (firstOccurrences xs) <-> In x xs.
Proof.
  induction xs as [|y xs IH]; simpl; [tauto |].
  rewrite filter_In, IH, negb_true_iff, String.eqb_neq.
  destruct (string_dec y x); intuition congruence.
Qed.




Lemma dedupe_In (xs : list string) (x : string) : In x (dedupe xs) <-> In x xs.
Proof.
  rewrite dedupe_firstOccurrences. apply firstOccurrences_In.
Qed.


End DedupeFacts.
Import DedupeFacts.

(** ** resolveDependantChunks *)

Module WalkFacts.

Import Examples.

(** More fuel never changes the outcome of a loop whose body it does not
    change. *)
Lemma for_of_mono {A S : Type} (body body' : A -> S -> option (completion S))
      (xs : list A) :
  (forall x s r, body x s = Some r -> body' x s = Some r) ->
  forall s r, for_of body xs s = Some r -> for_of body' xs s = Some r.
Proof.
  intros Hbody. induction xs as [|x xs IH]; intros s r; simpl; [trivial |].
  destruct (body x s) as [[s' | e] |] eqn:Hx; [| | discriminate].
  - rewrite (Hbody _ _ _ Hx). apply IH.
  - rewrite (Hbody _ _ _ Hx). trivial.
Qed.

(** A call that returns within [fuel] nested calls returns the same with
    more: [None] for every [fuel] is a call that never returns. *)
Lemma walk_fuel_mono (viteManifest : Manifest) (fuel : nat) :
  forall chunk chunks r,
    walk fuel viteManifest chunk chunks = Some r ->
    walk (S fuel) viteManifest chunk chunks = Some r.
Proof.
  induction fuel as [|fuel IH]; intros chunk chunks r; [discriminate |].
  intros Hwalk. simpl in Hwalk. cbn [walk].
  destruct chunk as [c |]; [| exact Hwalk].
  destruct (set_has chunks c); [exact Hwalk |].
  destruct (imports c) as [importKeys |]; [| exact Hwalk].
  destruct (for_of _ importKeys chunks) as [walked |] eqn:Hloop; [| discriminate].
  erewrite for_of_mono; [exact Hwalk | | exact Hloop].
  intros key s r' Hkey. now apply IH.
Qed.

Lemma walk_cycle_never_returns (fuel : nat) :
  walk fuel cyclicManifest (Some chunkA) [] = None
  /\ walk fuel cyclicManifest (Some chunkB) [] = None.
Proof.
  induction fuel as [|fuel [IHa IHb]]; [split; reflexivity |].
  unfold cyclicManifest, chunkA, chunkB in *.
  split; simpl; [now rewrite IHb | now rewrite IHa].
Qed.

(** C1, at the manifest whose two chunks import each other.  [walk] adds a
    chunk to the visited set only after it has walked the chunk's imports, so
    the walk from "a.ts" reaches "a.ts" again before it is in the set: no
    amount of nested calls lets [resolveDependantChunks] return. *)
Theorem resolveDependantChunks_cycle_never_returns (fuel : nat) :
  resolveDependantChunks fuel cyclicManifest [chunkA] = None.
Proof.
  unfold resolveDependantChunks. simpl for_of.
  now rewrite (proj1 (walk_cycle_never_returns fuel)).
Qed.

Lemma for_of_returns {A S : Type} (body : A -> S -> option (completion S)) (xs : list A) :
  (forall x, In x xs -> forall s, exists r, body x s = Some r) ->
  forall s, exists r, for_of body xs s = Some r.
Proof.
  induction xs as [|x xs IH]; intros Hbody s; simpl; [eauto |].
  destruct (Hbody x (or_introl eq_refl) s) as ([s' | e] & ->); [| eauto].
  apply IH. intros y Hy. apply Hbody. now right.
Qed.

Lemma for_of_invariant {A S : Type} (P : S -> Prop)
      (body : A -> S -> option (completion S)) (xs : list A) :
  (forall x s s', In x xs -> P s -> body x s = Some (Normal s') -> P s') ->
  forall s s', P s -> for_of body xs s = Some (Normal s') -> P s'.
Proof.
  induction xs as [|x xs IH]; intros Hbody s s' Hs; simpl.
  - now intros [= <-].
  - destruct (body x s) as [[s1 | e] |] eqn:Hx; try discriminate.
    apply IH.
    + intros y t t' Hy. apply Hbody. now right.
    + eapply Hbody; [now left | exact Hs | exact Hx].
Qed.

(** *** Manifests without import cycles

    [depth] bounds the length of the import chains below a chunk: every
    import of a chunk of the manifest that the manifest resolves lies
    strictly below it. *)
Section Acyclic.

Variable viteManifest : Manifest.
Variable depth : ManifestChunk -> nat.

Hypothesis imports_go_down :
  forall c key c',
    In c (map snd viteManifest) -> In key (orEmpty (imports c)) ->
    lookup viteManifest key = Some c' -> depth c' < depth c.

Lemma walk_returns (fuel : nat) :
  forall chunk chunks,
    (forall c, chunk = Some c -> In c (map snd viteManifest) /\ depth c + 1 < fuel) ->
    0 < fuel ->
    exists r, walk fuel viteManifest chunk chunks = Some r.
Proof.
  induction fuel as [|fuel IH]; intros chunk chunks Hchunk Hfuel; [lia |].
  cbn [walk]. destruct chunk as [c |]; [| eauto].
  destruct (Hchunk c eq_refl) as [Hin Hdepth].
  destruct (set_has chunks c); [eauto |].
  destruct (imports c) as [importKeys |] eqn:Himports; [| eauto].
  destruct (for_of_returns
              (fun importKey s => walk fuel viteManifest (lookup viteManifest importKey) s)
              importKeys) with (s := chunks) as ([s' | e] & ->); eauto.
  intros key Hkey s. apply IH; [| lia].
  intros c' Hc'. split.
  - apply lookup_In in Hc'. now apply (in_map snd) in Hc'.
  - assert (depth c' < depth c); [| lia].
    apply (imports_go_down c key c'); [assumption | now rewrite Himports | assumption].
Qed.

Lemma set_has_false (s : ChunkSet) (c : ManifestChunk) :
  set_has s c = false -> ~ In (chunk_ref c) (map chunk_ref s).
Proof.
  unfold set_has. intros Hhas Hin.
  apply in_map_iff in Hin as (d & Hd & Hin).
  assert (existsb (fun d => Nat.eqb (chunk_ref d) (chunk_ref c)) s = true); [| congruence].
  apply existsb_exists. exists d. split; [assumption | now apply Nat.eqb_eq].
Qed.

Lemma set_add_FromManifest (s : ChunkSet) (c : ManifestChunk) :
  FromManifest viteManifest s -> In c (map snd viteManifest) -> FromManifest viteManifest (set_add s c).
Proof.
  intros [Hnd Hincl] Hc. unfold set_add.
  destruct (set_has s c) eqn:Hhas; [now split |].
  split.
  - rewrite map_app. apply NoDup_app; [assumption | repeat constructor; intros [] |].
    intros r Hr [<- | []]. now apply (set_has_false s c).
  - intros d Hd. apply in_app_or in Hd as [Hd | [<- | []]]; auto.
Qed.

Lemma walk_FromManifest (fuel : nat) :
  forall chunk chunks chunks',
    (forall c, chunk = Some c -> In c (map snd viteManifest)) ->
    FromManifest viteManifest chunks ->
    walk fuel viteManifest chunk chunks = Some (Normal chunks') ->
    FromManifest viteManifest chunks'.
Proof.
  induction fuel as [|fuel IH]; intros chunk chunks chunks' Hchunk Hinv; [discriminate |].
  cbn [walk]. destruct chunk as [c |]; [| discriminate].
  destruct (set_has chunks c); [now intros [= <-] |].
  assert (Hloop : forall walked,
             match imports c with
             | Some importKeys =>
                 for_of (fun importKey s =>
                           walk fuel viteManifest (lookup viteManifest importKey) s)
                        importKeys chunks
             | None => Some (Normal chunks)
             end = Some (Normal walked) -> FromManifest viteManifest walked).
  { destruct (imports c) as [importKeys |]; [| now intros walked [= <-]].
    intros walked. apply for_of_invariant; [| assumption].
    intros key s s' _ Hs. apply IH; [| assumption].
    intros c' Hc'. apply lookup_In in Hc'. now apply (in_map snd) in Hc'. }
  destruct (match imports c with Some _ => _ | None => _ end) as [[walked | e] |];
    try discriminate.
  intros [= <-]. apply set_add_FromManifest; auto.
Qed.

Lemma FromManifest_size (s : ChunkSet) :
  FromManifest viteManifest s -> List.length s <= List.length viteManifest.
Proof.
  intros [Hnd Hincl].
  rewrite <- (length_map chunk_ref s), <- (length_map snd viteManifest),
    <- (length_map chunk_ref (map snd viteManifest)).
  apply NoDup_incl_length; [assumption | now apply incl_map].
Qed.

(** On a manifest without import cycles [resolveDependantChunks] comes to an
    end from any entry chunks of the manifest, and what it returns has at
    most as many chunks as the manifest has. *)
Theorem resolveDependantChunks_acyclic (entryChunks : list ManifestChunk) :
  incl entryChunks (map snd viteManifest) ->
  exists r,
    resolveDependantChunks (enoughFuel viteManifest depth) viteManifest entryChunks = Some r
    /\ forall chunks, r = Normal chunks -> List.length chunks <= List.length viteManifest.
Proof.
  intros Hentries.
  set (fuel := enoughFuel viteManifest depth).
  assert (Hdeep : forall c, In c (map snd viteManifest) -> depth c + 1 < fuel).
  { intros c Hc. pose proof (proj1 (list_max_le (map depth (map snd viteManifest)) _)
                                   (Nat.le_refl _)) as Hall.
    rewrite Forall_forall in Hall. specialize (Hall (depth c) (in_map depth _ _ Hc)).
    subst fuel. unfold enoughFuel. lia. }
  destruct (for_of_returns
              (fun entryChunk s => walk fuel viteManifest (Some entryChunk) s) entryChunks)
    with (s := @nil ManifestChunk) as (r & Hr).
  { intros c Hc s. apply walk_returns; [| subst fuel; unfold enoughFuel; lia].
    intros c' [= <-]. auto. }
  exists r. split; [exact Hr |].
  intros chunks ->. apply FromManifest_size.
  revert Hr. apply for_of_invariant.
  - intros c s s' Hc Hs. apply walk_FromManifest; [| assumption].
    intros c' [= <-]. auto.
  - split; [constructor | intros x []].
Qed.

Section WithHost.

Context `{Host}.

Lemma resolveChunk_from_manifest (ctx : RemixPluginContext) (absoluteFilePath : string)
      (chunk : ManifestChunk) :
  resolveChunk ctx viteManifest absoluteFilePath = Normal chunk ->
  In chunk (map snd viteManifest).
Proof.
  unfold resolveChunk. cbv zeta.
  destruct (lookup viteManifest (_ ++ CLIENT_ROUTE_QUERY_STRING)) as [c |] eqn:Hq.
  - intros [= <-]. apply lookup_In in Hq. now apply (in_map snd) in Hq.
  - destruct (lookup viteManifest (rootRelativeFilePath ctx absoluteFilePath))
      as [c |] eqn:Hb; [| discriminate].
    intros [= <-]. apply lookup_In in Hb. now apply (in_map snd) in Hb.
Qed.

Lemma mapM_resolveChunk_from_manifest (ctx : RemixPluginContext) (files : list string)
      (chunks : list ManifestChunk) :
  mapM (resolveChunk ctx viteManifest) files = Normal chunks ->
  incl chunks (map snd viteManifest).
Proof.
  revert chunks. induction files as [|f files IH]; intros chunks; simpl.
  - intros [= <-] x [].
  - destruct (resolveChunk ctx viteManifest f) as [c | e] eqn:Hc; simpl; [| discriminate].
    destruct (mapM _ files) as [cs | e]; simpl; [| discriminate].
    intros [= <-] x [<- | Hx].
    + eapply resolveChunk_from_manifest, Hc.
    + now apply (IH cs eq_refl).
Qed.

(** On a manifest without import cycles [resolveBuildAssetPaths] returns or
    throws. *)
Theorem resolveBuildAssetPaths_acyclic (ctx : RemixPluginContext) (entryFilePath : string)
        (prependedAssetFilePaths : list string) :
  exists r,
    resolveBuildAssetPaths (enoughFuel viteManifest depth) ctx viteManifest entryFilePath
                           prependedAssetFilePaths = Some r.
Proof.
  unfold resolveBuildAssetPaths.
  destruct (resolveChunk ctx viteManifest entryFilePath) as [entryChunk | e] eqn:Hentry;
    [| eauto].
  destruct (mapM _ prependedAssetFilePaths) as [prepended | e] eqn:Hprepended; [| eauto].
  destruct (resolveDependantChunks_acyclic (prepended ++ [entryChunk])) as (r & -> & _).
  - intros c Hc. apply in_app_or in Hc as [Hc | [<- | []]].
    + eapply mapM_resolveChunk_from_manifest; eassumption.
    + eapply resolveChunk_from_manifest; eassumption.
  - destruct r; eauto.
Qed.

(** And so does the synthesis of the production manifest. *)
Theorem createBrowserManifestForBuild_acyclic (viteChildCompiler : option ViteDevServer)
        (ctx : RemixPluginContext) :
  exists r,
    createBrowserManifestForBuild (enoughFuel viteManifest depth) (Normal viteManifest)
                                  viteChildCompiler ctx = Some r.
Proof.
  unfold createBrowserManifestForBuild.
  destruct (resolveBuildAssetPaths_acyclic ctx (entryClientFilePath ctx) [])
    as ([entryPaths | e] & ->); [| eauto].
  destruct (getRouteManifestModuleExports viteChildCompiler ctx)
    as [routeManifestExports | e]; [| eauto].
  destruct (for_of_returns
              (fun (kv : string * ConfigRoute) (built : list (string * ManifestRoute)) =>
                 match buildRoute (enoughFuel viteManifest depth) ctx viteManifest
                                  routeManifestExports (fst kv) (snd kv) with
                 | None => None
                 | Some (Throw e) => Some (Throw e)
                 | Some (Normal r) => Some (Normal (built ++ [(fst kv, r)])%list)
                 end)
              (routes (remixConfig ctx))) with (s := @nil (string * ManifestRoute))
    as (r & Hr).
  - intros [key route] _ built. unfold buildRoute. cbn [fst snd].
    destruct (lookup routeManifestExports key) as [sourceExports |]; [| eauto].
    destruct (resolveBuildAssetPaths_acyclic
                ctx (path_join (appDirectory (remixConfig ctx)) (route_file route))
                (if match route_parentId route with None => true | Some _ => false end
                 then [entryClientFilePath ctx] else []))
      as ([paths | e] & ->); eauto.
  - unfold buildRoutes. rewrite Hr. destruct r; eauto.
Qed.

End WithHost.

End Acyclic.

(** The import chains of [plainManifest] go down from the root chunk, so the
    walk from it comes to an end. *)
Example plainManifest_walk_returns :
  exists r,
    resolveDependantChunks (enoughFuel plainManifest (fun c => 2 - chunk_ref c))
                           plainManifest (map snd plainManifest) = Some r
    /\ forall chunks, r = Normal chunks -> List.length chunks <= 3.
Proof.
  apply (resolveDependantChunks_acyclic plainManifest (fun c => 2 - chunk_ref c)).
  - intros c key c' [<- | [<- | [<- | []]]]; simpl.
    + intros [<- | [<- | []]] [= <-]; simpl; lia.
    + intros [<- | []] [= <-]; simpl; lia.
    + intros [].
  - apply incl_refl.
Qed.

End WalkFacts.

(** ** resolveBuildAssetPaths *)

Module AssetPathFacts.



Lemma NoDup_map_eq {A B : Type} (f : A -> B) (l : list A) (a b : A) :
  NoDup (map f l) -> In a l -> In b l -> f a = f b -> a = b.
Proof.
  induction l as [|x l IH]; simpl; [intros _ [] |].
  intros Hnd. apply NoDup_cons_iff in Hnd as [Hnotin Hnd].
  intros [-> | Ha] [-> | Hb] Heq; auto.
  - exfalso. apply Hnotin. rewrite Heq. now apply in_map.
  - exfalso. apply Hnotin. rewrite <- Heq. now apply in_map.
Qed.

(** A map that throws nowhere is the map of the values returned. *)
Lemma mapM_Normal {A B : Type} (f : A -> completion B) (xs : list A) (ys : list B) :
  mapM f xs = Normal ys -> Forall2 (fun x y => f x = Normal y) xs ys.
Proof.
  revert ys. induction xs as [|x xs IH]; intros ys; simpl.
  - intros [= <-]. constructor.
  - destruct (f x) as [y | e] eqn:Hx; simpl; [| discriminate].
    destruct (mapM f xs) as [ys' | e]; simpl; [| discriminate].
    intros [= <-]. constructor; auto.
Qed.

Lemma Forall2_In_r {A B : Type} (R : A -> B -> Prop) (xs : list A) (ys : list B) (y : B) :
  Forall2 R xs ys -> In y ys -> exists x, In x xs /\ R x y.
Proof.
  induction 1 as [|x y' xs ys Hxy Hall IH]; [intros [] |].
  intros [<- | Hin].
  - exists x. split; [now left | assumption].
  - destruct (IH Hin) as (x' & Hx' & HR). exists x'. split; [now right | assumption].
Qed.


Section WithHost.

Context `{Host}.




End WithHost.

Import Examples.

(** The closure of the root chunk of [plainManifest]: each chunk after the
    chunks it imports. *)
Example resolveDependantChunks_plainManifest :
  resolveDependantChunks 3 plainManifest
    [mkChunk 0 "assets/root-1a2b3c4d.js" (Some ["_left.js"; "_right.js"])
             (Some ["assets/root-5e6f7a8b.css"]) None]
  = Some (Normal [mkChunk 2 "assets/right-3a4b5c6d.js" None None None;
                  mkChunk 1 "assets/left-9c0d1e2f.js" (Some ["_right.js"])
                          (Some ["assets/root-5e6f7a8b.css"]) None;
                  mkChunk 0 "assets/root-1a2b3c4d.js" (Some ["_left.js"; "_right.js"])
                          (Some ["assets/root-5e6f7a8b.css"]) None]).
Proof.
  reflexivity.
Qed.



End AssetPathFacts.

(** ** Route export policy *)

Module RouteExportFacts.

Section WithHost.

Context `{Host}.

Lemma filter_nonempty {A : Type} (f : A -> bool) (l : list A) (a : A) :
  In a l -> f a = true -> Nat.ltb 0 (List.length (filter f l)) = true.
Proof.
  intros Hin Hf. assert (Hfa : In a (filter f l)) by now apply filter_In.
  destruct (filter f l); [destruct Hfa | reflexivity].
Qed.

Lemma filter_empty {A : Type} (f : A -> bool) (l : list A) :
  (forall a, In a l -> f a = false) -> filter f l = [].
Proof.
  induction l as [|a l IH]; simpl; [reflexivity |]. intros Hall.
  rewrite (Hall a (or_introl eq_refl)). apply IH. auto.
Qed.

Lemma spaInvalidExportsMessage_names_file (names : list string) (route : ConfigRoute) :
  Mentions (spaInvalidExportsMessage names route) (backticked (route_file route)).
Proof.
  unfold spaInvalidExportsMessage, backticked.
  do 3 apply Mentions_app_l.
  exists EmptyString. eexists. simpl. now rewrite !append_assoc.
Qed.

Lemma spaInvalidExportsMessage_names_exports (names : list string) (route : ConfigRoute)
      (name : string) :
  In name names -> Mentions (spaInvalidExportsMessage names route) (backticked name).
Proof.
  intros Hin. unfold spaInvalidExportsMessage.
  do 7 apply Mentions_app_l. apply Mentions_app_r.
  apply join_Mentions, in_map, Hin.
Qed.

Lemma spaHydrateFallbackMessage_names_file (route : ConfigRoute) :
  Mentions (spaHydrateFallbackMessage route) (backticked (route_file route)).
Proof.
  unfold spaHydrateFallbackMessage, backticked.
  apply Mentions_app_l.
  exists EmptyString. eexists. simpl. now rewrite !append_assoc.
Qed.

Lemma Mentions_backticked (s name : string) : Mentions s (backticked name) -> Mentions s name.
Proof.
  intros Hs. apply (Mentions_trans _ _ _ Hs). unfold backticked.
  apply Mentions_app_l, Mentions_app_r, Mentions_refl.
Qed.

(** C4.  With [unstable_ssr] off, the client transform of a route module
    that exports one of [loader], [action], [headers] throws: nothing is
    stripped, and the message of the error names the route file and, in
    backticks, each server-only export of the module. *)
Theorem spa_mode_rejects_server_only_exports
        (ctx : RemixPluginContext) (code id : string) (route : ConfigRoute)
        (exports : list string)
        (Hspa : unstable_ssr (remixConfig ctx) = false)
        (Hroute : getRoute (remixConfig ctx) id = Some route)
        (Hlexed : esModuleLexer code = Normal exports)
        (Hserver : exists name, In name exports /\ In name SERVER_ONLY_ROUTE_EXPORTS) :
  exists message,
    routeExportsTransform ctx code id false = Throw (Error message)
    /\ Mentions message (route_file route)
    /\ forall name,
        In name exports -> In name SERVER_ONLY_ROUTE_EXPORTS ->
        Mentions message (backticked name).
Proof.
  destruct Hserver as (bad & Hbad & Hdenied).
  set (denied := filter (fun exp => arr_includes SERVER_ONLY_ROUTE_EXPORTS exp) exports).
  exists (spaInvalidExportsMessage denied route).
  split; [| split].
  - unfold routeExportsTransform. rewrite Hroute, Hspa. cbn [negb].
    unfold spaModeChecks. rewrite Hlexed. cbn [bind]. fold denied.
    unfold denied at 1.
    rewrite (filter_nonempty _ exports bad Hbad) by now apply arr_includes_In.
    reflexivity.
  - apply Mentions_backticked, spaInvalidExportsMessage_names_file.
  - intros name Hname Hdenied'. apply spaInvalidExportsMessage_names_exports.
    apply filter_In. split; [assumption | now apply arr_includes_In].
Qed.

(** C5, as the code has it.  The check on [HydrateFallback] is one of the
    checks of SPA mode.  With [unstable_ssr] off, the client transform of a
    route other than the root that exports [HydrateFallback] throws an error
    that names the route file, and the root route that exports it, and no
    server-only export, is transformed; with [unstable_ssr] on the export is
    accepted on every route. *)
Theorem hydrate_fallback_only_on_root_in_spa_mode
        (ctx : RemixPluginContext) (code id : string) (route : ConfigRoute)
        (exports : list string)
        (Hroute : getRoute (remixConfig ctx) id = Some route)
        (Hlexed : esModuleLexer code = Normal exports)
        (Hfallback : In "HydrateFallback" exports) :
  (unstable_ssr (remixConfig ctx) = false -> route_id route <> "root" ->
   exists message,
     routeExportsTransform ctx code id false = Throw (Error message)
     /\ Mentions message (route_file route))
  /\ (unstable_ssr (remixConfig ctx) = false -> route_id route = "root" ->
      (forall name, In name exports -> ~ In name SERVER_ONLY_ROUTE_EXPORTS) ->
      routeExportsTransform ctx code id false
      = Normal (Some (removeExports code SERVER_ONLY_ROUTE_EXPORTS)))
  /\ (unstable_ssr (remixConfig ctx) = true ->
      routeExportsTransform ctx code id false
      = Normal (Some (removeExports code SERVER_ONLY_ROUTE_EXPORTS))).
Proof.
  unfold routeExportsTransform. rewrite Hroute.
  split; [| split].
  - intros -> Hnotroot. cbn [negb]. unfold spaModeChecks. rewrite Hlexed. cbn [bind].
    destruct (Nat.ltb 0 _).
    + eexists. split; [reflexivity |].
      apply Mentions_backticked, spaInvalidExportsMessage_names_file.
    + apply String.eqb_neq in Hnotroot. rewrite Hnotroot. cbn [negb bind].
      assert (Hhas : existsb (fun exp => String.eqb exp "HydrateFallback") exports = true).
      { apply existsb_exists. exists "HydrateFallback". split; [assumption | reflexivity]. }
      rewrite Hhas. eexists. split; [reflexivity |].
      apply Mentions_backticked, spaHydrateFallbackMessage_names_file.
  - intros -> Hroot Hclean. cbn [negb]. unfold spaModeChecks. rewrite Hlexed. cbn [bind].
    rewrite filter_empty.
    + rewrite Hroot. reflexivity.
    + intros name Hname. destruct (arr_includes SERVER_ONLY_ROUTE_EXPORTS name) eqn:Hin;
        [| reflexivity].
      apply arr_includes_In in Hin. now destruct (Hclean name Hname).
  - intros ->. reflexivity.
Qed.

(** C6.  The client-route variant of a route module re-exports, from the
    route file, the names the classifier found in the module that are in
    [CLIENT_ROUTE_EXPORTS], in the order found, and no other name. *)
Theorem client_route_reexports_allowlisted
        (viteChildCompiler : option ViteDevServer) (ctx : RemixPluginContext)
        (id : string) (sourceExports : list string)
        (Hid : endsWith id CLIENT_ROUTE_QUERY_STRING = true)
        (Hclassified :
           getRouteModuleExports viteChildCompiler ctx
                                 (replace id CLIENT_ROUTE_QUERY_STRING EmptyString) None
           = Normal sourceExports) :
  exists names,
    clientRouteTransform viteChildCompiler ctx id
    = Normal (Some ("export { " ++ join ", " names ++ " } from " ++ dq ++ "./"
                    ++ path_basename (replace id CLIENT_ROUTE_QUERY_STRING EmptyString)
                    ++ dq ++ ";"))
    /\ names = filter (fun name => arr_includes CLIENT_ROUTE_EXPORTS name) sourceExports
    /\ forall name, In name names <-> In name sourceExports /\ In name CLIENT_ROUTE_EXPORTS.
Proof.
  exists (clientExports sourceExports). split; [| split].
  - unfold clientRouteTransform. rewrite Hid, Hclassified. reflexivity.
  - reflexivity.
  - intros name. unfold clientExports. now rewrite filter_In, arr_includes_In.
Qed.

Lemma dotServerRouteMessage_names (id importerShort : string) :
  Mentions (dotServerRouteMessage id importerShort)
           ("'" ++ id ++ "' imported by route '" ++ importerShort ++ "'").
Proof.
  unfold dotServerRouteMessage, join. cbn [String.concat].
  do 4 apply Mentions_app_l. apply Mentions_app_r.
  exists "    ", EmptyString. simpl. now rewrite append_nil_r.
Qed.

Lemma dotServerMessage_names (id importerShort : string) :
  Mentions (dotServerMessage id importerShort)
           ("'" ++ id ++ "' imported by '" ++ importerShort ++ "'").
Proof.
  unfold dotServerMessage, join. cbn [String.concat].
  do 4 apply Mentions_app_l. apply Mentions_app_r.
  exists "    ", EmptyString. simpl. now rewrite append_nil_r.
Qed.

(** C7, as the code has it.  In the client graph and outside the plugin's
    own nested resolution, an import that resolves to a server-only file (a
    [.server] file suffix or a [/.server/] directory) from a known importer
    throws, unless the dev server resolves it for an importer that ends with
    [.html].  The message names the imported id and the root-relative path of
    the importer, as imported by a route when the importer is a route file. *)
Theorem dot_server_import_from_client_throws
        (viteCommand : string) (ctx : RemixPluginContext)
        (this_resolve : string -> option string -> completion (option string))
        (id importer resolvedId : string)
        (Hresolved : this_resolve id (Some importer) = Normal (Some resolvedId))
        (HdotServer : serverFileRE resolvedId = true \/ serverDirRE resolvedId = true)
        (Himporter : importer <> EmptyString)
        (Hhtml : viteCommand = "build" \/ endsWith importer ".html" = false) :
  let importerShort := normalizePath (path_relative (rootDirectory ctx) importer) in
  exists message,
    dotServerResolveId viteCommand ctx this_resolve id (Some importer) false false
    = Throw (Error message)
    /\ Mentions message id
    /\ Mentions message importerShort
    /\ match getRoute (remixConfig ctx) importer with
       | Some _ =>
           Mentions message ("'" ++ id ++ "' imported by route '" ++ importerShort ++ "'")
       | None =>
           Mentions message ("'" ++ id ++ "' imported by '" ++ importerShort ++ "'")
       end.
Proof.
  intros importerShort.
  assert (Hrun : dotServerResolveId viteCommand ctx this_resolve id (Some importer) false false
                 = match getRoute (remixConfig ctx) importer with
                   | Some _ => Throw (Error (dotServerRouteMessage id importerShort))
                   | None => Throw (Error (dotServerMessage id importerShort))
                   end).
  { unfold dotServerResolveId. rewrite Hresolved. cbn [bind].
    assert (Hre : serverFileRE resolvedId || serverDirRE resolvedId = true)
      by (apply orb_true_iff; exact HdotServer).
    rewrite Hre. cbn [negb].
    apply String.eqb_neq in Himporter. rewrite Himporter.
    assert (Hgate : negb (String.eqb viteCommand "build") && endsWith importer ".html" = false).
    { destruct Hhtml as [-> | ->]; [reflexivity | apply andb_false_r]. }
    rewrite Hgate. reflexivity. }
  rewrite Hrun.
  destruct (getRoute (remixConfig ctx) importer); eexists; (split; [reflexivity |]).
  - pose proof (dotServerRouteMessage_names id importerShort) as Hm.
    repeat split; [| | exact Hm]; apply (Mentions_trans _ _ _ Hm); auto 10 with mentions.
  - pose proof (dotServerMessage_names id importerShort) as Hm.
    repeat split; [| | exact Hm]; apply (Mentions_trans _ _ _ Hm); auto 10 with mentions.
Qed.

End WithHost.

Import Examples.

Lemma spa_mode_rejects_server_only_exports_witness :
  exists message,
    @routeExportsTransform posix (exampleCtx false) aboutModule
                           "/proj/app/routes/about.tsx" false = Throw (Error message)
    /\ Mentions message "routes/about.tsx"
    /\ Mentions message "`loader`".
Proof.
  destruct (@spa_mode_rejects_server_only_exports
              posix (exampleCtx false) aboutModule "/proj/app/routes/about.tsx"
              aboutRoute ["loader"; "default"] eq_refl eq_refl eq_refl
              (ex_intro _ "loader" (conj (or_introl eq_refl) (or_introl eq_refl))))
    as (message & Hthrow & Hfile & Hnames).
  exists message. split; [exact Hthrow | split; [exact Hfile |]].
  apply (Hnames "loader"); simpl; auto.
Defined.

Lemma hydrate_fallback_only_on_root_in_spa_mode_witness :
  (exists message,
      @routeExportsTransform posix (exampleCtx false) indexModule
                             "/proj/app/routes/_index.tsx" false = Throw (Error message)
      /\ Mentions message "routes/_index.tsx")
  /\ @routeExportsTransform posix (exampleCtx false) rootModule "/proj/app/root.tsx" false
     = Normal (Some rootModule).
Proof.
  split.
  - apply (proj1 (@hydrate_fallback_only_on_root_in_spa_mode
                    posix (exampleCtx false) indexModule "/proj/app/routes/_index.tsx"
                    indexRoute ["HydrateFallback"; "default"]
                    eq_refl eq_refl (or_introl eq_refl)));
      [reflexivity | discriminate].
  - apply (proj1 (proj2 (@hydrate_fallback_only_on_root_in_spa_mode
                           posix (exampleCtx false) rootModule "/proj/app/root.tsx"
                           rootRoute ["HydrateFallback"; "default"]
                           eq_refl eq_refl (or_introl eq_refl))));
      [reflexivity | reflexivity |].
    intros name [<- | [<- | []]]; simpl; intuition discriminate.
Defined.

(** C5 as stated fails with server rendering on: a route other than the
    root that exports [HydrateFallback] is transformed without an error. *)
Lemma hydrate_fallback_accepted_off_root_with_ssr :
  @getRoute posix (exampleConfig true) "/proj/app/routes/_index.tsx" = Some indexRoute
  /\ route_id indexRoute <> "root"
  /\ @esModuleLexer posix indexModule = Normal ["HydrateFallback"; "default"]
  /\ @routeExportsTransform posix (exampleCtx true) indexModule
                            "/proj/app/routes/_index.tsx" false
     = Normal (Some indexModule).
Proof.
  repeat split; discriminate.
Qed.

Lemma client_route_reexports_allowlisted_witness :
  @clientRouteTransform posix (Some exampleChild) (exampleCtx true)
                        "/proj/app/routes/_index.tsx?client-route"
  = Normal (Some ("export { HydrateFallback, default } from " ++ dq ++ "./_index.tsx" ++ dq ++ ";")).
Proof.
  destruct (@client_route_reexports_allowlisted
              posix (Some exampleChild) (exampleCtx true)
              "/proj/app/routes/_index.tsx?client-route" ["HydrateFallback"; "default"]
              eq_refl eq_refl) as (names & Hrun & -> & _).
  exact Hrun.
Defined.

Lemma dot_server_import_from_client_throws_witness :
  exists message,
    @dotServerResolveId posix "build" (exampleCtx true) resolvesToDbServer "~/db.server"
                        (Some "/proj/app/routes/about.tsx") false false
    = Throw (Error message)
    /\ Mentions message "'~/db.server' imported by route 'app/routes/about.tsx'".
Proof.
  destruct (@dot_server_import_from_client_throws
              posix "build" (exampleCtx true) resolvesToDbServer "~/db.server"
              "/proj/app/routes/about.tsx" "/proj/app/db.server.ts"
              eq_refl (or_introl eq_refl) ltac:(discriminate) (or_introl eq_refl))
    as (message & Hthrow & _ & _ & Hroute).
  exists message. split; [exact Hthrow | exact Hroute].
Defined.

(** C7 as stated fails in the dev server for an importer that ends with
    [.html]: the server-only file is resolved without an error. *)
Lemma dot_server_import_from_html_passes_in_dev :
  serverFileRE "/proj/app/db.server.ts" = true
  /\ @dotServerResolveId posix "serve" (exampleCtx true) resolvesToDbServer
                         "/app/db.server.ts" (Some "/proj/index.html") false false
     = Normal None.
Proof.
  split; reflexivity.
Qed.

End RouteExportFacts.

(** ** Dev consistency controller *)

Module DevFacts.

Section WithHost.

Context `{Host}.

Lemma invalidate_fold (ids : list string) (server : DevServer) :
  fold_left
    (fun server vmod =>
       let resolved := VirtualModule_resolve vmod in
       if arr_includes (moduleGraph server) resolved
       then mkServer (moduleGraph server) (invalidated server ++ [resolved])%list
                     (ws_sent server)
       else server)
    ids server
  = mkServer (moduleGraph server)
             (invalidated server
              ++ filter (arr_includes (moduleGraph server)) (map VirtualModule_resolve ids))%list
             (ws_sent server).
Proof.
  revert server. induction ids as [|vmod ids IH]; intros [graph log sent]; simpl.
  - now rewrite app_nil_r.
  - rewrite IH. destruct (arr_includes graph (VirtualModule_resolve vmod)); simpl.
    + now rewrite <- app_assoc.
    + reflexivity.
Qed.

(** [invalidateVirtualModules] invalidates the declared virtual modules that
    have a module in the graph, and nothing else changes. *)
Lemma invalidateVirtualModules_spec (server : DevServer) :
  invalidateVirtualModules server
  = mkServer (moduleGraph server)
             (invalidated server
              ++ filter (arr_includes (moduleGraph server)) (map VirtualModule_resolve vmods))%list
             (ws_sent server).
Proof.
  apply invalidate_fold.
Qed.

(** The watcher leaves the context and the dev server as they are on an
    event that is neither an add or unlink of a path that starts with the app
    directory nor a change of the Vite config file. *)
Lemma onWatcherEvent_ignores (resolved : completion RemixPluginContext)
      (eventName filepath configFile : string) (st : PluginState) (server : DevServer) :
  viteConfig_configFile st = Some configFile ->
  configFile <> EmptyString ->
  appFileAddedOrRemoved st eventName filepath = false ->
  viteConfigChanged configFile eventName filepath = false ->
  onWatcherEvent resolved eventName filepath st server = Normal (st, server).
Proof.
  intros Hconfig Hnonempty Hadded Hchanged. unfold onWatcherEvent.
  apply String.eqb_neq in Hnonempty.
  now rewrite Hconfig, Hnonempty, Hadded, Hchanged.
Qed.

(** A change of a file other than the Vite config file is ignored. *)
Lemma onWatcherEvent_ignores_other_change (resolved : completion RemixPluginContext)
      (filepath configFile : string) (st : PluginState) (server : DevServer) :
  viteConfig_configFile st = Some configFile ->
  configFile <> EmptyString ->
  normalizePath filepath <> normalizePath configFile ->
  onWatcherEvent resolved "change" filepath st server = Normal (st, server).
Proof.
  intros Hconfig Hnonempty Hother.
  apply onWatcherEvent_ignores with (configFile := configFile); auto.
  unfold viteConfigChanged. apply String.eqb_neq in Hother. now rewrite Hother.
Qed.

(** An add or unlink of a path that does not start with the app directory
    is ignored. *)
Lemma onWatcherEvent_ignores_outside_prefix (resolved : completion RemixPluginContext)
      (eventName filepath configFile : string) (st : PluginState) (server : DevServer) :
  viteConfig_configFile st = Some configFile ->
  configFile <> EmptyString ->
  eventName = "add" \/ eventName = "unlink" ->
  startsWith (normalizePath filepath) (normalizePath (appDirectory (remixConfig (ctx st))))
  = false ->
  onWatcherEvent resolved eventName filepath st server = Normal (st, server).
Proof.
  intros Hconfig Hnonempty Hevent Hprefix.
  apply onWatcherEvent_ignores with (configFile := configFile); auto.
  - unfold appFileAddedOrRemoved. rewrite Hprefix. apply andb_false_r.
  - unfold viteConfigChanged. destruct Hevent as [-> | ->]; reflexivity.
Qed.

(** C2, as the code has it.  When the watcher recomputes the context, each
    declared virtual module that has a module in the graph is invalidated if
    and only if the new [remixConfig] and the old one differ as JSON texts,
    and nothing else is invalidated.  A hot update of a file that is no route
    file sends the custom event [remix:hmr] with [null] for the route.  A
    hot update of a route file sends it with the fresh metadata of the route,
    whether or not it invalidates the virtual modules first, once the loaded
    manifest and the exports of the file as read are there; when loading the
    manifest or classifying the file fails, the hook throws that error and
    sends nothing. *)
Theorem recomputation_invalidates_iff_config_differs
        (st : PluginState) (server : DevServer) (ctx' : RemixPluginContext)
        (eventName filepath configFile : string)
        (loaded : completion (list (string * ManifestRoute)))
        (file : string) (modules : list string) (read : completion string)
        (Hconfig : viteConfig_configFile st = Some configFile)
        (Hnonempty : configFile <> EmptyString)
        (Htriggered : appFileAddedOrRemoved st eventName filepath
                      || viteConfigChanged configFile eventName filepath = true) :
  let differ :=
    Json.stringify (remixConfig_json (remixConfig (ctx st)))
    <> Json.stringify (remixConfig_json (remixConfig ctx')) in
  let declared :=
    [VirtualModule_resolve (VirtualModule_id "server-build");
     VirtualModule_resolve (VirtualModule_id "server-manifest");
     VirtualModule_resolve (VirtualModule_id "browser-manifest")] in
  (exists news,
      onWatcherEvent (Normal ctx') eventName filepath st server
      = Normal (mkPlugin ctx' (viteConfig_configFile st) (viteChildCompiler st),
                mkServer (moduleGraph server) (invalidated server ++ news)%list
                         (ws_sent server))
      /\ (forall id,
             In id declared -> In id (moduleGraph server) -> (In id news <-> differ))
      /\ (forall id, In id news -> In id declared /\ In id (moduleGraph server))
      /\ (~ differ -> news = []))
  /\ match getRoute (remixConfig (ctx st)) file with
     | None =>
         handleHotUpdate st loaded server file modules read
         = (mkServer (moduleGraph server) (invalidated server)
                     (ws_sent server ++ [mkPayload "custom" "remix:hmr" None])%list,
            Normal modules)
     | Some route =>
         (forall loadedRoutes sourceExports,
             loaded = Normal loadedRoutes ->
             getRouteModuleExports (viteChildCompiler st) (ctx st) (route_file route)
                                   (Some read)
             = Normal sourceExports ->
             exists (invalidates : bool) (metadata : RouteMetadata),
               handleHotUpdate st loaded server file modules read
               = (mkServer (moduleGraph server)
                           (invalidated server
                            ++ if invalidates
                               then filter (arr_includes (moduleGraph server)) declared
                               else [])%list
                           (ws_sent server
                            ++ [mkPayload "custom" "remix:hmr" (Some metadata)])%list,
                  Normal modules)
               /\ (info_id metadata = route_id route
                   /\ info_parentId metadata = route_parentId route
                   /\ info_path metadata = route_path route
                   /\ info_index metadata = route_index route
                   /\ info_caseSensitive metadata = route_caseSensitive route)
               /\ (info_hasAction metadata = arr_includes sourceExports "action"
                   /\ info_hasLoader metadata = arr_includes sourceExports "loader"
                   /\ info_hasClientAction metadata
                      = arr_includes sourceExports "clientAction"
                   /\ info_hasClientLoader metadata
                      = arr_includes sourceExports "clientLoader"
                   /\ info_hasErrorBoundary metadata
                      = arr_includes sourceExports "ErrorBoundary"))
         /\ (forall e,
                loaded = Throw e ->
                handleHotUpdate st loaded server file modules read = (server, Throw e))
         /\ (forall loadedRoutes e,
                loaded = Normal loadedRoutes ->
                getRouteModuleExports (viteChildCompiler st) (ctx st) (route_file route)
                                      (Some read)
                = Throw e ->
                handleHotUpdate st loaded server file modules read = (server, Throw e))
     end.
Proof.
  intros differ declared. split.
  - unfold onWatcherEvent. rewrite Hconfig.
    apply String.eqb_neq in Hnonempty. rewrite Hnonempty, Htriggered.
    unfold updateRemixPluginContext. cbn [bind ctx]. unfold isEqualJson.
    destruct (String.eqb_spec (Json.stringify (remixConfig_json (remixConfig (ctx st))))
                              (Json.stringify (remixConfig_json (remixConfig ctx'))))
      as [Hsame | Hdiffer]; cbn [negb].
    + exists []. rewrite app_nil_r, Hconfig. destruct server. cbn.
      split; [reflexivity | split; [| split]].
      * intros id _ _. split; [intros [] | intros Hd; now destruct Hd].
      * intros id [].
      * reflexivity.
    + exists (filter (arr_includes (moduleGraph server)) declared).
      rewrite invalidateVirtualModules_spec, Hconfig.
      split; [reflexivity | split; [| split]].
      * intros id Hid Hgraph. split; [intros _; exact Hdiffer |].
        intros _. apply filter_In. split; [exact Hid | now apply arr_includes_In].
      * intros id Hid. apply filter_In in Hid as [Hid Hgraph].
        split; [exact Hid | now apply arr_includes_In].
      * intros Hnot. now destruct Hnot.
  - unfold handleHotUpdate.
    destruct (getRoute (remixConfig (ctx st)) file) as [route |]; [| reflexivity].
    split; [| split].
    + intros loadedRoutes sourceExports -> Hexports.
      unfold getRouteMetadata. rewrite Hexports. cbn [bind].
      assert (Hsend : forall (invalidates : bool) (metadata : RouteMetadata),
                 ws_send (if invalidates then invalidateVirtualModules server else server)
                         (hmrPayload (Some metadata))
                 = mkServer (moduleGraph server)
                            (invalidated server
                             ++ if invalidates
                                then filter (arr_includes (moduleGraph server)) declared
                                else [])%list
                            (ws_sent server
                             ++ [mkPayload "custom" "remix:hmr" (Some metadata)])%list).
      { intros [|] metadata; [rewrite invalidateVirtualModules_spec | rewrite app_nil_r];
          reflexivity. }
      destruct (lookup loadedRoutes (route_id route)) as [old |];
        [destruct (flagsDiffer old _) |].
      * exists true. eexists.
        split; [exact (f_equal (fun s => (s, Normal modules)) (Hsend true _)) |].
        cbn. repeat split.
      * exists false. eexists.
        split; [exact (f_equal (fun s => (s, Normal modules)) (Hsend false _)) |].
        cbn. repeat split.
      * exists true. eexists.
        split; [exact (f_equal (fun s => (s, Normal modules)) (Hsend true _)) |].
        cbn. repeat split.
    + now intros e ->.
    + intros loadedRoutes e -> Hexports. unfold getRouteMetadata.
      now rewrite Hexports.
Qed.

End WithHost.

Import Examples.

Lemma example_configs_differ :
  Json.stringify (remixConfig_json (remixConfig (ctx devState)))
  <> Json.stringify (remixConfig_json (remixConfig freshCtx)).
Proof.
  intros Heq. vm_compute in Heq. discriminate.
Qed.

Lemma recomputation_invalidates_iff_config_differs_witness :
  (exists news,
      @onWatcherEvent posix (Normal freshCtx) "add" "/proj/app/routes/new.tsx"
                      devState devServer
      = Normal (mkPlugin freshCtx (Some "/proj/vite.config.ts") (Some exampleChild),
                mkServer (moduleGraph devServer) news [])
      /\ In (String (ascii_of_nat 0) "virtual:remix/server-manifest") news)
  /\ exists metadata,
      @handleHotUpdate posix devState (Normal []) devServer "/proj/app/routes/about.tsx"
                       ["/proj/app/routes/about.tsx"] (Normal aboutModule)
      = (mkServer (moduleGraph devServer)
                  [String (ascii_of_nat 0) "virtual:remix/server-manifest"]
                  [mkPayload "custom" "remix:hmr" (Some metadata)],
         Normal ["/proj/app/routes/about.tsx"])
      /\ info_id metadata = "routes/about"
      /\ info_hasLoader metadata = true
      /\ info_hasAction metadata = false.
Proof.
  destruct (@recomputation_invalidates_iff_config_differs
              posix devState devServer freshCtx "add" "/proj/app/routes/new.tsx"
              "/proj/vite.config.ts" (Normal []) "/proj/app/routes/about.tsx"
              ["/proj/app/routes/about.tsx"] (Normal aboutModule)
              eq_refl ltac:(discriminate) eq_refl)
    as [(news & Hrun & Hiff & _) Hhot].
  split.
  - exists news. split; [exact Hrun |].
    apply (Hiff (String (ascii_of_nat 0) "virtual:remix/server-manifest")).
    + simpl. auto.
    + simpl. auto.
    + exact example_configs_differ.
  - cbv zeta in Hhot.
    change (@getRoute posix (remixConfig (ctx devState)) "/proj/app/routes/about.tsx")
      with (Some aboutRoute) in Hhot.
    destruct Hhot as (Hsent & _ & _).
    destruct (Hsent [] ["loader"; "default"] eq_refl eq_refl)
      as (invalidates & metadata & Hupdate & (Hid & _) & (Haction & Hloader & _)).
    exists metadata. split; [| split; [exact Hid | split; [exact Hloader | exact Haction]]].
    rewrite Hupdate.
    assert (Hinvalidates : invalidates = true).
    { destruct invalidates; [reflexivity |]. exfalso.
      apply (f_equal (fun r => List.length (invalidated (fst r)))) in Hupdate.
      vm_compute in Hupdate. discriminate Hupdate. }
    rewrite Hinvalidates. reflexivity.
Defined.

(** C2 as stated fails for a route file that cannot be read: the hot update
    of [routes/about.tsx] ends with the error of the read, and the dev server
    is as it was, no event sent. *)
Lemma hot_update_of_unreadable_route_file_sends_nothing :
  @getRoute posix (exampleConfig true) "/proj/app/routes/about.tsx" = Some aboutRoute
  /\ @handleHotUpdate posix devState (Normal []) devServer "/proj/app/routes/about.tsx"
                      ["/proj/app/routes/about.tsx"] (Throw (Error "ENOENT"))
     = (devServer, Throw (Error "ENOENT"))
  /\ ws_sent devServer = [].
Proof.
  repeat split.
Qed.

(** C9, at a file next to the app directory.  [/proj/app.css] is not under
    [/proj/app], yet its path starts with the text [/proj/app], which is what
    the handler tests: adding the file makes the handler recompute the
    context, so that it throws when the resolution throws, and replaces the
    context and invalidates the loaded virtual module when the resolved
    config differs. *)
Theorem watcher_recomputes_for_sibling_of_app_directory :
  isUnder "/proj/app" "/proj/app.css" = false
  /\ @onWatcherEvent posix (Throw (Error "config")) "add" "/proj/app.css" devState devServer
     = Throw (Error "config")
  /\ @onWatcherEvent posix (Normal freshCtx) "add" "/proj/app.css" devState devServer
     = Normal (mkPlugin freshCtx (Some "/proj/vite.config.ts") (Some exampleChild),
               mkServer (moduleGraph devServer)
                        [String (ascii_of_nat 0) "virtual:remix/server-manifest"] [])
  /\ freshCtx <> ctx devState.
Proof.
  repeat split; try reflexivity.
  intros Heq. apply (f_equal (fun c => List.length (routes (remixConfig c)))) in Heq.
  discriminate.
Qed.

End DevFacts.

(** ** JSON texts determine their values *)

Module JsonFacts.

Import Json.

Lemma unescape_escape (c : ascii) (t : string) :
  unescape_char (escape_char c ++ t) = Some (c, t).
Proof.
  destruct c as [[] [] [] [] [] [] [] []]; reflexivity.
Qed.

Lemma unescape_quote (t : string) : unescape_char (dq ++ t) = None.
Proof.
  reflexivity.
Qed.

Lemma escape_inj (s1 : string) :
  forall s2 r1 r2,
    escape s1 ++ dq ++ r1 = escape s2 ++ dq ++ r2 -> s1 = s2 /\ r1 = r2.
Proof.
  induction s1 as [|c1 s1 IH]; intros [|c2 s2] r1 r2 Heq.
  - simpl in Heq. injection Heq as ->. now split.
  - apply (f_equal unescape_char) in Heq. cbn [escape] in Heq.
    rewrite append_assoc, unescape_escape in Heq. discriminate.
  - apply (f_equal unescape_char) in Heq. cbn [escape] in Heq.
    rewrite append_assoc, unescape_escape in Heq. discriminate.
  - apply (f_equal unescape_char) in Heq. cbn [escape] in Heq.
    rewrite !append_assoc, !unescape_escape in Heq.
    injection Heq as -> Hrest. destruct (IH _ _ _ Hrest) as [-> ->]. now split.
Qed.

Lemma quote_inj (s1 s2 r1 r2 : string) :
  quote s1 ++ r1 = quote s2 ++ r2 -> s1 = s2 /\ r1 = r2.
Proof.
  unfold quote. rewrite !append_assoc. intros Heq.
  change (dq ++ escape s1 ++ dq ++ r1) with (String (ascii_of_nat 34) (escape s1 ++ dq ++ r1)) in Heq.
  change (dq ++ escape s2 ++ dq ++ r2) with (String (ascii_of_nat 34) (escape s2 ++ dq ++ r2)) in Heq.
  injection Heq as Heq. now apply escape_inj.
Qed.

(** *** Joined lists of self-delimiting texts *)

Section Joined.

Variable A : Type.
Variable text : A -> string.
Variable Q : A -> Prop.
Variable close : ascii.

Hypothesis close_not_comma : close <> ","%char.
Hypothesis text_not_close : forall x r r', Q x -> text x ++ r <> String close r'.

(** What follows an element: the closing character, or a comma and the
    elements that remain. *)
Lemma join_cons (x : A) (xs : list A) (r : string) :
  join "," (map text (x :: xs)) ++ String close r
  = text x ++ match xs with
              | [] => String close r
              | _ :: _ => "," ++ join "," (map text xs) ++ String close r
              end.
Proof.
  unfold join. destruct xs as [|y ys]; [reflexivity |].
  cbn [map String.concat]. now rewrite !append_assoc.
Qed.

Lemma joined_inj (xs1 : list A) :
  Forall Q xs1 ->
  Forall (fun x1 => forall x2 r1 r2, Q x2 -> text x1 ++ r1 = text x2 ++ r2 ->
                                     x1 = x2 /\ r1 = r2) xs1 ->
  forall xs2 r1 r2,
    Forall Q xs2 ->
    join "," (map text xs1) ++ String close r1 = join "," (map text xs2) ++ String close r2 ->
    xs1 = xs2 /\ r1 = r2.
Proof.
  intros HQ1 Hinj. induction Hinj as [|x1 xs1 Hx1 Hall IH]; intros xs2 r1 r2 HQ2 Heq.
  - destruct xs2 as [|x2 xs2].
    + simpl in Heq. injection Heq as ->. now split.
    + rewrite join_cons in Heq. simpl in Heq. symmetry in Heq.
      apply Forall_inv in HQ2. now apply text_not_close in Heq.
  - destruct xs2 as [|x2 xs2].
    + rewrite join_cons in Heq. simpl in Heq.
      apply Forall_inv in HQ1. now apply text_not_close in Heq.
    + rewrite !join_cons in Heq.
      destruct (Hx1 _ _ _ (Forall_inv HQ2) Heq) as [<- Hrest].
      apply Forall_inv_tail in HQ1, HQ2.
      destruct xs1 as [|y1 ys1], xs2 as [|y2 ys2].
      * injection Hrest as ->. now split.
      * injection Hrest as Hc _. now destruct close_not_comma.
      * injection Hrest as Hc _. now destruct close_not_comma.
      * simpl in Hrest. injection Hrest as Hrest.
        destruct (IH HQ1 _ _ _ HQ2 Hrest) as [-> ->]. now split.
Qed.

End Joined.

(** Induction on a value with the elements of its arrays and objects. *)
Section ValueInduction.

Variable P : value -> Prop.

Hypothesis P_null : P JNull.
Hypothesis P_bool : forall b, P (JBool b).
Hypothesis P_num : forall n, P (JNum n).
Hypothesis P_string : forall s, P (JString s).
Hypothesis P_array : forall items, Forall P items -> P (JArray items).
Hypothesis P_object :
  forall members, Forall (fun kv => P (snd kv)) members -> P (JObject members).

Lemma value_nested_ind (v : value) : P v.
Proof.
  revert v. fix IH 1. intros [| b | n | s | items | members].
  - exact P_null.
  - apply P_bool.
  - apply P_num.
  - apply P_string.
  - apply P_array. induction items as [|x items IHitems]; constructor; [apply IH | exact IHitems].
  - apply P_object.
    induction members as [|[k x] members IHmembers]; constructor; [apply IH | exact IHmembers].
Qed.

End ValueInduction.

Lemma stringify_array (items : list value) (r : string) :
  stringify (JArray items) ++ r
  = String "[" (join "," (map stringify items) ++ String "]" r).
Proof.
  cbn [stringify]. now rewrite !append_assoc.
Qed.

Lemma stringify_object (members : list (string * value)) (r : string) :
  stringify (JObject members) ++ r
  = String "{" (join "," (map memberText members) ++ String "}" r).
Proof.
  cbn [stringify]. now rewrite !append_assoc.
Qed.

(** The text of a value without numbers opens with a character that is
    neither a comma nor a closing bracket or brace. *)
Lemma stringify_head (v : value) (r : string) :
  numberFree v = true ->
  exists c t, stringify v ++ r = String c t
              /\ In c ["n"; "t"; "f"; ascii_of_nat 34; "["; "{"]%char.
Proof.
  destruct v as [| [] | n | s | items | members]; intros Hfree; try discriminate.
  - eexists _, _. split; [reflexivity | simpl; auto].
  - eexists _, _. split; [reflexivity | simpl; auto].
  - eexists _, _. split; [reflexivity | simpl; auto].
  - eexists _, _. split; [reflexivity | simpl; auto].
  - rewrite stringify_array. eexists _, _. split; [reflexivity | simpl; auto 7].
  - rewrite stringify_object. eexists _, _. split; [reflexivity | simpl; auto 7].
Qed.

Lemma stringify_not_close (close : ascii) (v : value) (r r' : string) :
  close = "]"%char \/ close = "}"%char ->
  numberFree v = true -> stringify v ++ r <> String close r'.
Proof.
  intros Hclose Hfree Heq.
  destruct (stringify_head v r Hfree) as (c & t & Hhead & Hc).
  rewrite Hhead in Heq. injection Heq as -> _.
  simpl in Hc. destruct Hclose as [-> | ->]; intuition discriminate.
Qed.

(** The JSON text of a value without numbers determines the value, and
    where the text ends. *)
Theorem stringify_prefix_inj (v1 : value) :
  numberFree v1 = true ->
  forall v2 r1 r2,
    numberFree v2 = true ->
    stringify v1 ++ r1 = stringify v2 ++ r2 -> v1 = v2 /\ r1 = r2.
Proof.
  induction v1 as [| b1 | n1 | s1 | items1 IH | members1 IH] using value_nested_ind;
    intros Hfree1 v2 r1 r2 Hfree2 Heq; try discriminate.
  - destruct v2 as [| [] | n2 | s2 | items2 | members2]; try discriminate;
      rewrite ?stringify_array, ?stringify_object in Heq; try discriminate.
    injection Heq as ->. now split.
  - destruct v2 as [| b2 | n2 | s2 | items2 | members2]; try discriminate;
      rewrite ?stringify_array, ?stringify_object in Heq;
      destruct b1; try destruct b2; try discriminate;
      injection Heq as ->; now split.
  - destruct v2 as [| [] | n2 | s2 | items2 | members2]; try discriminate;
      rewrite ?stringify_array, ?stringify_object in Heq; try discriminate.
    cbn [stringify] in Heq. apply quote_inj in Heq as [-> ->]. now split.
  - destruct v2 as [| [] | n2 | s2 | items2 | members2]; try discriminate;
      rewrite ?stringify_array, ?stringify_object in Heq; try discriminate.
    injection Heq as Heq. cbn [numberFree] in Hfree1, Hfree2.
    rewrite forallb_forall, <- Forall_forall in Hfree1, Hfree2.
    destruct (joined_inj value stringify (fun v => numberFree v = true) "]"%char
                         ltac:(discriminate)
                         (fun x r r' => stringify_not_close "]"%char x r r' (or_introl eq_refl))
                         items1 Hfree1) with (xs2 := items2) (r1 := r1) (r2 := r2)
      as [-> ->]; auto.
    rewrite Forall_forall in IH, Hfree1 |- *.
    intros x Hx. apply IH; auto.
  - destruct v2 as [| [] | n2 | s2 | items2 | members2]; try discriminate;
      rewrite ?stringify_array, ?stringify_object in Heq; try discriminate.
    injection Heq as Heq. cbn [numberFree] in Hfree1, Hfree2.
    rewrite forallb_forall, <- Forall_forall in Hfree1, Hfree2.
    destruct (joined_inj (string * value) memberText
                         (fun kv => numberFree (snd kv) = true) "}"%char
                         ltac:(discriminate)) with (xs1 := members1) (xs2 := members2)
                                                   (r1 := r1) (r2 := r2)
      as [-> ->]; auto.
    + intros kv r r' _. unfold memberText, quote. rewrite !append_assoc. discriminate.
    + rewrite Forall_forall in IH, Hfree1 |- *.
      intros [k1 x1] Hx [k2 x2] t1 t2 Hfree Heq'. unfold memberText in Heq'.
      cbn [fst snd] in *. rewrite !append_assoc in Heq'.
      apply quote_inj in Heq' as [-> Heq']. injection Heq' as Heq'.
      destruct (IH _ Hx (Hfree1 _ Hx) _ _ _ Hfree Heq') as [Hv ->].
      cbn [snd] in Hv. subst x2. now split.
Qed.

Corollary stringify_inj (v1 v2 : value) :
  numberFree v1 = true -> numberFree v2 = true ->
  stringify v1 = stringify v2 -> v1 = v2.
Proof.
  intros Hfree1 Hfree2 Heq.
  apply (stringify_prefix_inj v1 Hfree1 v2 EmptyString EmptyString Hfree2).
  now rewrite !append_nil_r.
Qed.

(** *** The manifest as a JSON value *)

Lemma numberFree_strings (xs : list string) : numberFree (strings xs) = true.
Proof.
  unfold strings. cbn [numberFree]. induction xs as [|x xs IH]; [reflexivity | exact IH].
Qed.

Lemma map_JString_inj (xs1 xs2 : list string) :
  map JString xs1 = map JString xs2 -> xs1 = xs2.
Proof.
  revert xs2.
  induction xs1 as [|x xs1 IH]; intros [|y xs2]; simpl; try discriminate; [reflexivity |].
  intros [= -> Heq]. f_equal. now apply IH.
Qed.

Lemma numberFree_assetPaths (a : AssetPaths) : numberFree (assetPaths_json a) = true.
Proof.
  unfold assetPaths_json. cbn [numberFree forallb snd]. now rewrite !numberFree_strings.
Qed.

Lemma assetPaths_json_inj (a1 a2 : AssetPaths) :
  assetPaths_json a1 = assetPaths_json a2 -> a1 = a2.
Proof.
  destruct a1 as [m1 i1 c1], a2 as [m2 i2 c2]. unfold assetPaths_json.
  cbn [asset_module asset_imports asset_css].
  unfold strings. intros [= -> Hi Hc]. apply map_JString_inj in Hi, Hc. now subst.
Qed.

Lemma numberFree_manifestRoute (r : ManifestRoute) :
  numberFree (manifestRoute_json r) = true.
Proof.
  unfold manifestRoute_json, manifestRoute_members.
  destruct (parentId r), (path r), (index r), (caseSensitive r);
    cbn [optional app numberFree forallb snd]; now rewrite !numberFree_strings.
Qed.

Lemma manifestRoute_json_inj (r1 r2 : ManifestRoute) :
  manifestRoute_json r1 = manifestRoute_json r2 -> r1 = r2.
Proof.
  destruct r1 as [i1 p1 pa1 ix1 cs1 ha1 hl1 hca1 hcl1 he1 [m1 im1 c1]],
           r2 as [i2 p2 pa2 ix2 cs2 ha2 hl2 hca2 hcl2 he2 [m2 im2 c2]].
  unfold manifestRoute_json, manifestRoute_members.
  cbn [id parentId path index caseSensitive hasAction hasLoader hasClientAction
       hasClientLoader hasErrorBoundary assetPaths asset_module asset_imports asset_css].
  unfold strings.
  destruct p1, pa1, ix1, cs1, p2, pa2, ix2, cs2; cbn [optional app];
    intros Heq; try discriminate Heq;
    injection Heq; intros; subst;
    repeat match goal with
           | Hs : map JString _ = map JString _ |- _ => apply map_JString_inj in Hs; subst
           end;
    reflexivity.
Qed.

Lemma numberFree_routes (rs : list (string * ManifestRoute)) :
  numberFree (routes_json rs) = true.
Proof.
  unfold routes_json. cbn [numberFree].
  induction rs as [|kv rs IH]; [reflexivity |].
  cbn [map forallb snd]. now rewrite numberFree_manifestRoute.
Qed.

Lemma routes_json_inj (rs1 rs2 : list (string * ManifestRoute)) :
  routes_json rs1 = routes_json rs2 -> rs1 = rs2.
Proof.
  unfold routes_json. intros Heq.
  apply (f_equal (fun v => match v with JObject members => members | _ => [] end)) in Heq.
  revert rs2 Heq.
  induction rs1 as [|[k1 r1] rs1 IH]; intros [|[k2 r2] rs2]; cbn [map fst snd];
    try discriminate; [reflexivity |].
  intros Heq.
  pose proof (f_equal (fun l => match l with kv :: _ => fst kv | [] => k1 end) Heq) as Hk.
  pose proof (f_equal (fun l => match l with kv :: _ => snd kv | [] => JNull end) Heq) as Hr.
  pose proof (f_equal (@tl _) Heq) as Htl.
  cbn [fst snd tl] in Hk, Hr, Htl.
  apply manifestRoute_json_inj in Hr. subst. f_equal. now apply IH.
Qed.

(** The text that is hashed for the version determines the entry and the
    routes of the manifest. *)
Theorem fingerprint_text_inj (e1 e2 : AssetPaths) (rs1 rs2 : list (string * ManifestRoute)) :
  stringify (fingerprintedValues e1 rs1) = stringify (fingerprintedValues e2 rs2) ->
  e1 = e2 /\ rs1 = rs2.
Proof.
  intros Heq. apply stringify_inj in Heq.
  - unfold fingerprintedValues in Heq.
    pose proof (f_equal (fun v => match v with
                                  | JObject ((_, a) :: _) => a
                                  | _ => JNull
                                  end) Heq) as He.
    pose proof (f_equal (fun v => match v with
                                  | JObject (_ :: (_, r) :: _) => r
                                  | _ => JNull
                                  end) Heq) as Hr.
    cbv beta iota in He, Hr.
    split; [now apply assetPaths_json_inj | now apply routes_json_inj].
  - unfold fingerprintedValues. cbn [numberFree forallb snd].
    now rewrite numberFree_assetPaths, numberFree_routes.
  - unfold fingerprintedValues. cbn [numberFree forallb snd].
    now rewrite numberFree_assetPaths, numberFree_routes.
Qed.

End JsonFacts.

(** ** Build manifest fingerprint *)

Module FingerprintFacts.

Lemma length_substring_0 (n : nat) (s : string) :
  n <= String.length s -> String.length (String.substring 0 n s) = n.
Proof.
  revert s. induction n as [|n IH]; intros [|c s]; simpl; try reflexivity; try lia.
  intros Hle. rewrite IH; lia.
Qed.

Lemma length_hex_word (x : N) : String.length (Sha256.hex_word x) = 8.
Proof.
  reflexivity.
Qed.

Lemma length_sha256_hex (source : string) : String.length (Sha256.sha256_hex source) = 64.
Proof.
  unfold Sha256.sha256_hex, Sha256.hex.
  now rewrite !length_append, !length_hex_word.
Qed.

Lemma length_getHash_8 (source : string) : String.length (getHash source (Some 8)) = 8.
Proof.
  unfold getHash. apply length_substring_0. rewrite length_sha256_hex. lia.
Qed.

Section WithHost.

Context `{Host}.

(** What a build that returns has put in the manifest and the file. *)
Lemma createBrowserManifestForBuild_returns (fuel : nat) (loaded : completion Manifest)
      (viteChildCompiler : option ViteDevServer) (ctx : RemixPluginContext)
      (m : BrowserManifest) (w : WrittenFile) :
  createBrowserManifestForBuild fuel loaded viteChildCompiler ctx = Some (Normal (m, w)) ->
  version m = versionOf (entry m) (manifest_routes m)
  /\ url m = publicPath (remixConfig ctx) ++ "assets/manifest-" ++ version m ++ ".js"
  /\ written_contents w = "window.__remixManifest=" ++ Json.stringify (manifest_json m) ++ ";".
Proof.
  unfold createBrowserManifestForBuild.
  destruct loaded as [viteManifest | e]; [| discriminate].
  destruct (resolveBuildAssetPaths _ _ _ _ _) as [[entryPaths | e] |]; try discriminate.
  destruct (getRouteManifestModuleExports _ _) as [routeManifestExports | e];
    [| discriminate].
  destruct (buildRoutes _ _ _ _) as [[builtRoutes | e] |]; try discriminate.
  intros Hbuilt.
  apply (f_equal (fun r => match r with Some (Normal built) => built | _ => (m, w) end))
    in Hbuilt.
  cbv beta iota zeta in Hbuilt.
  pose proof (f_equal fst Hbuilt) as Hm. pose proof (f_equal snd Hbuilt) as Hw.
  cbn [fst snd] in Hm, Hw. subst m w.
  cbn [version entry manifest_routes url written_contents].
  split; [reflexivity | split; reflexivity].
Qed.

(** C3, as the code has it.  The version of a production manifest is the
    first eight hexadecimal digits of the SHA-256 digest of the JSON text of
    its [{ entry, routes }]: two builds with the same entry and routes have
    the same version, whatever else differs between them, and two builds with
    different versions differ in their entry or routes.  A change of an asset
    path, as any change of the entry or the routes, changes the text that is
    hashed; whether the version changes is then left to the eight digits. *)
Theorem version_is_function_of_entry_and_routes
        (fuel1 fuel2 : nat) (loaded1 loaded2 : completion Manifest)
        (child1 child2 : option ViteDevServer) (ctx1 ctx2 : RemixPluginContext)
        (m1 m2 : BrowserManifest) (w1 w2 : WrittenFile)
        (Hbuilt1 : createBrowserManifestForBuild fuel1 loaded1 child1 ctx1
                   = Some (Normal (m1, w1)))
        (Hbuilt2 : createBrowserManifestForBuild fuel2 loaded2 child2 ctx2
                   = Some (Normal (m2, w2))) :
  version m1
  = String.substring 0 8
      (Sha256.sha256_hex
         (Json.stringify (fingerprintedValues (entry m1) (manifest_routes m1))))
  /\ String.length (version m1) = 8
  /\ (entry m1 = entry m2 -> manifest_routes m1 = manifest_routes m2 ->
      version m1 = version m2)
  /\ (version m1 <> version m2 ->
      ~ (entry m1 = entry m2 /\ manifest_routes m1 = manifest_routes m2))
  /\ (Json.stringify (fingerprintedValues (entry m1) (manifest_routes m1))
      = Json.stringify (fingerprintedValues (entry m2) (manifest_routes m2)) ->
      entry m1 = entry m2 /\ manifest_routes m1 = manifest_routes m2).
Proof.
  destruct (createBrowserManifestForBuild_returns _ _ _ _ _ _ Hbuilt1) as (Hv1 & _).
  destruct (createBrowserManifestForBuild_returns _ _ _ _ _ _ Hbuilt2) as (Hv2 & _).
  assert (Hsame : entry m1 = entry m2 -> manifest_routes m1 = manifest_routes m2 ->
                  version m1 = version m2).
  { intros He Hr. now rewrite Hv1, Hv2, He, Hr. }
  split; [exact Hv1 | split; [| split; [| split]]].
  - rewrite Hv1. apply length_getHash_8.
  - exact Hsame.
  - intros Hdiffer [He Hr]. now apply Hdiffer, Hsame.
  - apply JsonFacts.fingerprint_text_inj.
Qed.

End WithHost.

Import Examples.

(** C3 as stated fails where two digests agree on their first 32 bits: the
    index route of the example project built to [_index-425bf6ae.js] and
    built to [_index-5b6fec53.js] gives two manifests that differ in the
    script URL of that route and have the same version. *)
Lemma version_collides_for_distinct_asset_paths :
  builtModule (exampleBuild "assets/_index-425bf6ae.js") "routes/_index"
  = Some "/assets/_index-425bf6ae.js?client-route"
  /\ builtModule (exampleBuild "assets/_index-5b6fec53.js") "routes/_index"
     = Some "/assets/_index-5b6fec53.js?client-route"
  /\ builtVersion (exampleBuild "assets/_index-425bf6ae.js") = Some "8807428b"
  /\ builtVersion (exampleBuild "assets/_index-5b6fec53.js") = Some "8807428b".
Proof.
  repeat split; vm_compute; reflexivity.
Qed.

Lemma exampleBuild_returns :
  @createBrowserManifestForBuild posix 5 (Normal (clientBuild "assets/_index-425bf6ae.js"))
                                 (Some exampleChild) (exampleCtx true)
  = Some (Normal (fst builtExample, snd builtExample)).
Proof.
  vm_compute. reflexivity.
Qed.

Lemma version_is_function_of_entry_and_routes_witness :
  String.length (version (fst builtExample)) = 8.
Proof.
  pose proof (@version_is_function_of_entry_and_routes
                posix 5 5 _ _ _ _ _ _ (fst builtExample) (fst builtExample)
                (snd builtExample) (snd builtExample)
                exampleBuild_returns exampleBuild_returns) as (_ & Hlength & _).
  exact Hlength.
Defined.

End FingerprintFacts.

(** ** The walk as a transitive closure *)

Module GraphFacts.

Import Graph WalkFacts.

Local Open Scope list_scope.

Lemma set_has_In (s : ChunkSet) (c : ManifestChunk) : In c s -> set_has s c = true.
Proof.
  intros Hin. unfold set_has. apply existsb_exists. exists c.
  split; [assumption | apply Nat.eqb_refl].
Qed.

Lemma set_has_app (s t : ChunkSet) (c : ManifestChunk) :
  set_has (s ++ t) c = set_has s c || set_has t c.
Proof.
  unfold set_has. apply existsb_app.
Qed.

(** A loop that only appends to its state. *)
Lemma for_of_extends {A B : Type} (body : A -> list B -> option (completion (list B)))
      (xs : list A) :
  (forall x s s', In x xs -> body x s = Some (Normal s') -> exists extra, s' = s ++ extra) ->
  forall s s', for_of body xs s = Some (Normal s') -> exists extra, s' = s ++ extra.
Proof.
  induction xs as [|x xs IH]; intros Hbody s s'; simpl.
  - intros [= <-]. exists []. now rewrite app_nil_r.
  - destruct (body x s) as [[s1 | e] |] eqn:Hx; try discriminate.
    intros Hrest. destruct (Hbody x s s1 (or_introl eq_refl) Hx) as (e1 & ->).
    destruct (IH (fun y t t' Hy => Hbody y t t' (or_intror Hy)) _ _ Hrest) as (e2 & ->).
    exists (e1 ++ e2). now rewrite app_assoc.
Qed.

(** [walk] only adds to the visited set, at its end. *)
Lemma walk_extends (viteManifest : Manifest) (fuel : nat) :
  forall chunk chunks chunks',
    walk fuel viteManifest chunk chunks = Some (Normal chunks') ->
    exists extra, chunks' = chunks ++ extra.
Proof.
  induction fuel as [|fuel IH]; intros chunk chunks chunks'; [discriminate |].
  cbn [walk]. destruct chunk as [c |]; [| discriminate].
  destruct (set_has chunks c).
  { intros [= <-]. exists []. now rewrite app_nil_r. }
  assert (Hloop : forall walked,
             match imports c with
             | Some importKeys =>
                 for_of (fun importKey s =>
                           walk fuel viteManifest (lookup viteManifest importKey) s)
                        importKeys chunks
             | None => Some (Normal chunks)
             end = Some (Normal walked) -> exists extra, walked = chunks ++ extra).
  { destruct (imports c) as [importKeys |].
    - intros walked. apply for_of_extends. intros key s s' _. apply IH.
    - intros walked [= <-]. exists []. now rewrite app_nil_r. }
  destruct (match imports c with Some _ => _ | None => _ end) as [[walked | e] |];
    try discriminate.
  intros [= <-]. destruct (Hloop walked eq_refl) as (extra & ->).
  unfold set_add. destruct (set_has (chunks ++ extra) c).
  - now exists extra.
  - exists (extra ++ [c]). now rewrite app_assoc.
Qed.

Lemma set_has_extends (s extra : ChunkSet) (c : ManifestChunk) :
  set_has s c = true -> set_has (s ++ extra) c = true.
Proof.
  intros Hs. now rewrite set_has_app, Hs.
Qed.

Lemma set_add_has (s : ChunkSet) (c : ManifestChunk) : set_has (set_add s c) c = true.
Proof.
  unfold set_add. destruct (set_has s c) eqn:Hs; [exact Hs |].
  rewrite set_has_app. unfold set_has at 2. simpl. now rewrite Nat.eqb_refl, orb_true_r.
Qed.

Lemma set_add_extends (s : ChunkSet) (c d : ManifestChunk) :
  set_has s d = true -> set_has (set_add s c) d = true.
Proof.
  unfold set_add. destruct (set_has s c); [trivial | apply set_has_extends].
Qed.

Lemma set_add_In (s : ChunkSet) (c d : ManifestChunk) :
  In d (set_add s c) -> In d s \/ (d = c /\ set_has s c = false).
Proof.
  unfold set_add. destruct (set_has s c); [now left |].
  intros Hd. apply in_app_or in Hd as [Hd | [<- | []]]; auto.
Qed.

Section Closure.

Variable viteManifest : Manifest.

(** The walk keeps the visited set closed under imports, and ends with the
    chunk it was called on in the set. *)
Lemma walk_closed (fuel : nat) :
  forall chunk chunks chunks',
    walk fuel viteManifest chunk chunks = Some (Normal chunks') ->
    ImportClosed viteManifest chunks ->
    ImportClosed viteManifest chunks'
    /\ forall c, chunk = Some c -> set_has chunks' c = true.
Proof.
  induction fuel as [|fuel IH]; intros chunk chunks chunks'; [discriminate |].
  cbn [walk]. destruct chunk as [c |]; [| discriminate].
  destruct (set_has chunks c) eqn:Hvisited.
  { intros [= <-] Hclosed. split; [assumption | now intros c' [= <-]]. }
  intros Hwalk Hclosed.
  assert (Hloop : forall importKeys s s1,
             for_of (fun importKey s =>
                       walk fuel viteManifest (lookup viteManifest importKey) s)
                    importKeys s = Some (Normal s1) ->
             ImportClosed viteManifest s ->
             ImportClosed viteManifest s1
             /\ forall key, In key importKeys ->
                            exists c', lookup viteManifest key = Some c'
                                       /\ set_has s1 c' = true).
  { induction importKeys as [|key keys IHkeys]; intros s s1; simpl.
    - intros [= <-] Hs. split; [assumption | intros key []].
    - destruct (walk fuel viteManifest (lookup viteManifest key) s) as [[s2 | e] |] eqn:Hkey;
        try discriminate.
      intros Hrest Hs. destruct (IH _ _ _ Hkey Hs) as [Hs2 Hhas].
      destruct (IHkeys _ _ Hrest Hs2) as [Hs1 Hkeys].
      split; [assumption |]. intros k [<- | Hk]; [| now apply Hkeys].
      destruct (lookup viteManifest key) as [c' |] eqn:Hlookup.
      + exists c'. split; [reflexivity |].
        destruct (for_of_extends _ keys
                    (fun x t t' _ => walk_extends viteManifest fuel _ t t') _ _ Hrest)
          as (extra & ->).
        apply set_has_extends. now apply Hhas.
      + destruct fuel; discriminate Hkey. }
  destruct (imports c) as [importKeys |] eqn:Himports.
  - destruct (for_of _ importKeys chunks) as [[walked | e] |] eqn:Hwalked;
      try discriminate.
    injection Hwalk as <-. destruct (Hloop _ _ _ Hwalked Hclosed) as [Hclosed' Hkeys].
    split; [| intros c' [= <-]; apply set_add_has].
    intros d key Hd Hkey. apply set_add_In in Hd as [Hd | [-> _]].
    + destruct (Hclosed' d key Hd Hkey) as (c' & Hc' & Hhas).
      exists c'. split; [assumption | now apply set_add_extends].
    + rewrite Himports in Hkey. destruct (Hkeys key Hkey) as (c' & Hc' & Hhas).
      exists c'. split; [assumption | now apply set_add_extends].
  - injection Hwalk as <-.
    split; [| intros c' [= <-]; apply set_add_has].
    intros d key Hd Hkey. apply set_add_In in Hd as [Hd | [-> _]].
    + destruct (Hclosed d key Hd Hkey) as (c' & Hc' & Hhas).
      exists c'. split; [assumption | now apply set_add_extends].
    + rewrite Himports in Hkey. destruct Hkey.
Qed.

Variable entryChunks : list ManifestChunk.

(** The walk visits reachable chunks only. *)
Lemma walk_reachable (fuel : nat) :
  forall chunk chunks chunks',
    walk fuel viteManifest chunk chunks = Some (Normal chunks') ->
    (forall c, chunk = Some c -> Reachable viteManifest entryChunks c) ->
    Forall (Reachable viteManifest entryChunks) chunks ->
    Forall (Reachable viteManifest entryChunks) chunks'.
Proof.
  induction fuel as [|fuel IH]; intros chunk chunks chunks'; [discriminate |].
  cbn [walk]. destruct chunk as [c |]; [| discriminate].
  destruct (set_has chunks c); [now intros [= <-] |].
  intros Hwalk Hc Hall. specialize (Hc c eq_refl).
  assert (Hadd : forall s, Forall (Reachable viteManifest entryChunks) s ->
                           Forall (Reachable viteManifest entryChunks) (set_add s c)).
  { intros s Hs. unfold set_add. destruct (set_has s c); [assumption |].
    apply Forall_app. split; [assumption | now constructor]. }
  destruct (imports c) as [importKeys |] eqn:Himports.
  - destruct (for_of _ importKeys chunks) as [[walked | e] |] eqn:Hwalked;
      try discriminate.
    injection Hwalk as <-. apply Hadd.
    revert Hwalked. apply for_of_invariant; [| assumption].
    intros key s s' Hkey Hs Hstep. apply (IH _ _ _ Hstep); [| assumption].
    intros c' Hc'. apply (reach_import _ _ c key c'); auto. now rewrite Himports.
  - injection Hwalk as <-. now apply Hadd.
Qed.

End Closure.

Section ClosureOfEntries.

Variable viteManifest : Manifest.

(** A loop of walks, as the one over the entry chunks. *)
Lemma for_of_walk_closed {A : Type} (chunkOf : A -> option ManifestChunk) (fuel : nat)
      (xs : list A) :
  forall s s1,
    for_of (fun x s => walk fuel viteManifest (chunkOf x) s) xs s = Some (Normal s1) ->
    ImportClosed viteManifest s ->
    ImportClosed viteManifest s1
    /\ forall x, In x xs -> exists c, chunkOf x = Some c /\ set_has s1 c = true.
Proof.
  induction xs as [|x xs IH]; intros s s1; simpl.
  - intros [= <-] Hs. split; [assumption | intros x []].
  - destruct (walk fuel viteManifest (chunkOf x) s) as [[s2 | e] |] eqn:Hx; try discriminate.
    intros Hrest Hs. destruct (walk_closed viteManifest fuel _ _ _ Hx Hs) as [Hs2 Hhas].
    destruct (IH _ _ Hrest Hs2) as [Hs1 Hxs].
    split; [assumption |]. intros y [<- | Hy]; [| now apply Hxs].
    destruct (chunkOf x) as [c |] eqn:Hc.
    + exists c. split; [reflexivity |].
      destruct (for_of_extends _ xs
                  (fun y t t' _ => walk_extends viteManifest fuel _ t t') _ _ Hrest)
        as (extra & ->).
      apply set_has_extends. now apply Hhas.
    + destruct fuel; discriminate Hx.
Qed.

Lemma for_of_throws {A S : Type} (P : JsError -> Prop)
      (body : A -> S -> option (completion S)) (xs : list A) :
  (forall x s e, In x xs -> body x s = Some (Throw e) -> P e) ->
  forall s e, for_of body xs s = Some (Throw e) -> P e.
Proof.
  induction xs as [|x xs IH]; intros Hbody s e; simpl; [discriminate |].
  destruct (body x s) as [[s' | e'] |] eqn:Hx; try discriminate.
  - apply IH. intros y t e0 Hy. apply Hbody. now right.
  - intros [= <-]. apply (Hbody x s e'); auto. now left.
Qed.

(** The one error of the walk is the [TypeError] of reading [imports] of
    [undefined]. *)
Lemma walk_throws_TypeError (fuel : nat) :
  forall chunk chunks e,
    walk fuel viteManifest chunk chunks = Some (Throw e) -> e = TypeError.
Proof.
  induction fuel as [|fuel IH]; intros chunk chunks e; [discriminate |].
  cbn [walk]. destruct chunk as [c |]; [| now intros [= <-]].
  destruct (set_has chunks c); [discriminate |].
  destruct (imports c) as [importKeys |]; [| discriminate].
  destruct (for_of _ importKeys chunks) as [[walked | e'] |] eqn:Hloop; try discriminate.
  intros [= <-]. revert Hloop.
  apply (for_of_throws (fun e => e = TypeError)). intros key s e0 _. apply IH.
Qed.

(** It does not occur when every import key of the manifest is one of its
    keys. *)
Lemma walk_no_throw (fuel : nat) :
  ImportsResolve viteManifest ->
  forall c chunks e,
    In c (map snd viteManifest) ->
    walk fuel viteManifest (Some c) chunks <> Some (Throw e).
Proof.
  intros Hresolve. induction fuel as [|fuel IH]; intros c chunks e Hc; [discriminate |].
  cbn [walk]. destruct (set_has chunks c); [discriminate |].
  destruct (imports c) as [importKeys |] eqn:Himports; [| discriminate].
  destruct (for_of _ importKeys chunks) as [[walked | e'] |] eqn:Hloop; try discriminate.
  intros [= <-]. revert Hloop.
  apply (for_of_throws (fun _ => False)). intros key s e0 Hkey Hthrow.
  destruct (Hresolve c key Hc) as (c' & Hc'); [now rewrite Himports |].
  rewrite Hc' in Hthrow. apply (IH c' s e0); [| assumption].
  apply lookup_In in Hc'. now apply (in_map snd) in Hc'.
Qed.

Lemma set_has_In_manifest (s : ChunkSet) (c : ManifestChunk) :
  DistinctObjects viteManifest ->
  incl s (map snd viteManifest) -> In c (map snd viteManifest) ->
  set_has s c = true -> In c s.
Proof.
  intros Hdistinct Hincl Hc Hhas. unfold set_has in Hhas.
  apply existsb_exists in Hhas as (d & Hd & Href). apply Nat.eqb_eq in Href.
  rewrite <- (AssetPathFacts.NoDup_map_eq chunk_ref (map snd viteManifest) d c); auto.
Qed.

End ClosureOfEntries.

(** What [resolveDependantChunks] returns, when it returns: the chunks
    reachable from the entry chunks, each once. *)
Lemma resolveDependantChunks_returns_closure
      (viteManifest : Manifest) (fuel : nat) (entryChunks chunks : list ManifestChunk) :
  DistinctObjects viteManifest ->
  incl entryChunks (map snd viteManifest) ->
  resolveDependantChunks fuel viteManifest entryChunks = Some (Normal chunks) ->
  NoDup chunks
  /\ (forall c, In c chunks <-> Reachable viteManifest entryChunks c)
  /\ List.length chunks <= List.length viteManifest.
Proof.
  intros Hdistinct Hentries Hrun. unfold resolveDependantChunks in Hrun.
  assert (Hfrom : FromManifest viteManifest chunks).
  { revert Hrun. apply for_of_invariant.
    - intros c s s' Hc Hs. apply walk_FromManifest; [| assumption].
      intros c' [= <-]. auto.
    - split; [constructor | intros x []]. }
  pose proof (FromManifest_size _ _ Hfrom) as Hsize.
  destruct Hfrom as [Hrefs Hincl].
  destruct (for_of_walk_closed viteManifest Some _ entryChunks _ _ Hrun)
    as [Hclosed Hhas]; [intros c key [] |].
  split; [now apply NoDup_map_inv in Hrefs | split; [| exact Hsize]].
  intros c. split.
  - revert c. apply Forall_forall. revert Hrun.
    apply (for_of_invariant (Forall (Reachable viteManifest entryChunks))); [| constructor].
    intros e s s' He Hs Hstep. apply (walk_reachable _ _ _ _ _ _ Hstep); [| assumption].
    intros c' [= <-]. now constructor.
  - induction 1 as [e He | c key c' Hreach IH Hkey Hc'].
    + destruct (Hhas e He) as (e' & [= <-] & Hin).
      apply (set_has_In_manifest viteManifest); auto.
    + destruct (Hclosed c key IH Hkey) as (c'' & Hc'' & Hin).
      rewrite Hc' in Hc''. injection Hc'' as <-.
      apply (set_has_In_manifest viteManifest); auto.
      apply lookup_In in Hc'. now apply (in_map snd) in Hc'.
Qed.

Lemma resolveDependantChunks_throws
      (viteManifest : Manifest) (fuel : nat) (entryChunks : list ManifestChunk)
      (e : JsError) :
  incl entryChunks (map snd viteManifest) ->
  resolveDependantChunks fuel viteManifest entryChunks = Some (Throw e) ->
  e = TypeError /\ ~ ImportsResolve viteManifest.
Proof.
  intros Hentries Hrun. unfold resolveDependantChunks in Hrun. split.
  - revert Hrun. apply (for_of_throws (fun e => e = TypeError)).
    intros c s e0 _. apply walk_throws_TypeError.
  - intros Hresolve. revert Hrun.
    apply (for_of_throws (fun _ => False)). intros c s e0 Hc.
    apply walk_no_throw; auto.
Qed.


Import Examples.

Lemma plainManifest_imports_go_down (c : ManifestChunk) (importKey : string)
      (c' : ManifestChunk) :
  In c (map snd plainManifest) -> In importKey (orEmpty (imports c)) ->
  lookup plainManifest importKey = Some c' -> 2 - chunk_ref c' < 2 - chunk_ref c.
Proof.
  intros [<- | [<- | [<- | []]]]; simpl.
  - intros [<- | [<- | []]] [= <-]; simpl; lia.
  - intros [<- | []] [= <-]; simpl; lia.
  - intros [].
Qed.

Lemma plainManifest_distinct : DistinctObjects plainManifest.
Proof.
  unfold DistinctObjects. simpl. repeat constructor; simpl; intuition discriminate.
Qed.


End GraphFacts.

(** ** resolveBuildAssetPaths on a well-formed manifest *)

Module AssetPathSpecFacts.

Import Graph WalkFacts GraphFacts AssetPathFacts.

Local Open Scope list_scope.

Lemma mapM_total {A B : Type} (f : A -> completion B) (xs : list A) :
  (forall x, In x xs -> exists y, f x = Normal y) ->
  exists ys, mapM f xs = Normal ys.
Proof.
  induction xs as [|x xs IH]; intros Hall; simpl; [now exists [] |].
  destruct (Hall x (or_introl eq_refl)) as (y & ->).
  destruct IH as (ys & ->); [intros z Hz; apply Hall; now right |].
  now exists (y :: ys).
Qed.

Lemma Forall2_In_l {A B : Type} (R : A -> B -> Prop) (xs : list A) (ys : list B) (x : A) :
  Forall2 R xs ys -> In x xs -> exists y, In y ys /\ R x y.
Proof.
  induction 1 as [|x' y xs ys Hxy Hall IH]; [intros [] |].
  intros [<- | Hin].
  - exists y. split; [now left | assumption].
  - destruct (IH Hin) as (y' & Hy' & HR). exists y'. split; [now right | assumption].
Qed.

(** The values of a map that did not throw. *)
Lemma mapM_In {A B : Type} (f : A -> completion B) (xs : list A) (ys : list B) (y : B) :
  mapM f xs = Normal ys -> (In y ys <-> exists x, In x xs /\ f x = Normal y).
Proof.
  intros Hmap. apply mapM_Normal in Hmap. split.
  - intros Hy. exact (Forall2_In_r _ _ _ _ Hmap Hy).
  - intros (x & Hx & Hfx). destruct (Forall2_In_l _ _ _ _ Hmap Hx) as (y' & Hy' & Hfx').
    rewrite Hfx in Hfx'. now injection Hfx' as ->.
Qed.

Section WithHost.

Context `{Host}.

(** X2.  What [resolveBuildAssetPaths] returns on a well-formed manifest (no
    import cycle, distinct objects, import keys that are keys of the
    manifest) for files that have an entry: the script URL of the entry
    chunk, and the URLs of the files that the chunks reachable from the
    prepended and entry chunks import, and of their style sheets, behind the
    public path. *)
Theorem resolveBuildAssetPaths_on_wellformed_manifest
        (viteManifest : Manifest) (depth : ManifestChunk -> nat)
        (ctx : RemixPluginContext) (entryFilePath : string)
        (prependedAssetFilePaths : list string)
        (entryChunk : ManifestChunk) (prependedAssetChunks : list ManifestChunk)
        (Hacyclic : forall c importKey c',
            In c (map snd viteManifest) -> In importKey (orEmpty (imports c)) ->
            lookup viteManifest importKey = Some c' -> depth c' < depth c)
        (Hdistinct : DistinctObjects viteManifest)
        (Hresolve : ImportsResolve viteManifest)
        (Hentry : resolveChunk ctx viteManifest entryFilePath = Normal entryChunk)
        (Hprepended : mapM (resolveChunk ctx viteManifest) prependedAssetFilePaths
                      = Normal prependedAssetChunks) :
  let reachable := Reachable viteManifest (prependedAssetChunks ++ [entryChunk]) in
  exists paths,
    resolveBuildAssetPaths (enoughFuel viteManifest depth) ctx viteManifest entryFilePath
                           prependedAssetFilePaths = Some (Normal paths)
    /\ asset_module paths
       = (publicPath (remixConfig ctx) ++ file entryChunk ++ CLIENT_ROUTE_QUERY_STRING)%string
    /\ (forall u, In u (asset_imports paths) <->
                  exists c importKey c',
                    reachable c /\ In importKey (orEmpty (imports c))
                    /\ lookup viteManifest importKey = Some c'
                    /\ u = (publicPath (remixConfig ctx) ++ file c')%string)
    /\ (forall u, In u (asset_css paths) <->
                  exists c href,
                    reachable c /\ In href (orEmpty (css c))
                    /\ u = (publicPath (remixConfig ctx) ++ href)%string).
Proof.
  intros reachable.
  assert (Hentries : incl (prependedAssetChunks ++ [entryChunk]) (map snd viteManifest)).
  { intros c Hc. apply in_app_or in Hc as [Hc | [<- | []]].
    - eapply mapM_resolveChunk_from_manifest; eassumption.
    - eapply resolveChunk_from_manifest; eassumption. }
  destruct (resolveDependantChunks_acyclic viteManifest depth Hacyclic _ Hentries)
    as ([chunks | e] & Hrun & _).
  2: { now destruct (resolveDependantChunks_throws _ _ _ _ Hentries Hrun) as [_ []]. }
  destruct (resolveDependantChunks_returns_closure _ _ _ _ Hdistinct Hentries Hrun)
    as (_ & Hreach & _).
  assert (Hincl : incl chunks (map snd viteManifest)).
  { intros c Hc. apply Hreach in Hc. clear -Hc Hentries.
    induction Hc as [c Hc | c key c' _ _ _ Hc']; [now apply Hentries |].
    apply lookup_In in Hc'. now apply (in_map snd) in Hc'. }
  destruct (mapM_total (importUrl ctx viteManifest)
                       (dedupe (flat_map (fun e => orEmpty (imports e)) chunks)))
    as (urls & Hurls).
  { intros key Hkey. apply dedupe_In, in_flat_map in Hkey as (c & Hc & Hkey).
    destruct (Hresolve c key (Hincl c Hc) Hkey) as (c' & Hc').
    unfold importUrl. rewrite Hc'. eauto. }
  unfold resolveBuildAssetPaths. rewrite Hentry, Hprepended, Hrun, Hurls. cbn [bind].
  eexists. split; [reflexivity |]. cbn [asset_module asset_imports asset_css].
  split; [reflexivity | split].
  - intros u. rewrite (mapM_In _ _ _ u Hurls). split.
    + intros (key & Hkey & Hu).
      apply dedupe_In, in_flat_map in Hkey as (c & Hc & Hkey).
      unfold importUrl in Hu.
      destruct (lookup viteManifest key) as [c' |] eqn:Hc'; [| discriminate].
      injection Hu as <-. exists c, key, c'. repeat split; auto. now apply Hreach.
    + intros (c & key & c' & Hc & Hkey & Hc' & ->). exists key. split.
      * apply dedupe_In, in_flat_map. exists c. split; [now apply Hreach | assumption].
      * unfold importUrl. now rewrite Hc'.
  - intros u. rewrite in_map_iff. split.
    + intros (href & <- & Hhref).
      apply dedupe_In, in_flat_map in Hhref as (c & Hc & Hhref).
      exists c, href. repeat split; auto. now apply Hreach.
    + intros (c & href & Hc & Hhref & ->). exists href. split; [reflexivity |].
      apply dedupe_In, in_flat_map. exists c. split; [now apply Hreach | assumption].
Qed.

End WithHost.

Import Examples.

Lemma plainManifest_imports_resolve : ImportsResolve plainManifest.
Proof.
  intros c key [<- | [<- | [<- | []]]]; simpl.
  - intros [<- | [<- | []]]; eexists; reflexivity.
  - intros [<- | []]; eexists; reflexivity.
  - intros [].
Qed.

Lemma resolveBuildAssetPaths_on_wellformed_manifest_witness :
  exists paths,
    @resolveBuildAssetPaths posix 4 (exampleCtx true) plainManifest "/proj/app/root.tsx" []
    = Some (Normal paths)
    /\ asset_module paths = "/assets/root-1a2b3c4d.js?client-route"%string.
Proof.
  destruct (@resolveBuildAssetPaths_on_wellformed_manifest
              posix plainManifest (fun c => 2 - chunk_ref c) (exampleCtx true)
              "/proj/app/root.tsx" [] _ [] plainManifest_imports_go_down
              plainManifest_distinct plainManifest_imports_resolve eq_refl eq_refl)
    as (paths & Hrun & Hmodule & _).
  exists paths. split; [exact Hrun | exact Hmodule].
Defined.

End AssetPathSpecFacts.

(** ** The production manifest, route by route *)

Module BuildManifestFacts.

Import Graph WalkFacts GraphFacts AssetPathFacts AssetPathSpecFacts.

Local Open Scope list_scope.

(** A loop that appends one element for each element it reads. *)
Lemma for_of_collect {A B : Type} (step : A -> option (completion B)) (xs : list A) :
  forall acc out,
    for_of (fun x (built : list B) =>
              match step x with
              | None => None
              | Some (Throw e) => Some (Throw e)
              | Some (Normal y) => Some (Normal (built ++ [y]))
              end) xs acc = Some (Normal out) ->
    exists added,
      out = acc ++ added /\ Forall2 (fun x y => step x = Some (Normal y)) xs added.
Proof.
  induction xs as [|x xs IH]; intros acc out; simpl.
  - intros [= <-]. exists []. split; [now rewrite app_nil_r | constructor].
  - destruct (step x) as [[y | e] |] eqn:Hx; try discriminate.
    intros Hrest. destruct (IH _ _ Hrest) as (added & -> & Hall).
    exists (y :: added). split; [now rewrite <- app_assoc | now constructor].
Qed.

Lemma for_of_ext {A S : Type} (f g : A -> S -> option (completion S)) (xs : list A) :
  (forall x acc, f x acc = g x acc) ->
  forall acc, for_of f xs acc = for_of g xs acc.
Proof.
  intros Hext. induction xs as [|x xs IH]; intros acc; simpl; [reflexivity |].
  rewrite Hext. now destruct (g x acc) as [[acc' | e] |].
Qed.

Section WithHost.

Context `{Host}.

(** The parts of a call of [resolveBuildAssetPaths] that returned. *)
Lemma resolveBuildAssetPaths_inv (fuel : nat) (ctx : RemixPluginContext)
      (viteManifest : Manifest) (entryFilePath : string)
      (prependedAssetFilePaths : list string) (paths : AssetPaths) :
  resolveBuildAssetPaths fuel ctx viteManifest entryFilePath prependedAssetFilePaths
  = Some (Normal paths) ->
  exists entryChunk prependedAssetChunks chunks,
    resolveChunk ctx viteManifest entryFilePath = Normal entryChunk
    /\ mapM (resolveChunk ctx viteManifest) prependedAssetFilePaths
       = Normal prependedAssetChunks
    /\ resolveDependantChunks fuel viteManifest (prependedAssetChunks ++ [entryChunk])
       = Some (Normal chunks)
    /\ mapM (importUrl ctx viteManifest)
            (dedupe (flat_map (fun e => orEmpty (imports e)) chunks))
       = Normal (asset_imports paths)
    /\ asset_css paths
       = map (fun href => (publicPath (remixConfig ctx) ++ href)%string)
             (dedupe (flat_map (fun e => orEmpty (css e)) chunks))
    /\ asset_module paths
       = (publicPath (remixConfig ctx) ++ file entryChunk ++ CLIENT_ROUTE_QUERY_STRING)%string.
Proof.
  unfold resolveBuildAssetPaths.
  destruct (resolveChunk ctx viteManifest entryFilePath) as [entryChunk | e]; [| discriminate].
  destruct (mapM _ prependedAssetFilePaths) as [prepended | e]; [| discriminate].
  destruct (resolveDependantChunks _ _ _) as [[chunks | e] |] eqn:Hchunks; try discriminate.
  destruct (mapM (importUrl ctx viteManifest) _) as [urls | e] eqn:Hurls;
    simpl; [| discriminate].
  intros [= <-]. exists entryChunk, prepended, chunks. simpl.
  repeat split; [exact Hchunks | exact Hurls].
Qed.

(** The parts of a build that returned a manifest. *)
Lemma createBrowserManifestForBuild_inv (fuel : nat) (loaded : completion Manifest)
      (viteChildCompiler : option ViteDevServer) (ctx : RemixPluginContext)
      (m : BrowserManifest) (w : WrittenFile) :
  createBrowserManifestForBuild fuel loaded viteChildCompiler ctx = Some (Normal (m, w)) ->
  exists viteManifest routeManifestExports,
    loaded = Normal viteManifest
    /\ resolveBuildAssetPaths fuel ctx viteManifest (entryClientFilePath ctx) []
       = Some (Normal (entry m))
    /\ getRouteManifestModuleExports viteChildCompiler ctx = Normal routeManifestExports
    /\ buildRoutes fuel ctx viteManifest routeManifestExports
       = Some (Normal (manifest_routes m)).
Proof.
  unfold createBrowserManifestForBuild.
  destruct loaded as [viteManifest | e]; [| discriminate].
  destruct (resolveBuildAssetPaths fuel ctx viteManifest (entryClientFilePath ctx) [])
    as [[entryPaths | e] |] eqn:Hentry; try discriminate.
  destruct (getRouteManifestModuleExports viteChildCompiler ctx)
    as [routeManifestExports | e] eqn:Hexports; [| discriminate].
  destruct (buildRoutes fuel ctx viteManifest routeManifestExports)
    as [[builtRoutes | e] |] eqn:Hroutes; try discriminate.
  intros Hbuilt.
  apply (f_equal (fun r => match r with Some (Normal built) => built | _ => (m, w) end))
    in Hbuilt.
  cbv beta iota zeta in Hbuilt.
  pose proof (f_equal fst Hbuilt) as Hm. cbn [fst] in Hm. subst m.
  exists viteManifest, routeManifestExports. cbn [entry manifest_routes]. auto.
Qed.

(** One built route for each configured route, in order. *)
Lemma buildRoutes_Forall2 (fuel : nat) (ctx : RemixPluginContext) (viteManifest : Manifest)
      (routeManifestExports : list (string * list string))
      (built : list (string * ManifestRoute)) :
  buildRoutes fuel ctx viteManifest routeManifestExports = Some (Normal built) ->
  Forall2 (fun (kv : string * ConfigRoute) (kr : string * ManifestRoute) =>
             fst kr = fst kv
             /\ buildRoute fuel ctx viteManifest routeManifestExports (fst kv) (snd kv)
                = Some (Normal (snd kr)))
          (routes (remixConfig ctx)) built.
Proof.
  unfold buildRoutes. intros Hbuilt.
  destruct (for_of_collect
              (fun kv : string * ConfigRoute =>
                 match buildRoute fuel ctx viteManifest routeManifestExports (fst kv) (snd kv) with
                 | None => None
                 | Some (Throw e) => Some (Throw e)
                 | Some (Normal r) => Some (Normal (fst kv, r))
                 end)
              (routes (remixConfig ctx)) [] built) as (added & -> & Hall).
  - rewrite <- Hbuilt. apply for_of_ext. intros kv acc.
    now destruct (buildRoute fuel ctx viteManifest routeManifestExports (fst kv) (snd kv))
      as [[r | e] |].
  - simpl. revert Hall. apply Forall2_impl. intros kv [k r].
    destruct (buildRoute _ _ _ _ _ _) as [[r' | e] |]; try discriminate.
    intros [= <- <-]. auto.
Qed.

Lemma buildRoute_inv (fuel : nat) (ctx : RemixPluginContext) (viteManifest : Manifest)
      (routeManifestExports : list (string * list string))
      (key : string) (route : ConfigRoute) (r : ManifestRoute) :
  buildRoute fuel ctx viteManifest routeManifestExports key route = Some (Normal r) ->
  exists sourceExports,
    lookup routeManifestExports key = Some sourceExports
    /\ resolveBuildAssetPaths fuel ctx viteManifest
         (path_join (appDirectory (remixConfig ctx)) (route_file route))
         (match route_parentId route with
          | None => [entryClientFilePath ctx]
          | Some _ => []
          end)
       = Some (Normal (assetPaths r))
    /\ (id r = route_id route /\ parentId r = route_parentId route
        /\ path r = route_path route /\ index r = route_index route
        /\ caseSensitive r = route_caseSensitive route)
    /\ (hasAction r = arr_includes sourceExports "action"
        /\ hasLoader r = arr_includes sourceExports "loader"
        /\ hasClientAction r = arr_includes sourceExports "clientAction"
        /\ hasClientLoader r = arr_includes sourceExports "clientLoader"
        /\ hasErrorBoundary r = arr_includes sourceExports "ErrorBoundary").
Proof.
  unfold buildRoute. cbv zeta.
  destruct (lookup routeManifestExports key) as [sourceExports |]; [| discriminate].
  replace (if match route_parentId route with None => true | Some _ => false end
           then [entryClientFilePath ctx] else [])
    with (match route_parentId route with
          | None => [entryClientFilePath ctx]
          | Some _ => []
          end) by now destruct (route_parentId route).
  destruct (resolveBuildAssetPaths _ _ _ _ _) as [[paths | e] |]; try discriminate.
  intros [= <-]. exists sourceExports. cbn. repeat split.
Qed.

(** One list of exports for each configured route, in order. *)
Lemma getRouteManifestModuleExports_Forall2 (viteChildCompiler : option ViteDevServer)
      (ctx : RemixPluginContext) (routeManifestExports : list (string * list string)) :
  getRouteManifestModuleExports viteChildCompiler ctx = Normal routeManifestExports ->
  Forall2 (fun (kv : string * ConfigRoute) (ke : string * list string) =>
             fst ke = fst kv
             /\ getRouteModuleExports viteChildCompiler ctx (route_file (snd kv)) None
                = Normal (snd ke))
          (routes (remixConfig ctx)) routeManifestExports.
Proof.
  unfold getRouteManifestModuleExports. intros Hall. apply mapM_Normal in Hall.
  revert Hall. apply Forall2_impl. intros kv [k exports].
  destruct (getRouteModuleExports _ _ _ _) as [sourceExports | e]; simpl; [| discriminate].
  intros [= <- <-]. auto.
Qed.

End WithHost.

(** With distinct keys, a lookup finds the entry built for that key. *)
Lemma lookup_Forall2 {A B : Type} (R : A -> B -> Prop)
      (xs : list (string * A)) (ys : list (string * B)) :
  Forall2 (fun kx ky => fst ky = fst kx /\ R (snd kx) (snd ky)) xs ys ->
  forall key x y, In (key, x) xs -> NoDup (map fst xs) -> lookup ys key = Some y -> R x y.
Proof.
  induction 1 as [|[k a] [k' b] xs ys [Hk HR] Hall IH]; intros key x y; [intros [] |].
  simpl in Hk, HR. subst k'. intros Hin Hnodup. simpl in Hnodup.
  apply NoDup_cons_iff in Hnodup as [Hfresh Hnodup]. cbn [lookup].
  destruct (String.eqb k key) eqn:Hkey.
  - apply String.eqb_eq in Hkey. subst k. intros [= <-].
    destruct Hin as [[= <-] | Hin]; [assumption |].
    exfalso. apply Hfresh. apply in_map_iff. now exists (key, x).
  - apply String.eqb_neq in Hkey. destruct Hin as [[= Hk _] | Hin]; [contradiction |].
    intros Hy. exact (IH key x y Hin Hnodup Hy).
Qed.

Section Returned.

Context `{Host}.

Variables (fuel : nat) (loaded : completion Manifest)
          (viteChildCompiler : option ViteDevServer) (ctx : RemixPluginContext)
          (m : BrowserManifest) (w : WrittenFile).

(** X3.  A browser manifest that [createBrowserManifestForBuild] returns has
    one entry for each configured route, under the same key and in the same
    order; the entry copies [id], [parentId], [path], [index] and
    [caseSensitive] from the route, and each of its five flags says whether
    the exports of the route's own module, as [getRouteModuleExports] lists
    them, include the name. *)
Theorem createBrowserManifestForBuild_mirrors_routes :
  NoDup (map fst (routes (remixConfig ctx))) ->
  createBrowserManifestForBuild fuel loaded viteChildCompiler ctx = Some (Normal (m, w)) ->
  Forall2 (fun (kv : string * ConfigRoute) (kr : string * ManifestRoute) =>
             fst kr = fst kv
             /\ (id (snd kr) = route_id (snd kv)
                 /\ parentId (snd kr) = route_parentId (snd kv)
                 /\ path (snd kr) = route_path (snd kv)
                 /\ index (snd kr) = route_index (snd kv)
                 /\ caseSensitive (snd kr) = route_caseSensitive (snd kv))
             /\ exists sourceExports,
                 getRouteModuleExports viteChildCompiler ctx (route_file (snd kv)) None
                 = Normal sourceExports
                 /\ hasAction (snd kr) = arr_includes sourceExports "action"
                 /\ hasLoader (snd kr) = arr_includes sourceExports "loader"
                 /\ hasClientAction (snd kr) = arr_includes sourceExports "clientAction"
                 /\ hasClientLoader (snd kr) = arr_includes sourceExports "clientLoader"
                 /\ hasErrorBoundary (snd kr) = arr_includes sourceExports "ErrorBoundary")
          (routes (remixConfig ctx)) (manifest_routes m).
Proof.
  intros Hkeys Hbuilt.
  destruct (createBrowserManifestForBuild_inv _ _ _ _ _ _ Hbuilt)
    as (viteManifest & routeManifestExports & _ & _ & Hexports & Hroutes).
  apply getRouteManifestModuleExports_Forall2 in Hexports.
  apply buildRoutes_Forall2 in Hroutes.
  assert (Hown : forall kv, In kv (routes (remixConfig ctx)) ->
                 forall sourceExports,
                   lookup routeManifestExports (fst kv) = Some sourceExports ->
                   getRouteModuleExports viteChildCompiler ctx (route_file (snd kv)) None
                   = Normal sourceExports).
  { intros [key route] Hin sourceExports Hlookup.
    exact (lookup_Forall2
             (fun (route : ConfigRoute) exports =>
                getRouteModuleExports viteChildCompiler ctx (route_file route) None
                = Normal exports)
             _ _ Hexports key route sourceExports Hin Hkeys Hlookup). }
  clear Hexports Hkeys Hbuilt. revert Hown.
  induction Hroutes as [|kv kr l l' [Hkey Hroute] Hall IH]; intros Hown; constructor.
  - split; [exact Hkey |].
    destruct (buildRoute_inv _ _ _ _ _ _ _ Hroute)
      as (sourceExports & Hlookup & _ & Hfields & Hflags).
    split; [exact Hfields |]. exists sourceExports.
    split; [exact (Hown kv (or_introl eq_refl) _ Hlookup) | exact Hflags].
  - apply IH. intros kv' Hin. apply Hown. now right.
Qed.

(** X4.  In a browser manifest that [createBrowserManifestForBuild] returns,
    a route without a parent lists every import URL and every stylesheet URL
    of the client entry among its own. *)
Theorem root_route_lists_entry_assets :
  createBrowserManifestForBuild fuel loaded viteChildCompiler ctx = Some (Normal (m, w)) ->
  forall key r, In (key, r) (manifest_routes m) -> parentId r = None ->
    incl (asset_imports (entry m)) (asset_imports (assetPaths r))
    /\ incl (asset_css (entry m)) (asset_css (assetPaths r)).
Proof.
  intros Hbuilt key r Hin Hroot.
  destruct (createBrowserManifestForBuild_inv _ _ _ _ _ _ Hbuilt)
    as (viteManifest & routeManifestExports & _ & Hentry & _ & Hroutes).
  apply buildRoutes_Forall2 in Hroutes.
  destruct (Forall2_In_r _ _ _ _ Hroutes Hin) as ([key' route] & _ & _ & Hroute).
  cbn [fst snd] in Hroute.
  destruct (buildRoute_inv _ _ _ _ _ _ _ Hroute)
    as (sourceExports & _ & Hpaths & (_ & Hparent & _) & _).
  rewrite Hroot in Hparent. rewrite <- Hparent in Hpaths.
  destruct (resolveBuildAssetPaths_inv _ _ _ _ _ _ Hentry)
    as (entryChunk & pre & chunks & HentryChunk & Hpre & Hchunks & Himports & Hcss & _).
  destruct (resolveBuildAssetPaths_inv _ _ _ _ _ _ Hpaths)
    as (routeChunk & pre' & chunks' & _ & Hpre' & Hchunks' & Himports' & Hcss' & _).
  simpl in Hpre, Hpre'. rewrite HentryChunk in Hpre'. simpl in Hpre'.
  injection Hpre as <-. injection Hpre' as <-.
  assert (Hextends : exists extra, chunks' = chunks ++ extra).
  { unfold resolveDependantChunks in Hchunks, Hchunks'. simpl in Hchunks, Hchunks'.
    destruct (walk fuel viteManifest (Some entryChunk) []) as [[walked | e] |];
      try discriminate.
    injection Hchunks as ->.
    destruct (walk fuel viteManifest (Some routeChunk) chunks) as [[walked | e] |] eqn:Hwalk;
      try discriminate.
    injection Hchunks' as ->. exact (walk_extends _ _ _ _ _ Hwalk). }
  destruct Hextends as (extra & ->).
  assert (Hkeys : forall (f : ManifestChunk -> list string) x,
             In x (dedupe (flat_map f chunks)) ->
             In x (dedupe (flat_map f (chunks ++ extra)))).
  { intros f x. rewrite !dedupe_In, flat_map_app, in_app_iff. auto. }
  split.
  - intros importUrl Hurl.
    apply (mapM_In _ _ _ importUrl Himports) in Hurl as (importKey & HimportKey & Hresolved).
    apply (mapM_In _ _ _ importUrl Himports'). exists importKey. auto.
  - rewrite Hcss, Hcss'. intros href. rewrite !in_map_iff.
    intros (x & <- & Hx). exists x. auto.
Qed.

(** X5.  [createBrowserManifestForBuild] returns no manifest when the file of
    a configured route is a key of Vite's manifest neither with the
    [?client-route] query nor without it, and its root-relative path is not
    the name of a property that the parsed manifest inherits: for a path of
    such a name the access finds the inherited property, and
    [Prototype.resolveChunk] returns it. *)
Theorem route_without_chunk_fails_the_build (viteManifest : Manifest)
        (key : string) (route : ConfigRoute) :
  let rel := rootRelativeFilePath ctx
               (path_join (appDirectory (remixConfig ctx)) (route_file route)) in
  loaded = Normal viteManifest ->
  In (key, route) (routes (remixConfig ctx)) ->
  lookup viteManifest (rel ++ CLIENT_ROUTE_QUERY_STRING)%string = None ->
  lookup viteManifest rel = None ->
  ~ In rel Prototype.objectPrototypeKeys ->
  Prototype.resolveChunk ctx viteManifest
                         (path_join (appDirectory (remixConfig ctx)) (route_file route))
  = Throw (Error (notFoundMessage rel viteManifest))
  /\ createBrowserManifestForBuild fuel loaded viteChildCompiler ctx <> Some (Normal (m, w)).
Proof.
  intros rel Hloaded Hin Hquery Hplain Hown. split.
  - unfold Prototype.resolveChunk, Prototype.getProperty. cbv zeta. fold rel.
    rewrite Hquery, Hplain.
    assert (Hq : arr_includes Prototype.objectPrototypeKeys (rel ++ CLIENT_ROUTE_QUERY_STRING)
                 = false).
    { destruct (arr_includes _ (rel ++ CLIENT_ROUTE_QUERY_STRING)%string) eqn:Hq;
        [| reflexivity].
      apply existsb_exists in Hq as (name & Hname & Heq). apply String.eqb_eq in Heq.
      assert (Hend : endsWith name CLIENT_ROUTE_QUERY_STRING = true).
      { rewrite <- Heq. apply endsWith_iff. now exists rel. }
      repeat (destruct Hname as [<- | Hname]; [discriminate Hend |]). destruct Hname. }
    assert (Hb : arr_includes Prototype.objectPrototypeKeys rel = false).
    { destruct (arr_includes Prototype.objectPrototypeKeys rel) eqn:Hb; [| reflexivity].
      apply existsb_exists in Hb as (name & Hname & Heq). apply String.eqb_eq in Heq.
      now subst name. }
    now rewrite Hq, Hb.
  - intros Hbuilt.
    destruct (createBrowserManifestForBuild_inv _ _ _ _ _ _ Hbuilt)
      as (viteManifest' & routeManifestExports & Hloaded' & _ & _ & Hroutes).
    rewrite Hloaded in Hloaded'. injection Hloaded' as <-.
    apply buildRoutes_Forall2 in Hroutes.
    destruct (Forall2_In_l _ _ _ _ Hroutes Hin) as ([key' r] & _ & _ & Hroute).
    cbn [fst snd] in Hroute.
    destruct (buildRoute_inv _ _ _ _ _ _ _ Hroute) as (_ & _ & Hpaths & _).
    destruct (resolveBuildAssetPaths_inv _ _ _ _ _ _ Hpaths) as (c & _ & _ & Hc & _).
    unfold resolveChunk in Hc. cbv zeta in Hc. fold rel in Hc.
    rewrite Hquery, Hplain in Hc. discriminate.
Qed.

End Returned.

Import Examples.

Lemma createBrowserManifestForBuild_mirrors_routes_witness :
  Forall2 (fun (kv : string * ConfigRoute) (kr : string * ManifestRoute) =>
             fst kr = fst kv
             /\ (id (snd kr) = route_id (snd kv)
                 /\ parentId (snd kr) = route_parentId (snd kv)
                 /\ path (snd kr) = route_path (snd kv)
                 /\ index (snd kr) = route_index (snd kv)
                 /\ caseSensitive (snd kr) = route_caseSensitive (snd kv))
             /\ exists sourceExports,
                 @getRouteModuleExports posix (Some exampleChild) (exampleCtx true)
                                        (route_file (snd kv)) None
                 = Normal sourceExports
                 /\ hasAction (snd kr) = arr_includes sourceExports "action"
                 /\ hasLoader (snd kr) = arr_includes sourceExports "loader"
                 /\ hasClientAction (snd kr) = arr_includes sourceExports "clientAction"
                 /\ hasClientLoader (snd kr) = arr_includes sourceExports "clientLoader"
                 /\ hasErrorBoundary (snd kr) = arr_includes sourceExports "ErrorBoundary")
          exampleRoutes (manifest_routes (fst builtExample)).
Proof.
  apply (@createBrowserManifestForBuild_mirrors_routes
           posix 5 (Normal (clientBuild "assets/_index-425bf6ae.js")) (Some exampleChild)
           (exampleCtx true) (fst builtExample) (snd builtExample)).
  - simpl. repeat constructor; simpl; intuition discriminate.
  - exact FingerprintFacts.exampleBuild_returns.
Defined.

Lemma root_route_lists_entry_assets_witness :
  exists r,
    lookup (manifest_routes (fst builtExample)) "root" = Some r
    /\ incl (asset_imports (entry (fst builtExample))) (asset_imports (assetPaths r))
    /\ incl (asset_css (entry (fst builtExample))) (asset_css (assetPaths r)).
Proof.
  eexists. split; [vm_compute; reflexivity |].
  apply (@root_route_lists_entry_assets
           posix 5 (Normal (clientBuild "assets/_index-425bf6ae.js")) (Some exampleChild)
           (exampleCtx true) (fst builtExample) (snd builtExample)
           FingerprintFacts.exampleBuild_returns "root").
  - left. reflexivity.
  - reflexivity.
Defined.

Lemma route_without_chunk_fails_the_build_witness :
  lookup plainManifest "app/routes/about.tsx?client-route" = None
  /\ lookup plainManifest "app/routes/about.tsx" = None
  /\ @Prototype.resolveChunk posix (exampleCtx true) plainManifest
                             "/proj/app/routes/about.tsx"
     = Throw (Error (@notFoundMessage "app/routes/about.tsx" plainManifest))
  /\ @createBrowserManifestForBuild posix 5 (Normal plainManifest) (Some exampleChild)
                                    (exampleCtx true)
     <> Some (Normal (fst builtExample, snd builtExample)).
Proof.
  split; [reflexivity | split; [reflexivity |]].
  apply (@route_without_chunk_fails_the_build
           posix 5 (Normal plainManifest) (Some exampleChild) (exampleCtx true)
           (fst builtExample) (snd builtExample) plainManifest "routes/about" aboutRoute).
  - reflexivity.
  - right. right. left. reflexivity.
  - reflexivity.
  - reflexivity.
  - intros Hin. vm_compute in Hin.
    repeat (destruct Hin as [Hin | Hin]; [discriminate Hin |]). exact Hin.
Defined.

End BuildManifestFacts.

(** ** The format of a hash *)

Module HashFacts.

Import FingerprintFacts.

Local Open Scope list_scope.

Lemma length_substring_min (n : nat) (s : string) :
  String.length (String.substring 0 n s) = Nat.min n (String.length s).
Proof.
  revert s. induction n as [|n IH]; intros [|c s]; simpl; try reflexivity.
  now rewrite IH.
Qed.

Lemma substring_chars (n : nat) (s : string) (c : ascii) :
  In c (list_ascii_of_string (String.substring 0 n s)) -> In c (list_ascii_of_string s).
Proof.
  revert s. induction n as [|n IH]; intros [|d s]; simpl; try tauto.
  intros [-> | Hin]; [now left | right; now apply IH].
Qed.

Lemma append_chars (s t : string) :
  list_ascii_of_string (s ++ t) = list_ascii_of_string s ++ list_ascii_of_string t.
Proof.
  induction s as [|c s IH]; simpl; [reflexivity | now rewrite IH].
Qed.

Lemma hex_digit_lower (n : N) :
  (n < 16)%N -> In (Sha256.hex_digit n) (list_ascii_of_string "0123456789abcdef").
Proof.
  intros Hn. rewrite <- (N2Nat.id n). assert (Hk : N.to_nat n < 16) by lia.
  revert Hk. generalize (N.to_nat n). intros k Hk.
  do 16 (destruct k as [|k]; [vm_compute; tauto |]). lia.
Qed.

Lemma hex_word_lower (x : N) (c : ascii) :
  In c (list_ascii_of_string (Sha256.hex_word x)) ->
  In c (list_ascii_of_string "0123456789abcdef").
Proof.
  unfold Sha256.hex_word. rewrite list_ascii_of_string_of_list_ascii, in_map_iff.
  intros (i & <- & _). apply hex_digit_lower.
  change 15%N with (N.ones 4). rewrite N.land_ones. apply N.mod_lt. discriminate.
Qed.

(** X6.  [getHash] returns lower-case hexadecimal digits only: 64 of them
    without [maxLength], and the first [maxLength] of these 64 with it. *)
Theorem getHash_is_lower_hex (source : string) (maxLength : option nat) :
  String.length (getHash source maxLength)
  = match maxLength with Some n => Nat.min n 64 | None => 64 end
  /\ (forall c, In c (list_ascii_of_string (getHash source maxLength)) ->
                In c (list_ascii_of_string "0123456789abcdef")).
Proof.
  assert (Hfull : forall c, In c (list_ascii_of_string (Sha256.sha256_hex source)) ->
                            In c (list_ascii_of_string "0123456789abcdef")).
  { intros c. unfold Sha256.sha256_hex, Sha256.hex. rewrite !append_chars, !in_app_iff.
    intros Hc. repeat (destruct Hc as [Hc | Hc]; [now apply hex_word_lower in Hc |]).
    now apply hex_word_lower in Hc. }
  unfold getHash. cbv zeta. destruct maxLength as [n |].
  - rewrite length_substring_min, length_sha256_hex. split; [reflexivity |].
    intros c Hc. apply Hfull. exact (substring_chars _ _ _ Hc).
  - rewrite length_sha256_hex. split; [reflexivity | exact Hfull].
Qed.

Lemma getHash_is_lower_hex_witness :
  String.length (getHash "{}" (Some 8)) = 8
  /\ In "4"%char (list_ascii_of_string (getHash "{}" (Some 8)))
  /\ In "4"%char (list_ascii_of_string "0123456789abcdef").
Proof.
  destruct (getHash_is_lower_hex "{}" (Some 8)) as [Hlength Hhex].
  assert (Hfour : In "4"%char (list_ascii_of_string (getHash "{}" (Some 8))))
    by (vm_compute; left; reflexivity).
  split; [exact Hlength | split; [exact Hfour | exact (Hhex _ Hfour)]].
Defined.

End HashFacts.

(** ** What the JSON text of the config tells apart *)

Module ConfigJsonFacts.

Import JsonFacts DevFacts.

Local Open Scope list_scope.

Lemma route_json_inj (r1 r2 : ConfigRoute) : route_json r1 = route_json r2 -> r1 = r2.
Proof.
  destruct r1 as [i1 p1 pa1 ix1 cs1 f1], r2 as [i2 p2 pa2 ix2 cs2 f2].
  unfold route_json.
  cbn [route_id route_parentId route_path route_index route_caseSensitive route_file].
  destruct p1, pa1, ix1, cs1, p2, pa2, ix2, cs2; cbn [Json.optional app];
    intros Heq; try discriminate Heq; injection Heq; intros; subst; reflexivity.
Qed.

Lemma numberFree_route_json (r : ConfigRoute) : Json.numberFree (route_json r) = true.
Proof.
  unfold route_json.
  now destruct (route_path r), (route_index r), (route_caseSensitive r), (route_parentId r).
Qed.

Lemma config_routes_json_inj (rs1 rs2 : RouteManifest) :
  map (fun kv => (fst kv, route_json (snd kv))) rs1
  = map (fun kv => (fst kv, route_json (snd kv))) rs2 ->
  rs1 = rs2.
Proof.
  revert rs2.
  induction rs1 as [|[k1 r1] rs1 IH]; intros [|[k2 r2] rs2]; cbn [map fst snd];
    try discriminate; [reflexivity |].
  intros Heq.
  pose proof (f_equal (fun l => match l with (k, _) :: _ => k | [] => k1 end) Heq) as Hk.
  pose proof (f_equal (fun l => match l with (_, v) :: _ => v | [] => Json.JNull end) Heq)
    as Hv.
  pose proof (f_equal (@tl _) Heq) as Htl.
  cbv beta iota in Hk, Hv. cbn [tl] in Htl.
  apply route_json_inj in Hv. apply IH in Htl. now subst.
Qed.

Lemma numberFree_config_routes (rs : RouteManifest) :
  forallb (fun kv : string * Json.value => Json.numberFree (snd kv))
          (map (fun kv => (fst kv, route_json (snd kv))) rs) = true.
Proof.
  induction rs as [|kv rs IH]; [reflexivity |].
  cbn [map forallb snd]. now rewrite numberFree_route_json.
Qed.

(** The values [JSON.stringify] finds in a config have no number when the
    adapter and the future flags have none. *)
Lemma numberFree_remixConfig (c : ResolvedVitePluginConfig) :
  match adapter c with Some a => Json.numberFree a | None => true end = true ->
  Json.numberFree (future c) = true ->
  Json.numberFree (remixConfig_json c) = true.
Proof.
  intros Hadapter Hfuture. unfold remixConfig_json.
  destruct (adapter c) as [a |]; cbn [Json.optional app Json.numberFree forallb snd];
    now rewrite ?Hadapter, Hfuture, numberFree_config_routes.
Qed.

(** The JSON value of a config holds every field of it but [serverBundles]. *)
Lemma remixConfig_json_inj (c1 c2 : ResolvedVitePluginConfig) :
  remixConfig_json c1 = remixConfig_json c2 ->
  c2 = {| adapter := adapter c1; appDirectory := appDirectory c1;
          buildDirectory := buildDirectory c1; future := future c1;
          manifest := manifest c1; publicPath := publicPath c1; routes := routes c1;
          serverBuildFile := serverBuildFile c1; serverBundles := serverBundles c2;
          serverModuleFormat := serverModuleFormat c1; unstable_ssr := unstable_ssr c1 |}.
Proof.
  destruct c1 as [a1 ad1 bd1 fu1 ma1 pp1 rs1 sf1 sb1 sm1 us1],
           c2 as [a2 ad2 bd2 fu2 ma2 pp2 rs2 sf2 sb2 sm2 us2].
  unfold remixConfig_json.
  cbn [adapter appDirectory buildDirectory future manifest publicPath routes
       serverBuildFile serverBundles serverModuleFormat unstable_ssr].
  destruct a1, a2; cbn [Json.optional app]; intros Heq; try discriminate Heq;
    injection Heq; intros; subst;
    match goal with
    | Hrs : map _ _ = map _ _ |- _ => apply config_routes_json_inj in Hrs; subst
    end; reflexivity.
Qed.

Section WithHost.

Context `{Host}.

(** X7.  When the watcher recomputes the context and neither the old nor the
    new config has a number in its adapter or its future flags, a new config
    that differs from the old one in something [JSON.stringify] writes (any
    field but [serverBundles]; of the adapter, what is left of it without
    its functions) makes the handler invalidate each declared virtual module
    that has a module in the graph: the comparison of the two JSON texts
    does not take two such configs for equal. *)
Theorem watcher_invalidates_when_a_serialized_field_differs
        (st : PluginState) (server : DevServer) (ctx' : RemixPluginContext)
        (eventName filepath configFile : string)
        (Hconfig : viteConfig_configFile st = Some configFile)
        (Hnonempty : configFile <> EmptyString)
        (Htriggered : appFileAddedOrRemoved st eventName filepath
                      || viteConfigChanged configFile eventName filepath = true)
        (Hold : Json.numberFree (remixConfig_json (remixConfig (ctx st))) = true)
        (Hnew : Json.numberFree (remixConfig_json (remixConfig ctx')) = true)
        (Hdiffers :
           remixConfig ctx'
           <> {| adapter := adapter (remixConfig (ctx st));
                 appDirectory := appDirectory (remixConfig (ctx st));
                 buildDirectory := buildDirectory (remixConfig (ctx st));
                 future := future (remixConfig (ctx st));
                 manifest := manifest (remixConfig (ctx st));
                 publicPath := publicPath (remixConfig (ctx st));
                 routes := routes (remixConfig (ctx st));
                 serverBuildFile := serverBuildFile (remixConfig (ctx st));
                 serverBundles := serverBundles (remixConfig ctx');
                 serverModuleFormat := serverModuleFormat (remixConfig (ctx st));
                 unstable_ssr := unstable_ssr (remixConfig (ctx st)) |}) :
  onWatcherEvent (Normal ctx') eventName filepath st server
  = Normal (mkPlugin ctx' (viteConfig_configFile st) (viteChildCompiler st),
            mkServer (moduleGraph server)
                     (invalidated server
                      ++ filter (arr_includes (moduleGraph server))
                                [VirtualModule_resolve (VirtualModule_id "server-build");
                                 VirtualModule_resolve (VirtualModule_id "server-manifest");
                                 VirtualModule_resolve (VirtualModule_id "browser-manifest")])
                     (ws_sent server)).
Proof.
  unfold onWatcherEvent. rewrite Hconfig.
  apply String.eqb_neq in Hnonempty. rewrite Hnonempty, Htriggered.
  unfold updateRemixPluginContext. cbn [bind ctx]. unfold isEqualJson.
  destruct (String.eqb_spec (Json.stringify (remixConfig_json (remixConfig (ctx st))))
                            (Json.stringify (remixConfig_json (remixConfig ctx'))))
    as [Htext | Htext]; cbn [negb].
  - exfalso. apply Hdiffers. apply remixConfig_json_inj. now apply stringify_inj.
  - rewrite invalidateVirtualModules_spec, Hconfig. reflexivity.
Qed.

End WithHost.

Import Examples.

Lemma watcher_invalidates_when_a_serialized_field_differs_witness :
  let moved :=
    mkCtx "/proj" "/proj/app/entry.client.tsx" "/proj/app/entry.server.tsx"
          {| adapter := None; appDirectory := "/proj/app"; buildDirectory := "/proj/build";
             future := Json.JObject []; manifest := false; publicPath := "/static/";
             routes := exampleRoutes; serverBuildFile := "index.js";
             serverBundles := false; serverModuleFormat := "esm"; unstable_ssr := true |} in
  @onWatcherEvent posix (Normal moved) "change" "/proj/vite.config.ts" devState devServer
  = Normal (mkPlugin moved (Some "/proj/vite.config.ts") (Some exampleChild),
            mkServer (moduleGraph devServer)
                     [String (ascii_of_nat 0) "virtual:remix/server-manifest"] []).
Proof.
  intros moved.
  apply (@watcher_invalidates_when_a_serialized_field_differs
           posix devState devServer moved "change" "/proj/vite.config.ts"
           "/proj/vite.config.ts" eq_refl ltac:(discriminate) eq_refl eq_refl eq_refl).
  intros Heq. apply (f_equal publicPath) in Heq. discriminate Heq.
Defined.

End ConfigJsonFacts.

(** ** Hot updates against the manifest served in development *)

Module HmrFacts.

Import AssetPathFacts AssetPathSpecFacts BuildManifestFacts DevFacts.

Local Open Scope list_scope.

Section WithHost.

Context `{Host}.

Lemma getRoute_In (pluginConfig : ResolvedVitePluginConfig) (file : string)
      (route : ConfigRoute) :
  getRoute pluginConfig file = Some route ->
  startsWith file (normalizePath (appDirectory pluginConfig)) = true
  /\ route_file route = normalizePath (path_relative (appDirectory pluginConfig) file)
  /\ exists key, In (key, route) (routes pluginConfig).
Proof.
  unfold getRoute.
  destruct (startsWith file (normalizePath (appDirectory pluginConfig)));
    cbn [negb]; [| discriminate].
  intros Hfound. apply find_some in Hfound as [Hin Hfile].
  apply String.eqb_eq in Hfile. apply in_map_iff in Hin as ([key r] & Hr & Hin).
  simpl in Hr. subst r. split; [reflexivity | split; [exact Hfile | now exists key]].
Qed.

(** One served route for each configured route, in order. *)
Lemma getBrowserManifestForDev_inv (VirtualModule_url : string -> string) (random : string)
      (viteChildCompiler : option ViteDevServer) (ctx : RemixPluginContext)
      (served : DevBrowserManifest) :
  getBrowserManifestForDev VirtualModule_url random viteChildCompiler ctx = Normal served ->
  exists routeManifestExports,
    getRouteManifestModuleExports viteChildCompiler ctx = Normal routeManifestExports
    /\ Forall2 (fun (kv : string * ConfigRoute) (kr : string * ManifestRoute) =>
                  fst kr = fst kv
                  /\ devRoute ctx routeManifestExports (fst kv) (snd kv) = Normal (snd kr))
               (routes (remixConfig ctx)) (dev_routes served).
Proof.
  unfold getBrowserManifestForDev.
  destruct (getRouteManifestModuleExports viteChildCompiler ctx)
    as [routeManifestExports | e]; cbn [bind]; [| discriminate].
  destruct (mapM _ (routes (remixConfig ctx))) as [servedRoutes | e] eqn:Hroutes;
    cbn [bind]; [| discriminate].
  intros [= <-]. exists routeManifestExports. split; [reflexivity |].
  cbn [dev_routes]. apply mapM_Normal in Hroutes. revert Hroutes.
  apply Forall2_impl. intros kv [k r].
  destruct (devRoute ctx routeManifestExports (fst kv) (snd kv)) as [r' | e];
    cbn [bind]; [| discriminate].
  intros [= <- <-]. auto.
Qed.

(** X8.  In a dev session whose routes are keyed by their ids, take the
    manifest [getBrowserManifestForDev] served and a hot update of a route
    file.  The hook returns the modules it got and sends one payload, of
    type [custom] and event [remix:hmr], whose route is the fresh metadata:
    the identity fields of the route, and for each capability whether the
    exports of the file as now read include its name.  It invalidates the
    declared virtual modules that have a module in the graph exactly when,
    for one of [loader], [clientLoader], [action], [clientAction] and
    [ErrorBoundary], the exports of the file as now read include the name
    and the exports of the file as it was classified for the served
    manifest do not, or the other way round; otherwise it invalidates
    nothing. *)
Theorem hot_update_invalidates_iff_an_export_flag_changed
        (VirtualModule_url : string -> string) (random : string)
        (st : PluginState) (served : DevBrowserManifest) (server : DevServer)
        (file : string) (modules : list string) (read : completion string)
        (route : ConfigRoute) (oldExports newExports : list string)
        (Hkeys : NoDup (map fst (routes (remixConfig (ctx st)))))
        (Hids : forall key r, In (key, r) (routes (remixConfig (ctx st))) -> route_id r = key)
        (Hserved : getBrowserManifestForDev VirtualModule_url random
                                            (viteChildCompiler st) (ctx st)
                   = Normal served)
        (Hroute : getRoute (remixConfig (ctx st)) file = Some route)
        (Hold : getRouteModuleExports (viteChildCompiler st) (ctx st) (route_file route) None
                = Normal oldExports)
        (Hnew : getRouteModuleExports (viteChildCompiler st) (ctx st) (route_file route)
                                      (Some read)
                = Normal newExports) :
  let unchanged :=
    forallb (fun name => Bool.eqb (arr_includes oldExports name)
                                  (arr_includes newExports name))
            ["loader"; "clientLoader"; "action"; "clientAction"; "ErrorBoundary"] in
  let declared :=
    [VirtualModule_resolve (VirtualModule_id "server-build");
     VirtualModule_resolve (VirtualModule_id "server-manifest");
     VirtualModule_resolve (VirtualModule_id "browser-manifest")] in
  exists metadata,
    handleHotUpdate st (Normal (dev_routes served)) server file modules read
    = (mkServer (moduleGraph server)
                (invalidated server
                 ++ if unchanged then []
                    else filter (arr_includes (moduleGraph server)) declared)
                (ws_sent server ++ [mkPayload "custom" "remix:hmr" (Some metadata)]),
       Normal modules)
    /\ (info_id metadata = route_id route
        /\ info_parentId metadata = route_parentId route
        /\ info_path metadata = route_path route
        /\ info_index metadata = route_index route
        /\ info_caseSensitive metadata = route_caseSensitive route)
    /\ (info_hasAction metadata = arr_includes newExports "action"
        /\ info_hasLoader metadata = arr_includes newExports "loader"
        /\ info_hasClientAction metadata = arr_includes newExports "clientAction"
        /\ info_hasClientLoader metadata = arr_includes newExports "clientLoader"
        /\ info_hasErrorBoundary metadata = arr_includes newExports "ErrorBoundary").
Proof.
  intros unchanged declared.
  destruct (getRoute_In _ _ _ Hroute) as (_ & _ & key & Hin).
  pose proof (Hids key route Hin) as Hid.
  destruct (getBrowserManifestForDev_inv _ _ _ _ _ Hserved)
    as (routeManifestExports & Hexports & Hroutes).
  apply getRouteManifestModuleExports_Forall2 in Hexports.
  assert (Hlookup : exists old,
             lookup (dev_routes served) (route_id route) = Some old
             /\ devRoute (ctx st) routeManifestExports key route = Normal old).
  { rewrite Hid. clear Hexports Hid Hids Hroute Hold Hnew.
    induction Hroutes as [|[k r] [k' old] l l' [Hk Hbuilt] Hall IH]; [destruct Hin |].
    simpl in Hk, Hbuilt. subst k'. simpl in Hkeys.
    apply NoDup_cons_iff in Hkeys as [Hfresh Hkeys]. cbn [lookup].
    destruct Hin as [[= -> ->] | Hin].
    - rewrite String.eqb_refl. now exists old.
    - destruct (String.eqb_spec k key) as [-> | _].
      + exfalso. apply Hfresh. apply in_map_iff. now exists (key, route).
      + exact (IH Hkeys Hin). }
  destruct Hlookup as (old & Hlookup & Hbuilt).
  unfold devRoute in Hbuilt.
  destruct (lookup routeManifestExports key) as [sourceExports |] eqn:Hsource;
    [| discriminate].
  assert (Hown : getRouteModuleExports (viteChildCompiler st) (ctx st) (route_file route) None
                 = Normal sourceExports).
  { exact (lookup_Forall2
             (fun (route : ConfigRoute) exports =>
                getRouteModuleExports (viteChildCompiler st) (ctx st) (route_file route) None
                = Normal exports)
             _ _ Hexports key route sourceExports Hin Hkeys Hsource). }
  rewrite Hold in Hown. injection Hown as <-.
  unfold handleHotUpdate, getRouteMetadata. rewrite Hroute, Hnew. cbn [bind].
  rewrite Hlookup.
  match goal with |- context [hmrPayload (Some ?fresh)] => exists fresh end.
  split; [| cbn; repeat split].
  injection Hbuilt as <-. unfold flagsDiffer.
  cbn [hasLoader hasClientLoader hasAction hasClientAction hasErrorBoundary
       info_hasLoader info_hasClientLoader info_hasAction info_hasClientAction
       info_hasErrorBoundary].
  subst unchanged. cbn [forallb existsb].
  destruct (arr_includes oldExports "loader"), (arr_includes newExports "loader"),
    (arr_includes oldExports "clientLoader"), (arr_includes newExports "clientLoader"),
    (arr_includes oldExports "action"), (arr_includes newExports "action"),
    (arr_includes oldExports "clientAction"), (arr_includes newExports "clientAction"),
    (arr_includes oldExports "ErrorBoundary"), (arr_includes newExports "ErrorBoundary");
    cbn [Bool.eqb negb orb andb];
    first [ rewrite invalidateVirtualModules_spec; reflexivity
          | rewrite app_nil_r; reflexivity ].
Qed.

End WithHost.

Import Examples.

Lemma hot_update_invalidates_iff_an_export_flag_changed_witness :
  exists served metadata,
    @getBrowserManifestForDev posix (fun id => "/@id/" ++ id)%string "0.5"
                              (Some exampleChild) (exampleCtx true)
    = Normal served
    /\ @handleHotUpdate posix devState (Normal (dev_routes served)) devServer
                        "/proj/app/routes/about.tsx" ["/proj/app/routes/about.tsx"]
                        (Normal indexModule)
       = (mkServer (moduleGraph devServer)
                   [String (ascii_of_nat 0) "virtual:remix/server-manifest"]
                   [mkPayload "custom" "remix:hmr" (Some metadata)],
          Normal ["/proj/app/routes/about.tsx"])
    /\ info_id metadata = "routes/about"%string
    /\ info_hasLoader metadata = false.
Proof.
  assert (Hserved : exists served,
             @getBrowserManifestForDev posix (fun id => "/@id/" ++ id)%string "0.5"
                                       (Some exampleChild) (exampleCtx true)
             = Normal served) by (eexists; reflexivity).
  destruct Hserved as (served & Hserved). exists served.
  destruct (@hot_update_invalidates_iff_an_export_flag_changed
              posix (fun id => "/@id/" ++ id)%string "0.5" devState served devServer
              "/proj/app/routes/about.tsx" ["/proj/app/routes/about.tsx"]
              (Normal indexModule) aboutRoute ["loader"; "default"]
              ["HydrateFallback"; "default"])
    as (metadata & Hupdate & (Hid & _) & (_ & Hloader & _)).
  - simpl. repeat constructor; simpl; intuition discriminate.
  - intros key r [[= <- <-] | [[= <- <-] | [[= <- <-] | []]]]; reflexivity.
  - exact Hserved.
  - reflexivity.
  - reflexivity.
  - reflexivity.
  - exists metadata.
    split; [exact Hserved | split; [exact Hupdate | split; [exact Hid | exact Hloader]]].
Defined.

End HmrFacts.

(** ** The two client-side guards, in full *)

Module GuardFacts.

Import RouteExportFacts.

Local Open Scope list_scope.

Section WithHost.

Context `{Host}.

(** X9.  With [unstable_ssr] off, the client transform of a route module
    whose exports the lexer lists is settled by these exports alone: the
    module is transformed when it has none of the server-only exports and,
    unless it is the root route, no [HydrateFallback]; in every other case
    the transform throws an error, and it is the error about server-only
    exports whenever there is one. *)
Theorem spa_client_transform_accepts_iff_clean
        (ctx : RemixPluginContext) (code id : string) (route : ConfigRoute)
        (exports : list string)
        (Hspa : unstable_ssr (remixConfig ctx) = false)
        (Hroute : getRoute (remixConfig ctx) id = Some route)
        (Hlexed : esModuleLexer code = Normal exports) :
  let serverOnly := forall name, In name exports -> ~ In name SERVER_ONLY_ROUTE_EXPORTS in
  let fallbackAllowed := route_id route = "root"%string \/ ~ In "HydrateFallback"%string exports in
  (serverOnly /\ fallbackAllowed ->
   routeExportsTransform ctx code id false
   = Normal (Some (removeExports code SERVER_ONLY_ROUTE_EXPORTS)))
  /\ (~ serverOnly ->
      routeExportsTransform ctx code id false
      = Throw (Error (spaInvalidExportsMessage
                        (filter (fun name => arr_includes SERVER_ONLY_ROUTE_EXPORTS name) exports)
                        route)))
  /\ (serverOnly -> ~ fallbackAllowed ->
      routeExportsTransform ctx code id false
      = Throw (Error (spaHydrateFallbackMessage route))).
Proof.
  intros serverOnly fallbackAllowed.
  set (denied := filter (fun name => arr_includes SERVER_ONLY_ROUTE_EXPORTS name) exports).
  assert (Hrun : routeExportsTransform ctx code id false
                 = if Nat.ltb 0 (List.length denied)
                   then Throw (Error (spaInvalidExportsMessage denied route))
                   else if negb (String.eqb (route_id route) "root")
                             && existsb (fun exp => String.eqb exp "HydrateFallback") exports
                        then Throw (Error (spaHydrateFallbackMessage route))
                        else Normal (Some (removeExports code SERVER_ONLY_ROUTE_EXPORTS))).
  { unfold routeExportsTransform. rewrite Hroute, Hspa. cbn [negb].
    unfold spaModeChecks. rewrite Hlexed. cbn [bind]. fold denied.
    destruct (Nat.ltb 0 (List.length denied)); [reflexivity |].
    destruct (String.eqb (route_id route) "root"); cbn [negb andb bind]; [reflexivity |].
    now destruct (existsb (fun exp => String.eqb exp "HydrateFallback") exports). }
  assert (Hdenied : Nat.ltb 0 (List.length denied) = false <-> serverOnly).
  { split.
    - intros Hnone name Hname Hserver.
      assert (Hsome : Nat.ltb 0 (List.length denied) = true).
      { apply (filter_nonempty _ exports name Hname). now apply arr_includes_In. }
      now rewrite Hsome in Hnone.
    - intros Hclean. unfold denied. rewrite filter_empty; [reflexivity |].
      intros name Hname.
      destruct (arr_includes SERVER_ONLY_ROUTE_EXPORTS name) eqn:Hin; [| reflexivity].
      apply arr_includes_In in Hin. now destruct (Hclean name Hname). }
  assert (Hfallback : negb (String.eqb (route_id route) "root")
                      && existsb (fun exp => String.eqb exp "HydrateFallback") exports = false
                      <-> fallbackAllowed).
  { unfold fallbackAllowed. destruct (String.eqb_spec (route_id route) "root") as [Hroot | Hroot];
      cbn [negb andb]; [tauto |].
    split.
    - intros Hnone. right. intros Hin.
      assert (Hsome : existsb (fun exp => String.eqb exp "HydrateFallback") exports = true).
      { apply existsb_exists. exists "HydrateFallback"%string. now split. }
      now rewrite Hsome in Hnone.
    - intros [Hisroot | Hnone]; [contradiction |].
      destruct (existsb _ exports) eqn:Hsome; [| reflexivity].
      apply existsb_exists in Hsome as (name & Hname & Heq).
      apply String.eqb_eq in Heq. now subst name. }
  rewrite Hrun. repeat split.
  - intros [Hclean Hallowed]. apply Hdenied in Hclean. apply Hfallback in Hallowed.
    now rewrite Hclean, Hallowed.
  - intros Hdirty. destruct (Nat.ltb 0 (List.length denied)); [reflexivity |].
    destruct Hdirty. now apply Hdenied.
  - intros Hclean Hforbidden. apply Hdenied in Hclean. rewrite Hclean.
    destruct (negb (String.eqb (route_id route) "root")
              && existsb (fun exp => String.eqb exp "HydrateFallback") exports);
      [reflexivity |].
    destruct Hforbidden. now apply Hfallback.
Qed.

(** X10.  The resolver of server-only files never resolves an id itself,
    and an error of its own has one cause: a client-side call, outside its
    own nested resolution, whose id the other plugins resolve to a
    [.server] file or into a [.server] directory, from an importer that is
    known and, in the dev server, does not end with [.html].  Any other
    error is the one the nested resolution threw. *)
Theorem dot_server_resolver_throws_for_client_imports_only
        (viteCommand : string) (ctx : RemixPluginContext)
        (this_resolve : string -> option string -> completion (option string))
        (id : string) (importer : option string) (ssr isResolving : bool) :
  (forall resolved,
      dotServerResolveId viteCommand ctx this_resolve id importer ssr isResolving
      = Normal resolved ->
      resolved = None)
  /\ (forall e,
         dotServerResolveId viteCommand ctx this_resolve id importer ssr isResolving
         = Throw e ->
         ssr = false /\ isResolving = false
         /\ (this_resolve id importer = Throw e
             \/ exists resolvedId importerPath,
                 this_resolve id importer = Normal (Some resolvedId)
                 /\ (serverFileRE resolvedId = true \/ serverDirRE resolvedId = true)
                 /\ importer = Some importerPath
                 /\ importerPath <> EmptyString
                 /\ (viteCommand = "build"%string \/ endsWith importerPath ".html" = false)
                 /\ exists message,
                     e = Error message
                     /\ Mentions message id
                     /\ Mentions message
                                 (normalizePath (path_relative (rootDirectory ctx)
                                                               importerPath)))).
Proof.
  unfold dotServerResolveId.
  destruct ssr; [split; [now intros r [= <-] | discriminate] |].
  destruct isResolving; [split; [now intros r [= <-] | discriminate] |].
  destruct (this_resolve id importer) as [[resolvedId |] | e'] eqn:Hresolved; cbn [bind];
    [| split; [now intros r [= <-] | discriminate]
     | split; [discriminate | intros e [= <-]; auto]].
  destruct (serverFileRE resolvedId || serverDirRE resolvedId) eqn:Hre; cbn [negb];
    [| split; [now intros r [= <-] | discriminate]].
  destruct importer as [importerPath |]; [| split; [now intros r [= <-] | discriminate]].
  destruct (String.eqb_spec importerPath EmptyString) as [Hempty | Hnonempty];
    [split; [now intros r [= <-] | discriminate] |].
  destruct (negb (String.eqb viteCommand "build") && endsWith importerPath ".html")
    eqn:Hgate; [split; [now intros r [= <-] | discriminate] |].
  assert (Hwhy : viteCommand = "build"%string \/ endsWith importerPath ".html" = false).
  { apply andb_false_iff in Hgate as [Hbuild | Hhtml]; [left | now right].
    apply negb_false_iff in Hbuild. now apply String.eqb_eq. }
  apply orb_true_iff in Hre.
  split.
  - intros r. now destruct (getRoute (remixConfig ctx) importerPath).
  - intros e He. split; [reflexivity | split; [reflexivity | right]].
    exists resolvedId, importerPath.
    split; [reflexivity | split; [exact Hre | split; [reflexivity |]]].
    split; [exact Hnonempty | split; [exact Hwhy |]].
    set (importerShort := normalizePath (path_relative (rootDirectory ctx) importerPath))
      in *.
    destruct (getRoute (remixConfig ctx) importerPath); injection He as <-;
      eexists; (split; [reflexivity |]).
    + pose proof (dotServerRouteMessage_names id importerShort) as Hm.
      split; apply (Mentions_trans _ _ _ Hm); auto 10 with mentions.
    + pose proof (dotServerMessage_names id importerShort) as Hm.
      split; apply (Mentions_trans _ _ _ Hm); auto 10 with mentions.
Qed.

End WithHost.

Import Examples.

Lemma spa_client_transform_accepts_iff_clean_witness :
  @routeExportsTransform posix (exampleCtx false) "export default function About() {}"
                         "/proj/app/routes/about.tsx" false
  = Normal (Some "export default function About() {}"%string).
Proof.
  apply (proj1 (@spa_client_transform_accepts_iff_clean
                  posix (exampleCtx false) "export default function About() {}"
                  "/proj/app/routes/about.tsx" aboutRoute [] eq_refl eq_refl eq_refl)).
  split; [intros name [] | right; intros []].
Defined.

Lemma dot_server_resolver_throws_for_client_imports_only_witness :
  exists resolvedId,
    resolvesToDbServer "~/db.server" (Some "/proj/app/routes/about.tsx"%string)
    = Normal (Some resolvedId)
    /\ (serverFileRE resolvedId = true \/ serverDirRE resolvedId = true).
Proof.
  assert (Hthrow : exists e,
             @dotServerResolveId posix "build" (exampleCtx true) resolvesToDbServer
                                 "~/db.server" (Some "/proj/app/routes/about.tsx"%string)
                                 false false
             = Throw e) by (eexists; reflexivity).
  destruct Hthrow as (e & Hthrow).
  destruct (proj2 (@dot_server_resolver_throws_for_client_imports_only
                     posix "build" (exampleCtx true) resolvesToDbServer "~/db.server"
                     (Some "/proj/app/routes/about.tsx"%string) false false) e Hthrow)
    as (_ & _ & [Hnested | (resolvedId & importerPath & Hresolved & Hre & _)]).
  - discriminate Hnested.
  - exists resolvedId. split; [exact Hresolved | exact Hre].
Defined.

End GuardFacts.

(** ** After the server build *)

Module RelocationFacts.

Local Open Scope list_scope.
Local Open Scope build_scope.

Section WithHost.

Context `{Host} `{BuildHost}.


(** [handleSpaMode], case by case. *)
Lemma handleSpaMode_cases (serverBuildDirectoryPath file clientBuildDirectory : string)
      (viteConfig : ViteConfig) (calls : list Effect) :
  handleSpaMode serverBuildDirectoryPath file clientBuildDirectory viteConfig calls
  = match render (path_join serverBuildDirectoryPath file) (vite_mode viteConfig) with
    | Throw e => (calls, Throw e)
    | Normal (status, html) =>
        if negb (N.eqb status 200)
        then (calls, Throw (Error (spaStatusMessage status html)))
        else if negb (includes html "window.__remixContext =")
                || negb (includes html "window.__remixRouteModules =")
             then (calls, Throw (Error spaScriptsMessage))
             else
               let indexHtml := path_join clientBuildDirectory "index.html" in
               let written := WriteFile indexHtml html in
               match fse_writeFile indexHtml html with
               | Throw e => (calls ++ [written], Throw e)
               | Normal _ =>
                   (calls
                    ++ [written;
                        LogInfo ("SPA Mode: index.html has been written to your "
                                 ++ colors_bold (path_relative process_cwd clientBuildDirectory)
                                 ++ " directory");
                        RemoveSync serverBuildDirectoryPath],
                    fse_removeSync serverBuildDirectoryPath)
               end
    end.
Proof.
  unfold handleSpaMode, bindB, lift, call.
  destruct (render _ _) as [[status html] | e]; [| reflexivity]. cbn [fst snd].
  destruct (negb (N.eqb status 200)); [reflexivity |].
  destruct (negb (includes html "window.__remixContext =")
            || negb (includes html "window.__remixRouteModules =")); [reflexivity |].
  cbv zeta. destruct (fse_writeFile _ html) as [[] | e]; [| reflexivity].
  now rewrite <- !app_assoc.
Qed.

Lemma handleSpaMode_cases_extend (serverBuildDirectoryPath file clientBuildDirectory : string)
      (viteConfig : ViteConfig) (calls calls' : list Effect) (r : completion unit) :
  handleSpaMode serverBuildDirectoryPath file clientBuildDirectory viteConfig calls
  = (calls', r) ->
  exists spa, calls' = calls ++ spa.
Proof.
  rewrite handleSpaMode_cases.
  destruct (render _ _) as [[status html] | e];
    [| intros [= <- _]; exists []; now rewrite app_nil_r].
  destruct (negb (N.eqb status 200));
    [intros [= <- _]; exists []; now rewrite app_nil_r |].
  destruct (negb (includes html "window.__remixContext =")
            || negb (includes html "window.__remixRouteModules ="));
    [intros [= <- _]; exists []; now rewrite app_nil_r |].
  cbv zeta. destruct (fse_writeFile _ html) as [[] | e]; intros [= <- _]; eexists; reflexivity.
Qed.

(** The loop only moves and removes. *)
Lemma moveAssets_calls (serverBuildDirectory clientBuildDirectory : string)
      (clientAssetPaths ssrAssetPaths : list string) :
  forall movedAssetPaths calls calls' r,
    moveAssets serverBuildDirectory clientBuildDirectory clientAssetPaths ssrAssetPaths
               movedAssetPaths calls
    = (calls', r) ->
    exists made,
      calls' = calls ++ made
      /\ Forall (fun e => match e with Move _ _ | Remove _ => True | _ => False end) made.
Proof.
  induction ssrAssetPaths as [|p rest IH]; intros movedAssetPaths calls calls' r.
  - cbn. intros [= <- <-]. exists []. now rewrite app_nil_r.
  - cbn [moveAssets].
    destruct (arr_includes clientAssetPaths p); cbn [negb]; unfold bindB, call.
    + destruct (fse_remove (path_join serverBuildDirectory p)) as [[] | e].
      * intros Hrest. apply IH in Hrest as (made & -> & Hmade).
        exists (Remove (path_join serverBuildDirectory p) :: made).
        split; [now rewrite <- app_assoc | now constructor].
      * intros [= <- <-]. exists [Remove (path_join serverBuildDirectory p)].
        split; [reflexivity | now repeat constructor].
    + destruct (fse_move (path_join serverBuildDirectory p)
                         (path_join clientBuildDirectory p)) as [[] | e].
      * intros Hrest. apply IH in Hrest as (made & -> & Hmade).
        exists (Move (path_join serverBuildDirectory p) (path_join clientBuildDirectory p)
                  :: made).
        split; [now rewrite <- app_assoc | now constructor].
      * intros [= <- <-].
        exists [Move (path_join serverBuildDirectory p) (path_join clientBuildDirectory p)].
        split; [reflexivity | now repeat constructor].
Qed.

(** The calls of [writeBundle]: those of the relocation, which move, remove
    and log, and then those of [handleSpaMode], if it is reached. *)
Lemma writeBundle_calls (ctx : RemixPluginContext) (serverContext : ServerContext)
      (viteConfig : option ViteConfig) (calls calls' : list Effect) (r : completion unit) :
  writeBundle ctx serverContext viteConfig calls = (calls', r) ->
  exists relocation spa,
    calls' = calls ++ relocation ++ spa
    /\ Forall (fun e => match e with Move _ _ | Remove _ | LogInfo _ => True | _ => False end)
              relocation
    /\ (spa = [] /\ (r = Normal tt ->
                      isSsrBuild serverContext = false
                      \/ unstable_ssr (remixConfig ctx) = true)
        \/ exists config,
            isSsrBuild serverContext = true
            /\ unstable_ssr (remixConfig ctx) = false
            /\ viteConfig = Some config
            /\ handleSpaMode (getServerBuildDirectory ctx serverContext)
                             (serverBuildFile (remixConfig ctx))
                             (getClientBuildDirectory (remixConfig ctx)) config
                             (calls ++ relocation)
               = (calls ++ relocation ++ spa, r)).
Proof.
  assert (Hnothing : forall r',
            (r' = Normal tt ->
             isSsrBuild serverContext = false \/ unstable_ssr (remixConfig ctx) = true) ->
            (calls, r') = (calls', r) ->
            exists relocation spa,
              calls' = calls ++ relocation ++ spa
              /\ Forall (fun e => match e with
                                  | Move _ _ | Remove _ | LogInfo _ => True
                                  | _ => False
                                  end) relocation
              /\ (spa = [] /\ (r = Normal tt ->
                                isSsrBuild serverContext = false
                                \/ unstable_ssr (remixConfig ctx) = true)
                  \/ exists config,
                      isSsrBuild serverContext = true
                      /\ unstable_ssr (remixConfig ctx) = false
                      /\ viteConfig = Some config
                      /\ handleSpaMode (getServerBuildDirectory ctx serverContext)
                                       (serverBuildFile (remixConfig ctx))
                                       (getClientBuildDirectory (remixConfig ctx)) config
                                       (calls ++ relocation)
                         = (calls ++ relocation ++ spa, r))).
  { intros r' Hwhy [= <- <-]. exists [], []. rewrite !app_nil_r. auto. }
  unfold writeBundle.
  destruct (isSsrBuild serverContext) eqn:Hssr; cbn [negb]; [| apply Hnothing; auto].
  destruct viteConfig as [config |]; [| apply Hnothing; discriminate].
  cbv zeta. unfold bindB at 1, lift at 1.
  destruct (loadViteManifest (getServerBuildDirectory ctx serverContext))
    as [ssrViteManifest | e]; [| apply Hnothing; discriminate].
  unfold bindB at 1, lift at 1.
  destruct (loadViteManifest (getClientBuildDirectory (remixConfig ctx)))
    as [clientViteManifest | e]; [| apply Hnothing; discriminate].
  unfold bindB at 1.
  destruct (moveAssets _ _ _ _ [] calls) as [calls1 [movedAssetPaths | e]] eqn:Hmove;
    apply moveAssets_calls in Hmove as (made & -> & Hmade).
  2:{ intros [= <- <-]. exists made, []. rewrite app_nil_r.
      split; [reflexivity | split; [| left; split; [reflexivity | discriminate]]].
      revert Hmade. apply Forall_impl. now intros []. }
  set (removals := map Remove
                       (map (fun cssPath =>
                               path_join (getServerBuildDirectory ctx serverContext) cssPath)
                            (flat_map (fun chunk => orEmpty (css chunk))
                                      (map snd ssrViteManifest)))).
  assert (Hremovals : Forall (fun e => match e with
                                       | Move _ _ | Remove _ | LogInfo _ => True
                                       | _ => False
                                       end) (made ++ removals)).
  { apply Forall_app. split.
    - revert Hmade. apply Forall_impl. now intros [].
    - unfold removals. apply Forall_forall. intros e He.
      apply in_map_iff in He as (x & <- & _). exact I. }
  unfold bindB at 1, removeAll. fold removals.
  destruct (mapM fse_remove _) as [removed | e]; cbn [bind].
  2:{ intros [= <- <-]. exists (made ++ removals), [].
      rewrite app_nil_r, app_assoc.
      split; [reflexivity | split; [exact Hremovals | left; split; [reflexivity | discriminate]]]. }
  unfold bindB at 1.
  destruct (Nat.ltb 0 (List.length movedAssetPaths)).
  - unfold call at 1.
    destruct (negb (unstable_ssr (remixConfig ctx))) eqn:Hspa.
    + intros Hrun.
      destruct (handleSpaMode_cases_extend _ _ _ _ _ _ _ Hrun) as (spa & ->).
      exists (made ++ removals ++ [LogInfo (movedMessage ctx movedAssetPaths)]), spa.
      rewrite <- !app_assoc in Hrun. rewrite <- !app_assoc.
      split; [reflexivity | split].
      * rewrite app_assoc. apply Forall_app. split; [exact Hremovals | now repeat constructor].
      * right. exists config. apply negb_true_iff in Hspa.
        split; [reflexivity | split; [exact Hspa | split; [reflexivity | exact Hrun]]].
    + intros [= <- <-].
      exists (made ++ removals ++ [LogInfo (movedMessage ctx movedAssetPaths)]), [].
      rewrite <- !app_assoc, app_nil_r. apply negb_false_iff in Hspa.
      split; [reflexivity | split; [| left; split; [reflexivity | auto]]].
      rewrite app_assoc. apply Forall_app. split; [exact Hremovals | now repeat constructor].
  - unfold ret at 1.
    destruct (negb (unstable_ssr (remixConfig ctx))) eqn:Hspa.
    + intros Hrun.
      destruct (handleSpaMode_cases_extend _ _ _ _ _ _ _ Hrun) as (spa & ->).
      exists (made ++ removals), spa.
      rewrite <- !app_assoc in Hrun. rewrite <- !app_assoc.
      split; [reflexivity | split].
      * exact Hremovals.
      * right. exists config. apply negb_true_iff in Hspa.
        split; [reflexivity | split; [exact Hspa | split; [reflexivity | exact Hrun]]].
    + intros [= <- <-]. exists (made ++ removals), [].
      rewrite <- !app_assoc, app_nil_r. apply negb_false_iff in Hspa.
      split; [reflexivity | split; [exact Hremovals | left; split; [reflexivity | auto]]].
Qed.



(** The calls of [handleSpaMode]: none when it throws before the write. *)
Lemma handleSpaMode_shape (serverBuildDirectoryPath file clientBuildDirectory : string)
      (viteConfig : ViteConfig) (calls spa : list Effect) (r : completion unit) :
  handleSpaMode serverBuildDirectoryPath file clientBuildDirectory viteConfig calls
  = (calls ++ spa, r) ->
  let indexHtml := path_join clientBuildDirectory "index.html" in
  (spa = [] /\ r <> Normal tt)
  \/ exists html,
      render (path_join serverBuildDirectoryPath file) (vite_mode viteConfig)
      = Normal (200%N, html)
      /\ includes html "window.__remixContext =" = true
      /\ includes html "window.__remixRouteModules =" = true
      /\ ((spa = [WriteFile indexHtml html] /\ r <> Normal tt)
          \/ (exists message,
                 spa = [WriteFile indexHtml html; LogInfo message;
                        RemoveSync serverBuildDirectoryPath])
             /\ fse_writeFile indexHtml html = Normal tt).
Proof.
  intros Hrun indexHtml. rewrite handleSpaMode_cases in Hrun. revert Hrun.
  assert (Hnone : forall e, (calls, @Throw unit e) = (calls ++ spa, r) ->
                            spa = [] /\ r <> Normal tt).
  { intros e [= Hcalls <-]. rewrite <- (app_nil_r calls) in Hcalls at 1.
    apply app_inv_head in Hcalls. now split. }
  destruct (render _ _) as [[status html] | e]; [| intros Hrun; left; exact (Hnone _ Hrun)].
  destruct (N.eqb_spec status 200) as [-> | Hstatus]; cbn [negb];
    [| intros Hrun; left; exact (Hnone _ Hrun)].
  destruct (includes html "window.__remixContext =") eqn:Hcontext; cbn [negb orb];
    [| intros Hrun; left; exact (Hnone _ Hrun)].
  destruct (includes html "window.__remixRouteModules =") eqn:Hmodules; cbn [negb];
    [| intros Hrun; left; exact (Hnone _ Hrun)].
  cbv zeta. fold indexHtml. clear Hnone.
  destruct (fse_writeFile indexHtml html) as [[] | e] eqn:Hwrite; intros Hrun;
    pose proof (f_equal fst Hrun) as Hcalls; pose proof (f_equal snd Hrun) as Hr;
    cbn [fst snd] in Hcalls, Hr; apply app_inv_head in Hcalls; subst spa; right;
    exists html;
    (split; [reflexivity | split; [exact Hcontext | split; [exact Hmodules |]]]).
  - right. split; [eexists; reflexivity | exact Hwrite].
  - left. split; [reflexivity |]. rewrite <- Hr. discriminate.
Qed.

(** X12.  [writeBundle] writes no file but [index.html] in the client build
    directory, and only in SPA mode after a server build, with the body of
    a response of status 200 that holds both hydration scripts; it removes
    the server build directory only after this write has returned; and
    after a server build in SPA mode it does not return without both. *)
Theorem writeBundle_writes_index_html_before_removing_the_server_build
        (ctx : RemixPluginContext) (serverContext : ServerContext)
        (viteConfig : option ViteConfig) (calls : list Effect) (r : completion unit)
        (Hrun : writeBundle ctx serverContext viteConfig [] = (calls, r)) :
  let serverBuildDirectory := getServerBuildDirectory ctx serverContext in
  let indexHtml := path_join (getClientBuildDirectory (remixConfig ctx)) "index.html" in
  (forall file contents,
      In (WriteFile file contents) calls ->
      file = indexHtml
      /\ isSsrBuild serverContext = true
      /\ unstable_ssr (remixConfig ctx) = false
      /\ (exists config,
             viteConfig = Some config
             /\ render (path_join serverBuildDirectory (serverBuildFile (remixConfig ctx)))
                       (vite_mode config)
                = Normal (200%N, contents))
      /\ includes contents "window.__remixContext =" = true
      /\ includes contents "window.__remixRouteModules =" = true)
  /\ (forall directory,
         In (RemoveSync directory) calls ->
         directory = serverBuildDirectory
         /\ exists html,
             In (WriteFile indexHtml html) calls /\ fse_writeFile indexHtml html = Normal tt)
  /\ (isSsrBuild serverContext = true -> unstable_ssr (remixConfig ctx) = false ->
      r = Normal tt ->
      (exists html, In (WriteFile indexHtml html) calls)
      /\ In (RemoveSync serverBuildDirectory) calls).
Proof.
  intros serverBuildDirectory indexHtml.
  destruct (writeBundle_calls _ _ _ _ _ _ Hrun) as (relocation & spa & -> & Hrelocation & Hspa).
  cbn [app].
  assert (Hclean : forall e, In e relocation ->
                             match e with Move _ _ | Remove _ | LogInfo _ => True | _ => False end)
    by now apply Forall_forall.
  assert (Hnone : spa = [] ->
            (r = Normal tt ->
             isSsrBuild serverContext = false \/ unstable_ssr (remixConfig ctx) = true) ->
            (forall file contents,
                In (WriteFile file contents) (relocation ++ spa) -> False)
            /\ (forall directory, In (RemoveSync directory) (relocation ++ spa) -> False)
            /\ (isSsrBuild serverContext = true -> unstable_ssr (remixConfig ctx) = false ->
                r = Normal tt -> False)).
  { intros -> Hwhy. rewrite app_nil_r. split; [| split].
    - intros file contents Hin. exact (Hclean _ Hin).
    - intros directory Hin. exact (Hclean _ Hin).
    - intros Hssr Hmode Hr. destruct (Hwhy Hr); congruence. }
  destruct Hspa as [[Hempty Hwhy] | (config & Hssr & Hmode & -> & Hspa)].
  { destruct (Hnone Hempty Hwhy) as (Hw & Hr & Hn). split; [| split].
    - intros file contents Hin. destruct (Hw _ _ Hin).
    - intros directory Hin. destruct (Hr _ Hin).
    - intros Hssr Hmode Hret. destruct (Hn Hssr Hmode Hret). }
  cbn [app] in Hspa. apply handleSpaMode_shape in Hspa.
  fold serverBuildDirectory indexHtml in Hspa.
  destruct Hspa as [[Hempty Hthrown]
                   | (html & Hrender & Hcontext & Hmodules & Hwritten)].
  { destruct (Hnone Hempty) as (Hw & Hr & Hn); [intros Hret; contradiction |].
    split; [| split].
    - intros file contents Hin. destruct (Hw _ _ Hin).
    - intros directory Hin. destruct (Hr _ Hin).
    - intros _ _ Hret. contradiction. }
  assert (Hwrites : forall file contents,
             In (WriteFile file contents) (relocation ++ spa) ->
             file = indexHtml /\ contents = html).
  { intros file contents Hin. apply in_app_iff in Hin as [Hin | Hin];
      [destruct (Hclean _ Hin) |].
    destruct Hwritten as [[-> _] | [(message & ->) _]].
    - destruct Hin as [[= <- <-] | []]. now split.
    - destruct Hin as [[= <- <-] | [Hin | [Hin | []]]]; [now split | |]; discriminate Hin. }
  split; [| split].
  - intros file contents Hin. destruct (Hwrites _ _ Hin) as [-> ->].
    split; [reflexivity | split; [exact Hssr | split; [exact Hmode |]]].
    split; [now exists config | now split].
  - intros directory Hin. apply in_app_iff in Hin as [Hin | Hin];
      [destruct (Hclean _ Hin) |].
    destruct Hwritten as [[-> _] | [(message & ->) Hwrite]].
    + destruct Hin as [Hin | []]. discriminate Hin.
    + destruct Hin as [Hin | [Hin | [[= <-] | []]]]; try discriminate Hin.
      split; [reflexivity |]. exists html. split; [| exact Hwrite].
      apply in_app_iff. right. now left.
  - intros _ _ Hret. destruct Hwritten as [[_ Hthrown] | [(message & ->) _]];
      [contradiction |].
    split.
    + exists html. apply in_app_iff. right. now left.
    + apply in_app_iff. right. right. right. now left.
Qed.

(** The loop stops at the first call that throws. *)
Lemma moveAssets_stops (serverBuildDirectory clientBuildDirectory : string)
      (clientAssetPaths done : list string) (p : string) (rest : list string) (e : JsError) :
  let outcome := fun q => if arr_includes clientAssetPaths q
                          then fse_remove (path_join serverBuildDirectory q)
                          else fse_move (path_join serverBuildDirectory q)
                                        (path_join clientBuildDirectory q) in
  let plan := fun q => if arr_includes clientAssetPaths q
                       then Remove (path_join serverBuildDirectory q)
                       else Move (path_join serverBuildDirectory q)
                                 (path_join clientBuildDirectory q) in
  (forall q, In q done -> outcome q = Normal tt) ->
  outcome p = Throw e ->
  forall movedAssetPaths calls,
    moveAssets serverBuildDirectory clientBuildDirectory clientAssetPaths
               (done ++ p :: rest) movedAssetPaths calls
    = (calls ++ map plan (done ++ [p]), Throw e).
Proof.
  intros outcome plan Hdone Hfail.
  induction done as [|q done IH]; intros movedAssetPaths calls.
  - cbn [app moveAssets map]. unfold outcome in Hfail. unfold plan.
    destruct (arr_includes clientAssetPaths p); cbn [negb]; unfold bindB, call;
      now rewrite Hfail.
  - cbn [app moveAssets map].
    pose proof (Hdone q (or_introl eq_refl)) as Hq. unfold outcome in Hq.
    unfold plan at 1.
    destruct (arr_includes clientAssetPaths q); cbn [negb]; unfold bindB, call;
      rewrite Hq, IH by (intros q' Hq'; apply Hdone; now right);
      now rewrite <- app_assoc.
Qed.

(** X13.  After a server build, the first asset of the server build whose
    move to the client build, or whose removal, throws ends [writeBundle]
    with that error: the assets before it have been moved or removed, and
    nothing else has been called, so that the later assets and the
    stylesheets of the server build stay where they are and, in SPA mode,
    no [index.html] is written. *)
Theorem writeBundle_stops_at_the_first_failed_relocation
        (ctx : RemixPluginContext) (serverContext : ServerContext) (config : ViteConfig)
        (ssrViteManifest clientViteManifest : Manifest)
        (done : list string) (p : string) (rest : list string) (e : JsError) :
  let serverBuildDirectory := getServerBuildDirectory ctx serverContext in
  let clientBuildDirectory := getClientBuildDirectory (remixConfig ctx) in
  let outcome := fun q => if arr_includes (assetPathsOf clientViteManifest) q
                          then fse_remove (path_join serverBuildDirectory q)
                          else fse_move (path_join serverBuildDirectory q)
                                        (path_join clientBuildDirectory q) in
  let plan := fun q => if arr_includes (assetPathsOf clientViteManifest) q
                       then Remove (path_join serverBuildDirectory q)
                       else Move (path_join serverBuildDirectory q)
                                 (path_join clientBuildDirectory q) in
  isSsrBuild serverContext = true ->
  loadViteManifest serverBuildDirectory = Normal ssrViteManifest ->
  loadViteManifest clientBuildDirectory = Normal clientViteManifest ->
  assetPathsOf ssrViteManifest = done ++ p :: rest ->
  (forall q, In q done -> outcome q = Normal tt) ->
  outcome p = Throw e ->
  writeBundle ctx serverContext (Some config) [] = (map plan (done ++ [p]), Throw e).
Proof.
  intros serverBuildDirectory clientBuildDirectory outcome plan
         Hssr Hserver Hclient Hsplit Hdone Hfail.
  unfold writeBundle. rewrite Hssr. cbn [negb]. cbv zeta.
  fold serverBuildDirectory clientBuildDirectory.
  unfold bindB at 1, lift at 1. rewrite Hserver.
  unfold bindB at 1, lift at 1. rewrite Hclient.
  unfold bindB at 1. rewrite Hsplit.
  now rewrite (moveAssets_stops serverBuildDirectory clientBuildDirectory
                                (assetPathsOf clientViteManifest) done p rest e Hdone Hfail).
Qed.

End WithHost.

Import Examples BuildExamples.


Lemma relocatedInSpaMode_returns :
  @writeBundle posix (builder (fun _ => false)) (exampleCtx false) serverBuild
               (Some production) []
  = (relocatedInSpaMode, Normal tt).
Proof.
  vm_compute. reflexivity.
Qed.


Lemma writeBundle_writes_index_html_before_removing_the_server_build_witness :
  (exists html, In (WriteFile "/proj/build/client/index.html" html) relocatedInSpaMode)
  /\ In (RemoveSync "/proj/build/server") relocatedInSpaMode.
Proof.
  exact (proj2 (proj2 (@writeBundle_writes_index_html_before_removing_the_server_build
                         posix (builder (fun _ => false)) (exampleCtx false) serverBuild
                         (Some production) relocatedInSpaMode (Normal tt)
                         relocatedInSpaMode_returns))
               eq_refl eq_refl eq_refl).
Defined.

Lemma writeBundle_stops_at_the_first_failed_relocation_witness :
  @writeBundle posix
               (builder (String.eqb "/proj/build/server/assets/font-55667788.woff2"))
               (exampleCtx false) serverBuild (Some production) []
  = ([Remove "/proj/build/server/assets/logo-11223344.svg";
      Move "/proj/build/server/assets/font-55667788.woff2"
           "/proj/build/client/assets/font-55667788.woff2"],
     Throw (Error "dest already exists.")).
Proof.
  apply (@writeBundle_stops_at_the_first_failed_relocation
           posix (builder (String.eqb "/proj/build/server/assets/font-55667788.woff2"))
           (exampleCtx false) serverBuild production serverManifest clientManifest
           ["assets/logo-11223344.svg"%string] "assets/font-55667788.woff2" []
           (Error "dest already exists.")).
  - reflexivity.
  - reflexivity.
  - reflexivity.
  - reflexivity.
  - intros q [<- | []]. reflexivity.
  - reflexivity.
Defined.

End RelocationFacts.
